(** * Gantt widget: task derivation, ordering, grouping and timeline layout

    A shallow embedding of the computational core of the widget:
    - [DataProcessor] (services/dataProcessor.ts): field extraction, mirror
      data, task construction and the sort comparator;
    - [GanttChart] (components/GanttChart.tsx): the valid-task filter, the
      padded date window, the pixel scale and the group buckets;
    - [GanttBar] (components/GanttBar.tsx): bar geometry and the drag
      handlers;
    - [GanttHeader] (components/GanttHeader.tsx): the days and months of
      the header;
    - [MondayService] (services/mondayService.ts): the board id of the
      URL; [SettingsPanel] and [App]: the selection of boards.

    Conventions of the embedding.
    - A JavaScript number is a [number]: NaN, the two infinities, or a finite
      value carried as an exact rational (rounding to binary64 and the sign
      of zero are not represented).  The theorems therefore state the
      expressions the code evaluates, facts about whole numbers of days and
      comparisons that rounding preserves; none rests on an identity of
      exact arithmetic such as distributivity or the cancellation of a
      quotient.
    - A value of type [any] is a [JSValue]; strings are byte strings.
    - An object used as a dictionary is a finite map of its own
      properties.  For [groups], whose keys are group labels, a read of a
      key that names a member of [Object.prototype] gives the inherited
      member ([inherited]).  For [mirrorData] and [mirrorMappings], whose
      keys are column and board ids, such keys are not represented.
    - A thrown exception is [None] in the option monad; every [try]/[catch]
      of the source is a [match] on that option.
    - A [Date] is its time value in milliseconds since the epoch, or
      [InvalidDate].  The calendar functions of moment are taken in a time
      zone with a constant UTC offset, so one day is 86 400 000 ms; the
      limit of 8.64e15 ms on time values is not represented.
    - Built-ins of the language runtime whose behaviour is locale or engine
      defined ([JSON.parse], [parseFloat], the [Date] constructor, string
      to number conversion, [localeCompare], [Date.prototype.toString],
      [Array.prototype.sort]) are
      the fields of the class [Host]; [Example.host] is a reference
      instance used to run the definitions on concrete inputs. *)

From Stdlib Require Import ZArith QArith Qround String Ascii List Lia Lqa.
From Stdlib Require Import Qminmax DecimalString.
From stdpp Require Import gmap strings list.

Set Warnings "-register-all".

(** ** JavaScript values *)

Module Js.

Inductive number : Type :=
| NaN
| NegInf
| Fin (q : Q)
| PosInf.

(** [a - b] *)
Definition nsub (a b : number) : number :=
  match a with
  | NaN => NaN
  | PosInf => match b with NaN | PosInf => NaN | _ => PosInf end
  | NegInf => match b with NaN | NegInf => NaN | _ => NegInf end
  | Fin x =>
      match b with
      | NaN => NaN
      | PosInf => NegInf
      | NegInf => PosInf
      | Fin y => Fin (x - y)
      end
  end.

(** [a + b] *)
Definition nadd (a b : number) : number :=
  match a with
  | NaN => NaN
  | PosInf => match b with NaN | NegInf => NaN | _ => PosInf end
  | NegInf => match b with NaN | PosInf => NaN | _ => NegInf end
  | Fin x =>
      match b with
      | Fin y => Fin (x + y)
      | _ => b
      end
  end.

(** [a * b]; the product of two finite values is the exact one. *)
Definition nmul (a b : number) : number :=
  let sign (n : number) : comparison :=
    match n with
    | NaN => Eq
    | NegInf => Lt
    | PosInf => Gt
    | Fin q => (q ?= 0)%Q
    end in
  match a, b with
  | NaN, _ | _, NaN => NaN
  | Fin x, Fin y => Fin (x * y)
  | _, _ =>
      match sign a, sign b with
      | Eq, _ | _, Eq => NaN
      | Lt, Lt | Gt, Gt => PosInf
      | _, _ => NegInf
      end
  end.

(** [a / b]; the quotient of two finite values is the exact one. *)
Definition ndiv (a b : number) : number :=
  match a, b with
  | NaN, _ | _, NaN => NaN
  | Fin x, Fin y =>
      match (y ?= 0)%Q with
      | Eq => match (x ?= 0)%Q with Eq => NaN | Lt => NegInf | Gt => PosInf end
      | _ => Fin (x / y)
      end
  | Fin _, _ => Fin 0
  | PosInf, Fin y => if Qle_bool 0 y then PosInf else NegInf
  | NegInf, Fin y => if Qle_bool 0 y then NegInf else PosInf
  | _, _ => NaN
  end.

(** [Math.min(a, b)] and [Math.max(a, b)] *)
Definition Math_min (a b : number) : number :=
  match a, b with
  | NaN, _ | _, NaN => NaN
  | NegInf, _ | _, NegInf => NegInf
  | PosInf, n | n, PosInf => n
  | Fin x, Fin y => Fin (if Qle_bool x y then x else y)
  end.

Definition Math_max (a b : number) : number :=
  match a, b with
  | NaN, _ | _, NaN => NaN
  | PosInf, _ | _, PosInf => PosInf
  | NegInf, n | n, NegInf => n
  | Fin x, Fin y => Fin (if Qle_bool x y then y else x)
  end.

(** [Math.min(...l)] and [Math.max(...l)]; with no argument they are
    [Infinity] and [-Infinity]. *)
Definition Math_min_list (l : list number) : number := fold_right Math_min PosInf l.
Definition Math_max_list (l : list number) : number := fold_right Math_max NegInf l.

(** [Math.round(a)]: the nearest integer, ties towards +Infinity. *)
Definition Math_round (a : number) : number :=
  match a with
  | Fin q => Fin (inject_Z (Qfloor (q + (1 # 2))))
  | _ => a
  end.

(** [n < 0] and [n > 0]; both are false on NaN. *)
Definition negative (n : number) : bool :=
  match n with
  | NegInf => true
  | Fin q => negb (Qle_bool 0 q)
  | _ => false
  end.

Definition positive (n : number) : bool :=
  match n with
  | PosInf => true
  | Fin q => negb (Qle_bool q 0)
  | _ => false
  end.

(** Equality of numbers as values (the finite ones as rationals). *)
Definition num_eq (a b : number) : Prop :=
  match a, b with
  | NaN, NaN | NegInf, NegInf | PosInf, PosInf => True
  | Fin x, Fin y => (x == y)%Q
  | _, _ => False
  end.

(** [lo <= n <= hi] for a finite [n]; false on NaN and the infinities. *)
Definition between (lo hi : Q) (n : number) : Prop :=
  match n with
  | Fin q => (lo <= q)%Q /\ (q <= hi)%Q
  | _ => False
  end.

(** A value of type [any]: what [JSON.parse] returns, a property read, or a
    string taken from a column. *)
Inductive JSValue : Type :=
| VUndefined
| VNull
| VBool (b : bool)
| VNum (n : number)
| VStr (s : string)
| VArr (elems : list JSValue)
| VObj (props : list (string * JSValue)).

(** Truthiness: the test of [if (v)], [v ? a : b], [!v] and [v || d]. *)
Definition truthy (v : JSValue) : bool :=
  match v with
  | VUndefined | VNull => false
  | VBool b => b
  | VNum NaN => false
  | VNum (Fin q) => negb (Qeq_bool q 0)
  | VNum _ => true
  | VStr s => negb (String.eqb s "")
  | VArr _ | VObj _ => true
  end.

(** [v || d] *)
Definition or_default (v d : JSValue) : JSValue := if truthy v then v else d.

(** Own property of an object built by [JSON.parse]; a later duplicate
    key overrides an earlier one. *)
Fixpoint own_property (props : list (string * JSValue)) (k : string) : option JSValue :=
  match props with
  | [] => None
  | (k', v) :: rest =>
      match own_property rest k with
      | Some w => Some w
      | None => if String.eqb k' k then Some v else None
      end
  end.

(** [v.k] for a key [k] that no prototype defines (the source reads [from],
    [to], [date] and [color]).  Reading a property of [null] or [undefined]
    throws a TypeError. *)
Definition getProp (v : JSValue) (k : string) : option JSValue :=
  match v with
  | VUndefined | VNull => None
  | VObj props => Some (default VUndefined (own_property props k))
  | _ => Some VUndefined
  end.

(** Strings.  [toLowerCase] acts on the ASCII letters. *)
Definition lower_ascii (c : ascii) : ascii :=
  let n := nat_of_ascii c in
  if (Nat.leb 65 n && Nat.leb n 90)%bool then ascii_of_nat (n + 32) else c.

Fixpoint toLowerCase (s : string) : string :=
  match s with
  | EmptyString => EmptyString
  | String c rest => String (lower_ascii c) (toLowerCase rest)
  end.

(** [s.includes(needle)] *)
Fixpoint includes (s needle : string) : bool :=
  (String.prefix needle s ||
   match s with
   | EmptyString => false
   | String _ rest => includes rest needle
   end)%bool.

(** A string is truthy when it is not empty; [value] fields that may be
    [null] are [option string]. *)
Definition truthy_str (s : string) : bool := negb (String.eqb s "").

Definition truthy_opt (o : option string) : bool :=
  match o with
  | Some s => truthy_str s
  | None => false
  end.

Definition nonempty (o : option string) : option string :=
  match o with
  | Some s => if truthy_str s then Some s else None
  | None => None
  end.

(** [s || d] *)
Definition str_or (s d : string) : string := if truthy_str s then s else d.

(** The members a plain object inherits from [Object.prototype].  The read
    [o[k]] of a key [k] that is no own property of [o] gives the inherited
    member when [k] is one of these names; that member is truthy and is no
    array. *)
Definition Object_prototype_members : list string :=
  [ "constructor"; "hasOwnProperty"; "isPrototypeOf"; "propertyIsEnumerable";
    "toLocaleString"; "toString"; "valueOf"; "__proto__";
    "__defineGetter__"; "__defineSetter__"; "__lookupGetter__"; "__lookupSetter__" ].

Definition inherited (key : string) : bool :=
  existsb (String.eqb key) Object_prototype_members.

(** [l.forEach(f)] for a callback that changes the state [s] and may
    throw: the loop ends at the first exception. *)
Fixpoint forEach {A S : Type} (f : S -> A -> option S) (l : list A) (s : S) : option S :=
  match l with
  | [] => Some s
  | x :: rest =>
      match f s x with
      | Some s' => forEach f rest s'
      | None => None
      end
  end.

(** A [Date] object. *)
Inductive Date : Type :=
| InvalidDate
| DateTime (ms : Z).

(** [d.getTime()] *)
Definition getTime (d : Date) : number :=
  match d with
  | InvalidDate => NaN
  | DateTime ms => Fin (inject_Z ms)
  end.

(** [new Date(n)] for a number [n]: the time value is truncated to an
    integer; NaN and the infinities give an invalid date. *)
Definition Date_of_number (n : number) : Date :=
  match n with
  | Fin q => DateTime (Z.quot (Qnum q) (Z.pos (Qden q)))
  | _ => InvalidDate
  end.

(** The built-ins the embedding does not fix.  A result of [None] is a
    thrown exception. *)
Class Host : Type := {
  (** [JSON.parse(text)]; [None] is a SyntaxError. *)
  JSON_parse : string -> option JSValue;
  (** The conversion of a string to a number (empty string to 0, a text
      that is no numeric literal to NaN). *)
  StringToNumber : string -> number;
  (** [ToNumber] on an array or an object: [ToPrimitive] and then the
      conversion of the primitive; [None] is a TypeError. *)
  ObjectToNumber : JSValue -> option number;
  (** [parseFloat(v)]; [None] is a TypeError from the conversion of [v] to a
      string. *)
  parseFloat : JSValue -> option number;
  (** [new Date(v)] for a value [v]. *)
  Date_new : JSValue -> option Date;
  (** [String(d)] for a date. *)
  Date_toString : Date -> string;
  (** [String(n)] for a number. *)
  Number_toString : number -> string;
  (** [a.localeCompare(b)]: negative, zero or positive. *)
  localeCompare : string -> string -> Z;
  (** [l.sort(compare)], whose result for a comparator that is no
      consistent order is left to the engine. *)
  Array_sort : forall A : Type, (A -> A -> number) -> list A -> list A
}.

Section WithHost.
Context `{Host}.

(** [ToNumber(v)], the coercion applied by [Math.min] and [Math.max]. *)
Definition ToNumber (v : JSValue) : option number :=
  match v with
  | VUndefined => Some NaN
  | VNull => Some (Fin 0)
  | VBool b => Some (Fin (if b then 1 else 0))
  | VNum n => Some n
  | VStr s => Some (StringToNumber s)
  | VArr _ | VObj _ => ObjectToNumber v
  end.

End WithHost.

End Js.

(** ** moment, for the unit ['days'] *)

Module Moment.
Import Js.

Definition day_ms : Z := 86400000.

(** moment's [absRound]: [Math.round] away from the sign. *)
Definition absRound (q : Q) : Z :=
  if Qle_bool 0 q then Qfloor (q + (1 # 2)) else (- Qfloor (- q + (1 # 2)))%Z.

(** [moment(d).add(amount, 'days').toDate()].  An invalid date stays
    invalid, a NaN amount changes nothing and an infinite amount gives an
    invalid date. *)
Definition add (d : Date) (amount : number) : Date :=
  match d with
  | InvalidDate => InvalidDate
  | DateTime ms =>
      match amount with
      | Fin q => DateTime (ms + absRound q * day_ms)
      | NaN => d
      | _ => InvalidDate
      end
  end.

(** [moment(d).subtract(amount, 'days').toDate()] *)
Definition subtract (d : Date) (amount : number) : Date :=
  match d with
  | InvalidDate => InvalidDate
  | DateTime ms =>
      match amount with
      | Fin q => DateTime (ms - absRound q * day_ms)
      | NaN => d
      | _ => InvalidDate
      end
  end.

(** [moment(a).diff(moment(b), 'days')]: whole days, truncated towards
    zero; NaN when a date is invalid. *)
Definition diff (a b : Date) : number :=
  match a, b with
  | DateTime x, DateTime y => Fin (inject_Z (Z.quot (x - y) day_ms))
  | _, _ => NaN
  end.

(** [moment(a).isAfter(b)] and [moment(a).isBefore(b)] *)
Definition isAfter (a b : Date) : bool :=
  match a, b with
  | DateTime x, DateTime y => (y <? x)%Z
  | _, _ => false
  end.

Definition isBefore (a b : Date) : bool :=
  match a, b with
  | DateTime x, DateTime y => (x <? y)%Z
  | _, _ => false
  end.

End Moment.

(** ** The declarations of types/index.ts

    Optional members are [option]s.  [MondayColumnValue.value] is the
    JSON text of the column or [null]; members that no modelled function
    reads ([additional_info], [MondayItem.board], [MondayBoard.items],
    [GanttTask.children]) are left out. *)

Module MondayColumn.
Record t : Type := mk {
  id : string;
  title : string;
  type : string;
  settings_str : option string;
  archived : option bool
}.
End MondayColumn.

Module MondayGroup.
Record t : Type := mk {
  id : string;
  title : string;
  color : string;
  position : string
}.
End MondayGroup.

Module MondayColumnValue.
Record t : Type := mk {
  id : string;
  title : string;
  type : string;
  value : option string;
  text : string
}.
End MondayColumnValue.

Module MondayItem.
Inductive t : Type := mk {
  id : string;
  name : string;
  column_values : list MondayColumnValue.t;
  group : option MondayGroup.t;
  subitems : option (list t)
}.
End MondayItem.

Module MondayBoard.
Record t : Type := mk {
  id : string;
  name : string;
  description : option string;
  board_kind : string;
  columns : list MondayColumn.t;
  groups : list MondayGroup.t
}.
End MondayBoard.

Module TimelineData.
Record t : Type := mk {
  from : option Js.Date;
  to : option Js.Date
}.
End TimelineData.

(** The entries of [GanttTask.mirrorData]. *)
Module MirrorDatum.
Record t : Type := mk {
  displayValue : string;
  rawValue : Js.JSValue;
  sourceColumnTitle : string;
  sourceBoardName : string;
  type : string
}.
End MirrorDatum.

Module GanttTask.
Record t : Type := mk {
  id : string;
  name : string;
  startDate : option Js.Date;
  endDate : option Js.Date;
  progress : option Js.number;
  color : option Js.JSValue;
  group : option string;
  boardId : option string;
  boardName : option string;
  parentId : option string;
  originalItem : MondayItem.t;
  mirrorData : option (gmap string MirrorDatum.t)
}.
End GanttTask.

Inductive SortDirection : Type := asc | desc.

Module GanttSettings.
Record t : Type := mk {
  colorByColumn : option string;
  groupByColumn : option string;
  sortByColumn : option string;
  sortDirection : option SortDirection;
  showSubitems : option bool;
  timelineColumn : option string;
  mirrorColumns : option (list string);
  selectedBoards : option (list string)
}.
End GanttSettings.

Module MirrorColumnMapping.
Record t : Type := mk {
  sourceColumnId : string;
  sourceColumnTitle : string;
  sourceBoardId : string;
  sourceBoardName : string;
  mirrorColumnId : string;
  mirrorColumnTitle : string;
  targetBoardId : string
}.
End MirrorColumnMapping.

(** ** services/dataProcessor.ts *)

Module DataProcessor.
Import Js.

(** The fields of the class; [allItems] lists the boards in the order
    [Object.entries] enumerates them. *)
Record t : Type := mk {
  boards : list MondayBoard.t;
  allItems : list (string * list MondayItem.t);
  mirrorMappings : gmap string (list MirrorColumnMapping.t)
}.

Definition setBoards (this : t) (bs : list MondayBoard.t) : t :=
  mk bs (allItems this) (mirrorMappings this).

Definition setItems (this : t) (items : list (string * list MondayItem.t)) : t :=
  mk (boards this) items (mirrorMappings this).

Definition setMirrorMappings (this : t)
    (mappings : gmap string (list MirrorColumnMapping.t)) : t :=
  mk (boards this) (allItems this) mappings.

Definition default_color : JSValue := VStr "#037f4c".

(** [item.column_values.find(cv => cv.id === columnId)] *)
Definition find_by_id (item : MondayItem.t) (columnId : string) : option MondayColumnValue.t :=
  List.find (fun cv => String.eqb (MondayColumnValue.id cv) columnId)
    (MondayItem.column_values item).

Section Methods.
Context `{Host}.

(** [v ? new Date(v) : null] *)
Definition date_or_null (v : JSValue) : option (option Date) :=
  if truthy v then d ← Date_new v; Some (Some d) else Some None.

Definition no_timeline : TimelineData.t := TimelineData.mk None None.

Definition extractTimelineData (item : MondayItem.t) (timelineColumnId : option string)
    : TimelineData.t :=
  let timelineColumn :=
    match nonempty timelineColumnId with
    | Some columnId => find_by_id item columnId
    | None =>
        List.find (fun cv =>
          (String.eqb (MondayColumnValue.type cv) "timeline" ||
           String.eqb (MondayColumnValue.type cv) "date" ||
           String.eqb (MondayColumnValue.type cv) "creation_log")%bool)
          (MondayItem.column_values item)
    end in
  match timelineColumn with
  | None => no_timeline
  | Some column =>
      match nonempty (MondayColumnValue.value column) with
      | None => no_timeline
      | Some value =>
          (* the body of [try]: [Some (Some r)] returns [r], [Some None]
             leaves the block without returning, [None] is an exception *)
          let attempt : option (option TimelineData.t) :=
            if String.eqb (MondayColumnValue.type column) "timeline" then
              timelineValue ← JSON_parse value;
              f ← getProp timelineValue "from";
              from ← date_or_null f;
              t ← getProp timelineValue "to";
              to ← date_or_null t;
              Some (Some (TimelineData.mk from to))
            else if String.eqb (MondayColumnValue.type column) "date" then
              dateValue ← JSON_parse value;
              d ← getProp dateValue "date";
              date ← date_or_null d;
              Some (Some (TimelineData.mk date date))
            else Some None in
          match attempt with
          | Some (Some r) => r
          | _ => no_timeline
          end
      end
  end.

(** One iteration of [mappings.forEach] in [extractMirrorData]. *)
Definition addMirrorEntry (item : MondayItem.t)
    (mirrorData : gmap string MirrorDatum.t) (mapping : MirrorColumnMapping.t)
    : gmap string MirrorDatum.t :=
  match find_by_id item (MirrorColumnMapping.mirrorColumnId mapping) with
  | None => mirrorData
  | Some mirrorColumn =>
      match nonempty (MondayColumnValue.value mirrorColumn) with
      | None => mirrorData
      | Some value =>
          let rawValue :=
            match JSON_parse value with
            | Some parsedValue => parsedValue
            | None => VStr value
            end in
          <[ MirrorColumnMapping.mirrorColumnId mapping :=
             MirrorDatum.mk
               (MondayColumnValue.text mirrorColumn)
               rawValue
               (MirrorColumnMapping.sourceColumnTitle mapping)
               (MirrorColumnMapping.sourceBoardName mapping)
               (MondayColumnValue.type mirrorColumn) ]> mirrorData
      end
  end.

(** What an entry made from the column [cv] with payload [value] holds:
    the display text, the type, and the decoded payload or, when decoding
    fails, the payload itself. *)
Definition stored_for (cv : MondayColumnValue.t) (value : string) (d : MirrorDatum.t) : Prop :=
  MirrorDatum.displayValue d = MondayColumnValue.text cv /\
  MirrorDatum.rawValue d = default (VStr value) (JSON_parse value) /\
  MirrorDatum.type d = MondayColumnValue.type cv.

Definition extractMirrorData (this : t) (item : MondayItem.t) (boardId : string)
    : gmap string MirrorDatum.t :=
  let mappings := default [] (mirrorMappings this !! boardId) in
  fold_left (addMirrorEntry item) mappings ∅.

Definition isProgressColumn (cv : MondayColumnValue.t) : bool :=
  (String.eqb (MondayColumnValue.type cv) "numeric" &&
   (includes (toLowerCase (MondayColumnValue.title cv)) "progress" ||
    includes (toLowerCase (MondayColumnValue.title cv)) "complete" ||
    includes (toLowerCase (MondayColumnValue.title cv)) "%"))%bool.

Definition extractProgress (item : MondayItem.t) : number :=
  match List.find isProgressColumn (MondayItem.column_values item) with
  | None => Fin 0
  | Some progressColumn =>
      match nonempty (MondayColumnValue.value progressColumn) with
      | None => Fin 0
      | Some value =>
          let attempt : option number :=
            numericValue ← JSON_parse value;
            n ← ToNumber (or_default numericValue (VNum (Fin 0)));
            Some (Math_max (Fin 0) (Math_min (Fin 100) n)) in
          default (Fin 0) attempt
      end
  end.

(** [colorData.color || '#037f4c'] inside a [try] whose handler returns
    the default colour. *)
Definition color_member (colorData : option JSValue) : JSValue :=
  default default_color
    (data ← colorData; c ← getProp data "color"; Some (or_default c default_color)).

Definition getColorFromValue (mirrorValue : MirrorDatum.t) : JSValue :=
  let rawValue := MirrorDatum.rawValue mirrorValue in
  (* [typeof rawValue === 'string' ? JSON.parse(rawValue) : rawValue] *)
  let decode (_ : unit) : option JSValue :=
    match rawValue with
    | VStr s => JSON_parse s
    | _ => Some rawValue
    end in
  if (String.eqb (MirrorDatum.type mirrorValue) "color" && truthy rawValue)%bool then
    color_member (decode tt)
  else if (String.eqb (MirrorDatum.type mirrorValue) "status" && truthy rawValue)%bool then
    color_member (decode tt)
  else default_color.

Definition getColorFromColumnValue (column : MondayColumnValue.t) : JSValue :=
  match nonempty (MondayColumnValue.value column) with
  | None => default_color
  | Some value =>
      if String.eqb (MondayColumnValue.type column) "color" then
        color_member (JSON_parse value)
      else if String.eqb (MondayColumnValue.type column) "status" then
        color_member (JSON_parse value)
      else if String.eqb (MondayColumnValue.type column) "dropdown" then
        color_member (JSON_parse value)
      else default_color
  end.

Definition extractColor (item : MondayItem.t) (colorByColumnId : option string)
    (mirrorData : option (gmap string MirrorDatum.t)) : JSValue :=
  let fallback :=
    match MondayItem.group item with
    | Some g => VStr (MondayGroup.color g)
    | None => default_color
    end in
  match nonempty colorByColumnId with
  | None => fallback
  | Some columnId =>
      match mirrorData ≫= (.!! columnId) with
      | Some mirrorValue => getColorFromValue mirrorValue
      | None =>
          match find_by_id item columnId with
          | Some colorColumn => getColorFromColumnValue colorColumn
          | None => fallback
          end
      end
  end.

Definition extractGroup (item : MondayItem.t) (groupByColumnId : option string)
    (mirrorData : option (gmap string MirrorDatum.t)) : string :=
  let fallback :=
    match MondayItem.group item with
    | Some g => str_or (MondayGroup.title g) "No Group"
    | None => "No Group"
    end in
  match nonempty groupByColumnId with
  | None => fallback
  | Some columnId =>
      match mirrorData ≫= (.!! columnId) with
      | Some mirrorValue => str_or (MirrorDatum.displayValue mirrorValue) "Unknown"
      | None =>
          match find_by_id item columnId with
          | Some groupColumn => str_or (MondayColumnValue.text groupColumn) "Unknown"
          | None => fallback
          end
      end
  end.

Definition convertItemToGanttTask (this : t) (item : MondayItem.t)
    (board : MondayBoard.t) (settings : GanttSettings.t) (parentId : option string)
    : option GanttTask.t :=
  let timelineData := extractTimelineData item (GanttSettings.timelineColumn settings) in
  match TimelineData.from timelineData, TimelineData.to timelineData with
  | None, None => None
  | _, _ =>
      let mirrorData := extractMirrorData this item (MondayBoard.id board) in
      Some (GanttTask.mk
        (MondayItem.id item)
        (MondayItem.name item)
        (TimelineData.from timelineData)
        (TimelineData.to timelineData)
        (Some (extractProgress item))
        (Some (extractColor item (GanttSettings.colorByColumn settings) (Some mirrorData)))
        (Some (extractGroup item (GanttSettings.groupByColumn settings) (Some mirrorData)))
        (Some (MondayBoard.id board))
        (Some (MondayBoard.name board))
        parentId
        item
        (Some mirrorData))
  end.

(** The values [aValue] and [bValue] of the comparator in [sortTasks]. *)
Inductive SortValue : Type :=
| SVNull
| SVStr (s : string)
| SVDate (d : Date)
| SVNum (n : number).

Definition SortValue_of_date (d : option Date) : SortValue :=
  match d with
  | Some x => SVDate x
  | None => SVNull
  end.

(** [String(v)] *)
Definition String_of (v : SortValue) : string :=
  match v with
  | SVNull => "null"
  | SVStr s => s
  | SVDate d => Date_toString d
  | SVNum n => Number_toString n
  end.

(** [column?.text || ''] *)
Definition text_or_empty (column : option MondayColumnValue.t) : string :=
  match column with
  | Some c => str_or (MondayColumnValue.text c) ""
  | None => ""
  end.

(** [parseFloat(JSON.parse(column?.value || '0'))] *)
Definition numeric_of (column : option MondayColumnValue.t) : option number :=
  let text := default "0" (nonempty (column ≫= MondayColumnValue.value)) in
  v ← JSON_parse text; parseFloat v.

(** The first part of the comparator: the two values before the
    replacement of [null]. *)
Definition sortValues (sortByColumn : string) (a b : GanttTask.t) : SortValue * SortValue :=
  if String.eqb sortByColumn "name" then
    (SVStr (GanttTask.name a), SVStr (GanttTask.name b))
  else if String.eqb sortByColumn "start_date" then
    (SortValue_of_date (GanttTask.startDate a), SortValue_of_date (GanttTask.startDate b))
  else if String.eqb sortByColumn "end_date" then
    (SortValue_of_date (GanttTask.endDate a), SortValue_of_date (GanttTask.endDate b))
  else
    let aColumn := find_by_id (GanttTask.originalItem a) sortByColumn in
    let bColumn := find_by_id (GanttTask.originalItem b) sortByColumn in
    let aType := default "" (MondayColumnValue.type <$> aColumn) in
    if (String.eqb aType "numeric" || String.eqb aType "rating")%bool then
      match (x ← numeric_of aColumn; y ← numeric_of bColumn; Some (x, y)) with
      | Some (x, y) => (SVNum x, SVNum y)
      | None => (SVNum (Fin 0), SVNum (Fin 0))
      end
    else (SVStr (text_or_empty aColumn), SVStr (text_or_empty bColumn)).

(** The comparator passed to [tasks.sort] by [sortTasks]; [Array.sort]
    places [a] before [b] when the result is negative, [b] before [a]
    when it is positive, and treats NaN as 0. *)
Definition sortTasks_compare (sortByColumn : string) (direction : SortDirection)
    (a b : GanttTask.t) : number :=
  let '(aValue, bValue) := sortValues sortByColumn a b in
  let replacement := SVStr (match direction with asc => "" | desc => "zzz" end) in
  let aValue := match aValue with SVNull => replacement | _ => aValue end in
  let bValue := match bValue with SVNull => replacement | _ => bValue end in
  match aValue, bValue with
  | SVDate x, SVDate y =>
      match direction with
      | asc => nsub (getTime x) (getTime y)
      | desc => nsub (getTime y) (getTime x)
      end
  | SVNum x, SVNum y =>
      match direction with
      | asc => nsub x y
      | desc => nsub y x
      end
  | _, _ =>
      let aStr := toLowerCase (String_of aValue) in
      let bStr := toLowerCase (String_of bValue) in
      match direction with
      | asc => Fin (inject_Z (localeCompare aStr bStr))
      | desc => Fin (inject_Z (localeCompare bStr aStr))
      end
  end.

Definition sortTasks (tasks : list GanttTask.t) (sortByColumn : string)
    (direction : SortDirection) : list GanttTask.t :=
  Array_sort GanttTask.t (sortTasks_compare sortByColumn direction) tasks.

Definition applySettingsToTasks (tasks : list GanttTask.t) (settings : GanttSettings.t)
    : list GanttTask.t :=
  match nonempty (GanttSettings.sortByColumn settings), GanttSettings.sortDirection settings with
  | Some sortByColumn, Some direction => sortTasks tasks sortByColumn direction
  | _, _ => tasks
  end.

(** The body of [items.forEach]: the task of the item, followed by the
    tasks of its subitems when they are shown. *)
Definition tasksOfItem (this : t) (board : MondayBoard.t) (settings : GanttSettings.t)
    (item : MondayItem.t) : list GanttTask.t :=
  match convertItemToGanttTask this item board settings None with
  | None => []
  | Some task =>
      task ::
      match GanttSettings.showSubitems settings, MondayItem.subitems item with
      | Some true, Some subitems =>
          omap (fun subitem =>
                  convertItemToGanttTask this subitem board settings (Some (GanttTask.id task)))
               subitems
      | _, _ => []
      end
  end.

Definition processItemsToGanttTasks (this : t) (settings : GanttSettings.t)
    : list GanttTask.t :=
  let tasks :=
    flat_map (fun entry : string * list MondayItem.t =>
                match List.find (fun b => String.eqb (MondayBoard.id b) (fst entry))
                        (boards this) with
                | None => []
                | Some board => flat_map (tasksOfItem this board settings) (snd entry)
                end)
             (allItems this) in
  applySettingsToTasks tasks settings.

End Methods.
End DataProcessor.

(** ** components/GanttChart.tsx *)

Module GanttChart.
Import Js.

(** The member [end] is written [end_]. *)
Record DateRange : Type := mkRange {
  start : Date;
  end_ : Date
}.

(** The result of the first [useMemo]. *)
Record Layout : Type := mkLayout {
  validTasks : list GanttTask.t;
  dateRange : option DateRange;
  dayWidth : number
}.

(** [task.startDate && task.endDate]: a [Date] object is always truthy. *)
Definition hasBothDates (task : GanttTask.t) : bool :=
  match GanttTask.startDate task, GanttTask.endDate task with
  | Some _, Some _ => true
  | _, _ => false
  end.

(** The callback of [validTasks.reduce]. *)
Definition pushDates (acc : list Date) (task : GanttTask.t) : list Date :=
  let acc :=
    match GanttTask.startDate task with
    | Some d => acc ++ [d]
    | None => acc
    end in
  match GanttTask.endDate task with
  | Some d => acc ++ [d]
  | None => acc
  end.

(** The first [useMemo]; [innerWidth] is [window.innerWidth]. *)
Definition layout (innerWidth : number) (tasks : list GanttTask.t) : Layout :=
  let validTasks := List.filter hasBothDates tasks in
  match validTasks with
  | [] => mkLayout [] None (Fin 30)
  | _ :: _ =>
      let dates := fold_left pushDates validTasks [] in
      let minDate := Date_of_number (Math_min_list (map getTime dates)) in
      let maxDate := Date_of_number (Math_max_list (map getTime dates)) in
      let paddedMinDate := Moment.subtract minDate (Fin 7) in
      let paddedMaxDate := Moment.add maxDate (Fin 7) in
      let totalDays := Moment.diff paddedMaxDate paddedMinDate in
      let availableWidth := Math_max (Fin 800) (nsub innerWidth (Fin 350)) in
      let dayWidth := Math_max (Fin 20) (ndiv availableWidth totalDays) in
      mkLayout validTasks (Some (mkRange paddedMinDate paddedMaxDate)) dayWidth
  end.

(** [l.findIndex(p)]; [None] is -1. *)
Fixpoint findIndex {A : Type} (p : A -> bool) (l : list A) : option nat :=
  match l with
  | [] => None
  | x :: rest => if p x then Some 0%nat else S <$> findIndex p rest
  end.

(** [task.id === subtask.parentId] *)
Definition isParentOf (subtask task : GanttTask.t) : bool :=
  match GanttTask.parentId subtask with
  | Some parentId => String.eqb (GanttTask.id task) parentId
  | None => false
  end.

(** The body of the inner loop: [findIndex] and [splice(parentIndex + 1, 0,
    subtask)] on one bucket. *)
Definition insertSubtask (subtask : GanttTask.t) (groupTasks : list GanttTask.t)
    : list GanttTask.t :=
  match findIndex (isParentOf subtask) groupTasks with
  | Some parentIndex =>
      take (S parentIndex) groupTasks ++ subtask :: drop (S parentIndex) groupTasks
  | None => groupTasks
  end.

(** [task.group || 'No Group'] *)
Definition groupKey (task : GanttTask.t) : string :=
  default "No Group" (nonempty (GanttTask.group task)).

(** [!!task.parentId] *)
Definition isSubtask (task : GanttTask.t) : bool := truthy_opt (GanttTask.parentId task).

(** The body of the first loop: create the bucket of the task's group
    when [groups[groupKey]] is falsy, then file the task under the orphans
    or in its bucket.  A bucket is an array, which is truthy.  When the
    key names a member of [Object.prototype], [groups[groupKey]] is that
    member: no bucket is created, and [groups[groupKey].push(task)] throws
    because the member has no [push]. *)
Definition placeTask (acc : gmap string (list GanttTask.t) * list GanttTask.t)
    (task : GanttTask.t) : option (gmap string (list GanttTask.t) * list GanttTask.t) :=
  let '(groups, orphans) := acc in
  if inherited (groupKey task) then
    if isSubtask task then Some (groups, orphans ++ [task]) else None
  else
    let bucket := default [] (groups !! groupKey task) in
    if isSubtask task
    then Some (<[groupKey task := bucket]> groups, orphans ++ [task])
    else Some (<[groupKey task := bucket ++ [task]]> groups, orphans).

(** The second loop, for one subtask: every bucket is visited. *)
Definition placeSubtask (groups : gmap string (list GanttTask.t)) (subtask : GanttTask.t)
    : gmap string (list GanttTask.t) :=
  insertSubtask subtask <$> groups.

(** The second [useMemo]; [None] when the first loop throws. *)
Definition groupedTasks (validTasks : list GanttTask.t)
    : option (gmap string (list GanttTask.t)) :=
  match forEach placeTask validTasks (∅, []) with
  | Some (groups, orphans) => Some (fold_left placeSubtask orphans groups)
  | None => None
  end.

End GanttChart.

(** ** components/GanttBar.tsx *)

Module GanttBar.
Import Js.

Inductive DragType : Type := move | resize_left | resize_right.

(** The props the computations read; [onUpdate] is present or not. *)
Record Props : Type := mkProps {
  task : GanttTask.t;
  startDate : Date;
  dayWidth : number;
  onUpdate : bool
}.

(** The content of [dragStartRef.current]. *)
Record DragStart : Type := mkDragStart {
  x : number;
  anchorStart : Date;
  anchorEnd : Date
}.

Record State : Type := mkState {
  isDragging : bool;
  dragType : option DragType;
  dragStartRef : option DragStart
}.

Definition idle : State := mkState false None None.

(** [leftOffset], [duration] and [width]; [None] when the component
    returns [null] because a date of the task is missing. *)
Record Geometry : Type := mkGeometry {
  leftOffset : number;
  duration : number;
  width : number
}.

Definition geometry (props : Props) : option Geometry :=
  match GanttTask.startDate (task props), GanttTask.endDate (task props) with
  | Some taskStart, Some taskEnd =>
      let leftOffset := nmul (Moment.diff taskStart (startDate props)) (dayWidth props) in
      let duration := nadd (Moment.diff taskEnd taskStart) (Fin 1) in
      let width :=
        Math_max (nmul (dayWidth props) duration) (nmul (dayWidth props) (Fin (1 # 2))) in
      Some (mkGeometry leftOffset duration width)
  | _, _ => None
  end.

(** [handleMouseDown(e, type)] with [e.clientX = clientX]: the anchor is a
    copy of the task's dates.  The handler exists only on a rendered bar,
    whose task has both dates. *)
Definition handleMouseDown (props : Props) (clientX : number) (type : DragType)
    (st : State) : State :=
  match GanttTask.startDate (task props), GanttTask.endDate (task props) with
  | Some taskStart, Some taskEnd =>
      mkState true (Some type) (Some (mkDragStart clientX taskStart taskEnd))
  | _, _ => st
  end.

(** [handleMouseMove(e)] of the gesture started with [type]: the arguments
    of the call of [onUpdate], or [None] when there is no call. *)
Definition handleMouseMove (props : Props) (type : DragType) (clientX : number)
    (st : State) : option (string * Date * Date) :=
  match dragStartRef st with
  | None => None
  | Some dragStart =>
      if negb (onUpdate props) then None
      else
        let deltaX := nsub clientX (x dragStart) in
        let deltaDays := Math_round (ndiv deltaX (dayWidth props)) in
        let newStartDate := anchorStart dragStart in
        let newEndDate := anchorEnd dragStart in
        let '(newStartDate, newEndDate) :=
          match type with
          | move =>
              (Moment.add (anchorStart dragStart) deltaDays,
               Moment.add (anchorEnd dragStart) deltaDays)
          | resize_left =>
              let moved := Moment.add (anchorStart dragStart) deltaDays in
              (if Moment.isAfter moved newEndDate then newEndDate else moved, newEndDate)
          | resize_right =>
              let moved := Moment.add (anchorEnd dragStart) deltaDays in
              (newStartDate, if Moment.isBefore moved newStartDate then newStartDate else moved)
          end in
        Some (GanttTask.id (task props), newStartDate, newEndDate)
  end.

(** [handleMouseUp()] *)
Definition handleMouseUp (st : State) : State := idle.

End GanttBar.

(** ** A reference host

    An instance of [Host] on which the definitions can be run.  It reads the
    JSON grammar in full, numbers in decimal notation and dates in the form
    YYYY-MM-DD (taken, as the language rules, at midnight UTC); it prints
    dates in the time zone UTC, compares strings by their bytes, which
    is the order of every collation on the empty string and on strings of
    lower-case ASCII letters, and sorts by stable insertion. *)

Module Example.
Import Js.

Definition dq_char : ascii := ascii_of_nat 34.
Definition backslash : ascii := ascii_of_nat 92.
Definition dq : string := String dq_char EmptyString.

(** [quoted s] is the JSON text of the string [s] (for an [s] that needs no
    escape). *)
Definition quoted (s : string) : string := dq +:+ s +:+ dq.

Definition is_ws (c : ascii) : bool :=
  let n := nat_of_ascii c in
  (Nat.eqb n 32 || Nat.eqb n 9 || Nat.eqb n 10 || Nat.eqb n 13)%bool.

Fixpoint skip_ws (s : string) : string :=
  match s with
  | String c rest => if is_ws c then skip_ws rest else s
  | EmptyString => s
  end.

Definition digit_of (c : ascii) : option Z :=
  let n := nat_of_ascii c in
  if (Nat.leb 48 n && Nat.leb n 57)%bool then Some (Z.of_nat n - 48)%Z else None.

Definition hex_of (c : ascii) : option Z :=
  let n := nat_of_ascii c in
  if (Nat.leb 48 n && Nat.leb n 57)%bool then Some (Z.of_nat n - 48)%Z
  else if (Nat.leb 65 n && Nat.leb n 70)%bool then Some (Z.of_nat n - 55)%Z
  else if (Nat.leb 97 n && Nat.leb n 102)%bool then Some (Z.of_nat n - 87)%Z
  else None.

(** A run of decimal digits: its value, its length and the rest. *)
Fixpoint digits (s : string) (acc : Z) (count : nat) : Z * nat * string :=
  match s with
  | String c rest =>
      match digit_of c with
      | Some d => digits rest (acc * 10 + d)%Z (S count)
      | None => (acc, count, s)
      end
  | EmptyString => (acc, count, s)
  end.

(** [m * 10^e] *)
Definition scale10 (m : Z) (e : Z) : Q :=
  if (0 <=? e)%Z then inject_Z (m * 10 ^ e)
  else Qred (m # Z.to_pos (10 ^ (- e))).

(** An exponent part [e±ddd], if there is one. *)
Definition exponent (s : string) : Z * string :=
  match s with
  | String c rest =>
      if (Ascii.eqb c "e" || Ascii.eqb c "E")%bool then
        let '(neg, rest') :=
          match rest with
          | String "-" r => (true, r)
          | String "+" r => (false, r)
          | _ => (false, rest)
          end in
        let '(e, n, rest'') := digits rest' 0%Z 0%nat in
        if Nat.eqb n 0 then (0%Z, s) else ((if neg then - e else e)%Z, rest'')
      else (0%Z, s)
  | EmptyString => (0%Z, s)
  end.

(** An unsigned decimal literal.  With [strict] the JSON rules apply: an
    integer part without a leading zero and digits on both sides of the
    point. *)
Definition decimal (strict : bool) (s : string) : option (Q * string) :=
  let '(ip, n, s1) := digits s 0%Z 0%nat in
  let leading_zero :=
    match s with
    | String "0" _ => Nat.ltb 1 n
    | _ => false
    end in
  let '(fp, k, s2, point) :=
    match s1 with
    | String "." r => let '(v, k, r') := digits r 0%Z 0%nat in (v, k, r', true)
    | _ => (0%Z, 0%nat, s1, false)
    end in
  if (strict && (Nat.eqb n 0 || leading_zero || (point && Nat.eqb k 0)))%bool then None
  else if (Nat.eqb n 0 && Nat.eqb k 0)%bool then None
  else
    let '(e, s3) := exponent s2 in
    Some (scale10 (ip * 10 ^ Z.of_nat k + fp) (e - Z.of_nat k), s3).

(** A JSON number. *)
Definition json_number (s : string) : option (Q * string) :=
  match s with
  | String "-" rest => '(q, r) ← decimal true rest; Some (Qred (- q), r)
  | _ => decimal true s
  end.

(** The bytes of the UTF-8 form of a code point below 65536. *)
Definition utf8 (cp : Z) : string :=
  let byte (z : Z) := ascii_of_nat (Z.to_nat z) in
  if (cp <? 128)%Z then String (byte cp) EmptyString
  else if (cp <? 2048)%Z then
    String (byte (192 + cp / 64)%Z) (String (byte (128 + cp mod 64)%Z) EmptyString)
  else
    String (byte (224 + cp / 4096)%Z)
      (String (byte (128 + (cp / 64) mod 64)%Z)
         (String (byte (128 + cp mod 64)%Z) EmptyString)).

(** The characters of a JSON string after the opening quote. *)
Fixpoint json_string (fuel : nat) (s : string) : option (string * string) :=
  match fuel with
  | O => None
  | S fuel =>
      match s with
      | EmptyString => None
      | String c rest =>
          if Ascii.eqb c dq_char then Some (EmptyString, rest)
          else if Ascii.eqb c backslash then
            match rest with
            | String e rest' =>
                let simple (b : nat) :=
                  '(body, r) ← json_string fuel rest';
                  Some (String (ascii_of_nat b) body, r) in
                if Ascii.eqb e dq_char then simple 34%nat
                else if Ascii.eqb e backslash then simple 92%nat
                else if Ascii.eqb e "/" then simple 47%nat
                else if Ascii.eqb e "b" then simple 8%nat
                else if Ascii.eqb e "f" then simple 12%nat
                else if Ascii.eqb e "n" then simple 10%nat
                else if Ascii.eqb e "r" then simple 13%nat
                else if Ascii.eqb e "t" then simple 9%nat
                else if Ascii.eqb e "u" then
                  match rest' with
                  | String h1 (String h2 (String h3 (String h4 rest''))) =>
                      a ← hex_of h1; b ← hex_of h2; c' ← hex_of h3; d ← hex_of h4;
                      '(body, r) ← json_string fuel rest'';
                      Some (utf8 (((a * 16 + b) * 16 + c') * 16 + d)%Z +:+ body, r)
                  | _ => None
                  end
                else None
            | EmptyString => None
            end
          else if Nat.ltb (nat_of_ascii c) 32 then None
          else '(body, r) ← json_string fuel rest; Some (String c body, r)
      end
  end.

(** [strip p s] removes the prefix [p] of [s]. *)
Fixpoint strip (p s : string) : option string :=
  match p with
  | EmptyString => Some s
  | String c p' =>
      match s with
      | String c' s' => if Ascii.eqb c c' then strip p' s' else None
      | EmptyString => None
      end
  end.

Fixpoint json_value (fuel : nat) (s : string) : option (JSValue * string) :=
  match fuel with
  | O => None
  | S fuel =>
      match skip_ws s with
      | EmptyString => None
      | String c rest as s' =>
          if Ascii.eqb c "n" then r ← strip "null" s'; Some (VNull, r)
          else if Ascii.eqb c "t" then r ← strip "true" s'; Some (VBool true, r)
          else if Ascii.eqb c "f" then r ← strip "false" s'; Some (VBool false, r)
          else if Ascii.eqb c dq_char then
            '(str, r) ← json_string (S (String.length rest)) rest; Some (VStr str, r)
          else if Ascii.eqb c "[" then
            match skip_ws rest with
            | String "]" r => Some (VArr [], r)
            | _ => '(vs, r) ← json_elements fuel rest; Some (VArr vs, r)
            end
          else if Ascii.eqb c "{" then
            match skip_ws rest with
            | String "}" r => Some (VObj [], r)
            | _ => '(ms, r) ← json_members fuel rest; Some (VObj ms, r)
            end
          else '(q, r) ← json_number s'; Some (VNum (Fin q), r)
      end
  end
with json_elements (fuel : nat) (s : string) : option (list JSValue * string) :=
  match fuel with
  | O => None
  | S fuel =>
      '(v, r) ← json_value fuel s;
      match skip_ws r with
      | String "," r' => '(vs, r'') ← json_elements fuel r'; Some (v :: vs, r'')
      | String "]" r' => Some ([v], r')
      | _ => None
      end
  end
with json_members (fuel : nat) (s : string) : option (list (string * JSValue) * string) :=
  match fuel with
  | O => None
  | S fuel =>
      match skip_ws s with
      | String c rest =>
          if Ascii.eqb c dq_char then
            '(k, r) ← json_string (S (String.length rest)) rest;
            match skip_ws r with
            | String ":" r1 =>
                '(v, r2) ← json_value fuel r1;
                match skip_ws r2 with
                | String "," r3 => '(ms, r4) ← json_members fuel r3; Some ((k, v) :: ms, r4)
                | String "}" r3 => Some ([(k, v)], r3)
                | _ => None
                end
            | _ => None
            end
          else None
      | EmptyString => None
      end
  end.

(** [JSON.parse] *)
Definition parse (text : string) : option JSValue :=
  '(v, r) ← json_value (2 * String.length text + 2) text;
  match skip_ws r with
  | EmptyString => Some v
  | _ => None
  end.

(** [s.trim()] *)
Fixpoint trim_end (s : string) : string :=
  match s with
  | EmptyString => EmptyString
  | String c rest =>
      let rest' := trim_end rest in
      if (is_ws c && String.eqb rest' "")%bool then EmptyString else String c rest'
  end.

Definition trim (s : string) : string := trim_end (skip_ws s).

(** A sign, then [Infinity] or an unsigned decimal literal. *)
Definition signed_decimal (s : string) : option (number * string) :=
  let '(neg, body) :=
    match s with
    | String "-" r => (true, r)
    | String "+" r => (false, r)
    | _ => (false, s)
    end in
  match strip "Infinity" body with
  | Some r => Some (if neg then NegInf else PosInf, r)
  | None => '(q, r) ← decimal false body; Some (Fin (if neg then Qred (- q) else q), r)
  end.

(** The conversion of a string to a number, for decimal literals. *)
Definition toNumber (s : string) : number :=
  let s := trim s in
  if String.eqb s "" then Fin 0
  else
    match signed_decimal s with
    | Some (n, EmptyString) => n
    | _ => NaN
    end.

(** The conversion of [v] to a string throws: [v] is an object with an own
    member [toString] (which, read from JSON, is no function), or an array
    holding one. *)
Fixpoint unprintable (v : JSValue) : bool :=
  match v with
  | VObj props => existsb (fun kv => String.eqb (fst kv) "toString") props
  | VArr elems => existsb unprintable elems
  | _ => false
  end.

(** [ToNumber] on arrays and objects. *)
Fixpoint objectToNumber (v : JSValue) : option number :=
  if unprintable v then None
  else
    match v with
    | VArr [] => Some (Fin 0)
    | VArr [x] =>
        match x with
        | VUndefined | VNull => Some (Fin 0)
        | VNum n => Some n
        | VStr s => Some (toNumber s)
        | VArr _ => objectToNumber x
        | _ => Some NaN
        end
    | _ => Some NaN
    end.

(** [parseFloat]: the longest decimal prefix of the text of [v]. *)
Fixpoint parseFloat (v : JSValue) : option number :=
  if unprintable v then None
  else
    match v with
    | VNum n => Some n
    | VStr s =>
        match signed_decimal (skip_ws s) with
        | Some (n, _) => Some n
        | None => Some NaN
        end
    | VArr (x :: _) =>
        match x with
        | VNum _ | VStr _ | VArr _ => parseFloat x
        | _ => Some NaN
        end
    | _ => Some NaN
    end.

(** Days since 1970-01-01 of a date of the Gregorian calendar, and back. *)
Definition days_from_civil (y m d : Z) : Z :=
  let y' := (if m <=? 2 then y - 1 else y)%Z in
  let era := (y' / 400)%Z in
  let yoe := (y' - era * 400)%Z in
  let doy := ((153 * (if 2 <? m then m - 3 else m + 9) + 2) / 5 + d - 1)%Z in
  let doe := (yoe * 365 + yoe / 4 - yoe / 100 + doy)%Z in
  (era * 146097 + doe - 719468)%Z.

Definition civil_from_days (z : Z) : Z * Z * Z :=
  let z := (z + 719468)%Z in
  let era := (z / 146097)%Z in
  let doe := (z - era * 146097)%Z in
  let yoe := ((doe - doe / 1460 + doe / 36524 - doe / 146096) / 365)%Z in
  let doy := (doe - (365 * yoe + yoe / 4 - yoe / 100))%Z in
  let mp := ((5 * doy + 2) / 153)%Z in
  let d := (doy - (153 * mp + 2) / 5 + 1)%Z in
  let m := (if mp <? 10 then mp + 3 else mp - 9)%Z in
  ((yoe + era * 400 + (if m <=? 2 then 1 else 0))%Z, m, d).

(** The date [y]-[m]-[d] at midnight UTC. *)
Definition ymd (y m d : Z) : Date := DateTime (days_from_civil y m d * Moment.day_ms).

(** [new Date(text)] for a text of the form YYYY-MM-DD. *)
Definition parse_iso (text : string) : Date :=
  let '(y, ny, r1) := digits text 0%Z 0%nat in
  match r1 with
  | String "-" r2 =>
      let '(m, nm, r3) := digits r2 0%Z 0%nat in
      match r3 with
      | String "-" r4 =>
          let '(d, nd, r5) := digits r4 0%Z 0%nat in
          if (Nat.eqb ny 4 && Nat.eqb nm 2 && Nat.eqb nd 2 && String.eqb r5 "" &&
              (1 <=? m)%Z && (m <=? 12)%Z && (1 <=? d)%Z &&
              (let '(y', m', d') := civil_from_days (days_from_civil y m d) in
               (y' =? y)%Z && (m' =? m)%Z && (d' =? d)%Z))%bool
          then ymd y m d
          else InvalidDate
      | _ => InvalidDate
      end
  | _ => InvalidDate
  end.

(** [new Date(v)]; exact on numbers and on strings of the form above. *)
Definition newDate (v : JSValue) : option Date :=
  if unprintable v then None
  else
    match v with
    | VStr s => Some (parse_iso s)
    | VNum n => Some (Date_of_number n)
    | VBool b => Some (DateTime (if b then 1 else 0))
    | VNull => Some (DateTime 0)
    | _ => Some InvalidDate
    end.

(** Decimal digits of a natural number, at least [width] of them. *)
Definition show_nat (width : nat) (n : Z) : string :=
  let text := NilZero.string_of_uint (N.to_uint (Z.to_N n)) in
  String.concat "" (repeat "0"%string (width - String.length text)) +:+ text.

Definition weekday_name (d : Z) : string :=
  nth (Z.to_nat ((d + 4) mod 7)) ["Sun"; "Mon"; "Tue"; "Wed"; "Thu"; "Fri"; "Sat"] "".

Definition month_name (m : Z) : string :=
  nth (Z.to_nat (m - 1))
    ["Jan"; "Feb"; "Mar"; "Apr"; "May"; "Jun"; "Jul"; "Aug"; "Sep"; "Oct"; "Nov"; "Dec"] "".

(** [String(d)] in the time zone UTC, for years 0000 to 9999. *)
Definition dateToString (d : Date) : string :=
  match d with
  | InvalidDate => "Invalid Date"
  | DateTime ms =>
      let day := (ms / Moment.day_ms)%Z in
      let secs := ((ms mod Moment.day_ms) / 1000)%Z in
      let '(y, m, dd) := civil_from_days day in
      weekday_name day +:+ " " +:+ month_name m +:+ " " +:+ show_nat 2 dd +:+ " " +:+
      show_nat 4 y +:+ " " +:+ show_nat 2 (secs / 3600) +:+ ":" +:+
      show_nat 2 ((secs / 60) mod 60) +:+ ":" +:+ show_nat 2 (secs mod 60) +:+
      " GMT+0000 (Coordinated Universal Time)"
  end.

(** [String(n)], exact on the integers and on NaN and the infinities; a
    fraction is printed with at most seventeen decimals. *)
Fixpoint decimals (fuel : nat) (r den : Z) : string :=
  match fuel with
  | O => EmptyString
  | S fuel =>
      if (r =? 0)%Z then EmptyString
      else show_nat 1 ((r * 10) / den) +:+ decimals fuel ((r * 10) mod den) den
  end.

Definition numberToString (n : number) : string :=
  match n with
  | NaN => "NaN"
  | PosInf => "Infinity"
  | NegInf => "-Infinity"
  | Fin q =>
      let den := Z.pos (Qden q) in
      let num := Z.abs (Qnum q) in
      let frac := decimals 17 (num mod den) den in
      (if (Qnum q <? 0)%Z then "-" else "") +:+ show_nat 1 (num / den) +:+
      (if String.eqb frac "" then "" else "." +:+ frac)
  end.

(** Comparison of strings by their bytes. *)
Definition compareBytes (a b : string) : Z :=
  match String.compare a b with
  | Lt => (-1)%Z
  | Eq => 0%Z
  | Gt => 1%Z
  end.

(** A stable insertion sort: [x] goes behind the elements that the
    comparator places before it. *)
Fixpoint sort_insert {A : Type} (compare : A -> A -> number) (x : A) (l : list A) : list A :=
  match l with
  | [] => [x]
  | y :: rest =>
      if positive (compare x y) then y :: sort_insert compare x rest else x :: l
  end.

Definition sort {A : Type} (compare : A -> A -> number) (l : list A) : list A :=
  fold_right (sort_insert compare) [] l.

#[export] Instance host : Host := {
  JSON_parse := parse;
  StringToNumber := toNumber;
  ObjectToNumber := objectToNumber;
  Js.parseFloat := parseFloat;
  Date_new := newDate;
  Date_toString := dateToString;
  Number_toString := numberToString;
  localeCompare := compareBytes;
  Array_sort := @sort
}.

End Example.

(** ** services/dataProcessor.ts: the column catalogue *)

Module AvailableColumns.
Import Js.

(** An element of the result of [getAvailableColumns]. *)
Record ColumnOption : Type := mkOption {
  id : string;
  title : string;
  type : string
}.

Definition basicColumns : list ColumnOption :=
  [ mkOption "name" "Item Name" "text";
    mkOption "start_date" "Start Date" "date";
    mkOption "end_date" "End Date" "date";
    mkOption "group" "Group" "text";
    mkOption "board" "Board" "text" ].

(** [columns.find(c => c.id === column.id)] is defined. *)
Definition listed (columns : list ColumnOption) (columnId : string) : bool :=
  existsb (fun c => String.eqb (id c) columnId) columns.

(** The body of [board.columns.forEach]. *)
Definition addColumn (board : MondayBoard.t) (columns : list ColumnOption)
    (column : MondayColumn.t) : list ColumnOption :=
  if (negb (default false (MondayColumn.archived column)) &&
      negb (listed columns (MondayColumn.id column)))%bool
  then columns ++
       [mkOption (MondayColumn.id column)
          (MondayColumn.title column +:+ " (" +:+ MondayBoard.name board +:+ ")")
          (MondayColumn.type column)]
  else columns.

(** The body of [this.boards.forEach]. *)
Definition addBoard (columns : list ColumnOption) (board : MondayBoard.t) : list ColumnOption :=
  fold_left (addColumn board) (MondayBoard.columns board) columns.

Definition getAvailableColumns (this : DataProcessor.t) (includeBasicColumns : bool)
    : list ColumnOption :=
  fold_left addBoard (DataProcessor.boards this)
    (if includeBasicColumns then basicColumns else []).

End AvailableColumns.

(** ** components/GanttHeader.tsx *)

Module GanttHeader.
Import Js.

(** The calendar of the host time zone: its offset from UTC in
    milliseconds and the fields moment reads from a date. *)
Class Calendar : Type := {
  utcOffset : Z;
  (** [m.format('YYYY-MM')] *)
  format_YYYY_MM : Date -> string;
  (** [m.format('MMM')] *)
  format_MMM : Date -> string;
  (** [m.date()], the day of the month *)
  date_of : Date -> Z;
  (** [m.day()], the day of the week, 0 for Sunday *)
  day_of : Date -> Z
}.

(** An element of [days]. *)
Record Day : Type := mkDay {
  date : Date;
  day : Z;
  month : string;
  isWeekend : bool;
  monthKey : string
}.

Section WithCalendar.
Context `{Calendar}.

(** The number of the local day that holds the time [ms]. *)
Definition dayIndex (ms : Z) : Z := ((ms + utcOffset) / Moment.day_ms)%Z.

(** [m.startOf('day').valueOf()] *)
Definition startOfDay (ms : Z) : Z := (dayIndex ms * Moment.day_ms - utcOffset)%Z.

(** [moment(a).isSameOrBefore(moment(b), 'day')]: the day of [a] starts at
    or before [b]; false when a date is invalid. *)
Definition isSameOrBefore_day (a b : Date) : bool :=
  match a, b with
  | DateTime x, DateTime y => (startOfDay x <=? y)%Z
  | _, _ => false
  end.

(** [if (!months[k]) months[k] = 0; months[k]++] on the entries of
    [months], kept in the order of their creation. *)
Fixpoint countDay (monthKey : string) (months : list (string * Z)) : list (string * Z) :=
  match months with
  | [] => [(monthKey, 1%Z)]
  | (k, n) :: rest =>
      if String.eqb k monthKey then (k, ((if (n =? 0)%Z then 0 else n) + 1)%Z) :: rest
      else (k, n) :: countDay monthKey rest
  end.

(** The [while] loop, run for at most [fuel] rounds; [None] when the
    rounds do not suffice. *)
Fixpoint fill (fuel : nat) (currentDate endDate : Date)
    (months : list (string * Z)) (days : list Day)
    : option (list (string * Z) * list Day) :=
  if isSameOrBefore_day currentDate endDate then
    match fuel with
    | O => None
    | S fuel =>
        let monthKey := format_YYYY_MM currentDate in
        let months := countDay monthKey months in
        let days :=
          days ++
          [mkDay currentDate (date_of currentDate) (format_MMM currentDate)
             ((day_of currentDate =? 0)%Z || (day_of currentDate =? 6)%Z)%bool
             monthKey] in
        fill fuel (Moment.add currentDate (Fin 1)) endDate months days
    end
  else Some (months, days).

(** The cells of the two rows.  A month cell is [dayCount * dayWidth]
    wide: [monthCellDays] gives the factor [dayCount] of each month cell,
    in the order of [Object.entries(months)].  A day cell is [dayWidth]
    wide and shows the day of the month: [dayCells] gives that label for
    each day cell. *)
Definition monthCellDays (months : list (string * Z)) : list Z :=
  map (fun entry => snd entry) months.

Definition dayCells (days : list Day) : list Z :=
  map (fun d => day d) days.

End WithCalendar.

(** A reference calendar: the time zone UTC, exact for the years 0000 to
    9999.  The fields of an invalid date are never read by the loop. *)
Definition civil (d : Date) : Z * Z * Z :=
  match d with
  | DateTime ms => Example.civil_from_days (ms / Moment.day_ms)
  | InvalidDate => (0, 0, 0)%Z
  end.

Definition utc : Calendar := {|
  utcOffset := 0;
  format_YYYY_MM d :=
    match d with
    | InvalidDate => "Invalid date"
    | DateTime _ =>
        let '(y, m, _) := civil d in Example.show_nat 4 y +:+ "-" +:+ Example.show_nat 2 m
    end;
  format_MMM d :=
    match d with
    | InvalidDate => "Invalid date"
    | DateTime _ => let '(_, m, _) := civil d in Example.month_name m
    end;
  date_of d := let '(_, _, dd) := civil d in dd;
  day_of d :=
    match d with
    | DateTime ms => ((ms / Moment.day_ms + 4) mod 7)%Z
    | InvalidDate => 0%Z
    end
|}.

End GanttHeader.

(** ** services/mondayService.ts: the board id of the URL *)

Module MondayService.
Import Js.

(** An element of a pattern: a character, or one of a class. *)
Inductive Atom : Type :=
| Lit (c : ascii)
| OneOf (cs : list ascii).

Fixpoint literal (s : string) : list Atom :=
  match s with
  | EmptyString => []
  | String c rest => Lit c :: literal rest
  end.

Definition equals_colon : Atom := OneOf ["="%char; ":"%char].

(** The four patterns, each followed by the group [(\d+)]. *)
Definition patterns : list (list Atom) :=
  [ literal "/boards/";
    literal "boardId" ++ [equals_colon];
    literal "board_id" ++ [equals_colon];
    literal "boards%2F" ].

Definition accepts (a : Atom) (c : ascii) : bool :=
  match a with
  | Lit c' => Ascii.eqb c' c
  | OneOf cs => existsb (Ascii.eqb c) cs
  end.

(** The text after the atoms, when [s] starts with them. *)
Fixpoint after_atoms (atoms : list Atom) (s : string) : option string :=
  match atoms with
  | [] => Some s
  | a :: atoms' =>
      match s with
      | String c rest => if accepts a c then after_atoms atoms' rest else None
      | EmptyString => None
      end
  end.

Definition is_digit (c : ascii) : bool :=
  (Nat.leb 48 (nat_of_ascii c) && Nat.leb (nat_of_ascii c) 57)%bool.

(** The longest run of digits at the start of [s]. *)
Fixpoint leading_digits (s : string) : string :=
  match s with
  | String c rest => if is_digit c then String c (leading_digits rest) else EmptyString
  | EmptyString => EmptyString
  end.

(** The group of a match of the pattern at the start of [s]. *)
Definition match_here (atoms : list Atom) (s : string) : option string :=
  match after_atoms atoms s with
  | Some rest =>
      match leading_digits rest with
      | EmptyString => None
      | run => Some run
      end
  | None => None
  end.

(** [s.match(pattern)[1]]: the group of the leftmost match. *)
Fixpoint match_first (atoms : list Atom) (s : string) : option string :=
  match match_here atoms s with
  | Some run => Some run
  | None =>
      match s with
      | String _ rest => match_first atoms rest
      | EmptyString => None
      end
  end.

(** [extractBoardIdFromUrl()], with [href] the value of
    [window.location.href], or [None] when there is no [window]. *)
Definition extractBoardIdFromUrl (href : option string) : option string :=
  match href with
  | None => None
  | Some url =>
      fold_left (fun found pattern =>
                   match found with
                   | Some _ => found
                   | None => match_first pattern url
                   end)
                patterns None
  end.

End MondayService.

(** ** components/SettingsPanel.tsx and App.tsx: the selection of boards *)

Module SettingsPanel.

(** [{...localSettings, selectedBoards}] *)
Definition withSelectedBoards (s : GanttSettings.t) (selectedBoards : list string)
    : GanttSettings.t :=
  GanttSettings.mk
    (GanttSettings.colorByColumn s) (GanttSettings.groupByColumn s)
    (GanttSettings.sortByColumn s) (GanttSettings.sortDirection s)
    (GanttSettings.showSubitems s) (GanttSettings.timelineColumn s)
    (GanttSettings.mirrorColumns s) (Some selectedBoards).

(** [handleBoardToggle(boardId, selected)]: the new value of
    [localSettings]. *)
Definition handleBoardToggle (localSettings : GanttSettings.t) (boardId : string)
    (selected : bool) : GanttSettings.t :=
  let selectedBoards := default [] (GanttSettings.selectedBoards localSettings) in
  if selected
  then withSelectedBoards localSettings (selectedBoards ++ [boardId])
  else withSelectedBoards localSettings
         (List.filter (fun id => negb (String.eqb id boardId)) selectedBoards).

End SettingsPanel.

Module App.

(** [selectedBoardIds] in [loadTasks]: the selection of the settings, or
    every board when it is missing or empty. *)
Definition selectedBoardIds (settings : GanttSettings.t) (boards : list MondayBoard.t)
    : list string :=
  match GanttSettings.selectedBoards settings with
  | Some (id :: rest) => id :: rest
  | _ => map MondayBoard.id boards
  end.

End App.

(** ** Sample inputs *)

Module Samples.
Import Js Example.

Definition column (id title type : string) (value : option string) (text : string)
    : MondayColumnValue.t :=
  MondayColumnValue.mk id title type value text.

Definition item (id name : string) (columns : list MondayColumnValue.t) : MondayItem.t :=
  MondayItem.mk id name columns None None.

Definition board : MondayBoard.t := MondayBoard.mk "b1" "Roadmap" None "public" [] [].

Definition settings : GanttSettings.t :=
  GanttSettings.mk None None None None None None None None.

(** [{"from":f,"to":t}] with [f] and [t] JSON texts. *)
Definition timeline_json (f t : string) : string :=
  "{" +:+ quoted "from" +:+ ":" +:+ f +:+ "," +:+ quoted "to" +:+ ":" +:+ t +:+ "}".

Definition timeline_column (f t : string) : MondayColumnValue.t :=
  column "timeline" "Timeline" "timeline" (Some (timeline_json f t)) "".

(** A mirror column whose payload is no JSON text, and its mapping. *)
Definition mirror_item : MondayItem.t :=
  item "1" "Design" [column "mirror1" "Owner" "mirror" (Some "not json") "Shown"].

Definition mirror_mapping : MirrorColumnMapping.t :=
  MirrorColumnMapping.mk "person" "Person" "b2" "People" "mirror1" "Owner" "b1".

Definition processor : DataProcessor.t :=
  DataProcessor.mk [board] [("b1", [mirror_item])] {[ "b1" := [mirror_mapping] ]}.

(** Item A of the specification: a timeline and a progress of 150. *)
Definition item_A : MondayItem.t :=
  item "A" "Item A"
    [timeline_column (quoted "2024-01-10") (quoted "2024-01-15");
     column "numbers" "% Complete" "numeric" (Some "150") "150"].

(** A timeline with a start and no end. *)
Definition item_open : MondayItem.t :=
  item "B" "Open ended" [timeline_column (quoted "2024-01-10") "null"].


(** Progress columns whose payload is JSON but no number. *)
Definition item_progress_object : MondayItem.t :=
  item "P1" "Object" [column "numbers" "Progress" "numeric" (Some "{}") ""].

Definition item_progress_text : MondayItem.t :=
  item "P2" "Text" [column "numbers" "Progress" "numeric" (Some (quoted "n/a")) "n/a"].

(** Tasks as the task builder makes them, for an item without columns
    (or with the columns [columns]). *)
Definition task_with (columns : list MondayColumnValue.t) (id name : string)
    (startDate endDate : option Date) (group parentId : option string) : GanttTask.t :=
  GanttTask.mk id name startDate endDate (Some (Fin 0)) (Some DataProcessor.default_color)
    group (Some "b1") (Some "Roadmap") parentId (item id name columns) (Some ∅).

Definition task := task_with [].

(** The two tasks of the sorting scenario of the specification. *)
Definition alpha : GanttTask.t :=
  task "1" "Alpha" (Some (ymd 2024 3 1)) (Some (ymd 2024 3 3)) (Some "Plan") None.

Definition beta : GanttTask.t :=
  task "2" "Beta" (Some (ymd 2024 3 4)) (Some (ymd 2024 3 8)) (Some "Plan") None.

(** A task with an end and no start. *)
Definition no_start : GanttTask.t :=
  task "3" "Draft" None (Some (ymd 2024 3 5)) (Some "Plan") None.



(** A parent task and two subtasks, and a subtask with an end and no
    start. *)
Definition parent : GanttTask.t :=
  task "p" "Parent" (Some (ymd 2024 3 1)) (Some (ymd 2024 3 8)) (Some "Plan") None.

Definition child1 : GanttTask.t :=
  task "c1" "First child" (Some (ymd 2024 3 1)) (Some (ymd 2024 3 3)) (Some "Plan") (Some "p").

Definition child2 : GanttTask.t :=
  task "c2" "Second child" (Some (ymd 2024 3 4)) (Some (ymd 2024 3 8)) (Some "Plan") (Some "p").

(** A subtask of the subtask [child1]. *)
Definition nested_child : GanttTask.t :=
  task "n" "Nested child" (Some (ymd 2024 3 2)) (Some (ymd 2024 3 3)) (Some "Plan") (Some "c1").

(** A task whose id is the empty string, and a task naming it as parent. *)
Definition unnamed : GanttTask.t :=
  task "" "Unnamed" (Some (ymd 2024 3 1)) (Some (ymd 2024 3 8)) (Some "Plan") None.

Definition unnamed_child : GanttTask.t :=
  task "u" "Child of unnamed" (Some (ymd 2024 3 1)) (Some (ymd 2024 3 3)) (Some "Plan")
    (Some "").

(** A task of the group [constructor], and a subtask of [parent] in that
    group. *)
Definition in_constructor : GanttTask.t :=
  task "k" "Build" (Some (ymd 2024 3 1)) (Some (ymd 2024 3 3)) (Some "constructor") None.

Definition in_constructor_child : GanttTask.t :=
  task "kc" "Build step" (Some (ymd 2024 3 1)) (Some (ymd 2024 3 3)) (Some "constructor")
    (Some "p").

(** A task that starts on 2024-01-01 and has no end. *)
Definition no_end : GanttTask.t :=
  task "6" "Kick-off" (Some (ymd 2024 1 1)) None (Some "Plan") None.

(** Bars of the chart of [alpha] and [beta], 75 wide a day. *)
Definition bar_alpha : GanttBar.Props :=
  GanttBar.mkProps alpha (ymd 2024 2 23) (Fin 75) true.

Definition bar_beta : GanttBar.Props :=
  GanttBar.mkProps beta (ymd 2024 2 23) (Fin 75) true.

(** A bar of a task that ends before it starts. *)
Definition bar_inverted : GanttBar.Props :=
  GanttBar.mkProps
    (task "7" "Inverted" (Some (ymd 2024 3 10)) (Some (ymd 2024 3 1)) (Some "Plan") None)
    (ymd 2024 2 23) (Fin 75) true.

(** An item with a date column. *)
Definition item_date : MondayItem.t :=
  item "D" "Milestone"
    [column "date4" "Due" "date"
       (Some ("{" +:+ quoted "date" +:+ ":" +:+ quoted "2024-01-10" +:+ "}")) "2024-01-10"].

(** An item with two subitems, one of them without timeline, on a
    registered board and on a board that is not registered. *)
Definition sub_dated : MondayItem.t :=
  item "S1" "Subitem with dates"
    [timeline_column (quoted "2024-01-11") (quoted "2024-01-12")].

Definition sub_undated : MondayItem.t := item "S2" "Subitem without dates" [].

Definition family_item : MondayItem.t :=
  MondayItem.mk "F" "Family"
    [timeline_column (quoted "2024-01-10") (quoted "2024-01-15")]
    None (Some [sub_dated; sub_undated]).

Definition family_processor : DataProcessor.t :=
  DataProcessor.mk [board] [("b1", [family_item; mirror_item]); ("b9", [item_A])] ∅.

Definition family_settings : GanttSettings.t :=
  GanttSettings.mk None None (Some "name") (Some desc) (Some true) None None None.

(** Tasks whose items have a numeric column: one payload is no JSON. *)
Definition with_number (id payload : string) : GanttTask.t :=
  task_with [column "effort" "Effort" "numeric" (Some payload) payload]
    id "Numbered" (Some (ymd 2024 3 1)) (Some (ymd 2024 3 3)) (Some "Plan") None.

End Samples.

(** * Properties *)

Import Js.

(** ** Numbers *)

Lemma Qle_bool_false (x y : Q) : Qle_bool x y = false -> (y < x)%Q.
Proof.
  intros E. apply Qnot_le_lt. intros L. apply Qle_bool_iff in L. congruence.
Qed.

Lemma clamp_range (n : number) :
  Math_max (Fin 0) (Math_min (Fin 100) n) = NaN \/
  between 0 100 (Math_max (Fin 0) (Math_min (Fin 100) n)).
Proof.
  destruct n as [| |q|]; simpl; auto.
  - right. split; [apply Qle_refl | discriminate].
  - right. destruct (Qle_bool 100 q) eqn:E.
    + simpl. split; discriminate.
    + apply Qle_bool_false in E.
      destruct (Qle_bool 0 q) eqn:E0.
      * apply Qle_bool_iff in E0. split; [exact E0 | apply Qlt_le_weak, E].
      * split; [apply Qle_refl | discriminate].
  - right. split; discriminate.
Qed.

(** ** Task construction *)

Section TaskBuilder.
Context `{Host}.

(** C1. An item whose extracted timeline has two null endpoints gives no
    task; every other item gives a task whose [startDate] and [endDate] are
    the extracted [from] and [to], a null endpoint staying null. *)
Theorem convertItemToGanttTask_timeline
    (this : DataProcessor.t) (item : MondayItem.t) (board : MondayBoard.t)
    (settings : GanttSettings.t) (parentId : option string) :
  let timelineData :=
    DataProcessor.extractTimelineData item (GanttSettings.timelineColumn settings) in
  match TimelineData.from timelineData, TimelineData.to timelineData with
  | None, None =>
      DataProcessor.convertItemToGanttTask this item board settings parentId = None
  | start, finish =>
      exists task,
        DataProcessor.convertItemToGanttTask this item board settings parentId = Some task /\
        GanttTask.startDate task = start /\
        GanttTask.endDate task = finish
  end.
Proof.
  intros timelineData. unfold DataProcessor.convertItemToGanttTask.
  fold timelineData.
  destruct (TimelineData.from timelineData) as [s|] eqn:Ef;
    destruct (TimelineData.to timelineData) as [e|] eqn:Et;
    try reflexivity; eexists; (split; [reflexivity | split; reflexivity]).
Qed.

(** An item without timeline gives no task, nor do its subitems. *)
Lemma tasksOfItem_dropped (this : DataProcessor.t) (board : MondayBoard.t)
    (settings : GanttSettings.t) (item : MondayItem.t) :
  DataProcessor.extractTimelineData item (GanttSettings.timelineColumn settings) =
    DataProcessor.no_timeline ->
  DataProcessor.tasksOfItem this board settings item = [].
Proof.
  intros E. unfold DataProcessor.tasksOfItem, DataProcessor.convertItemToGanttTask.
  rewrite E. reflexivity.
Qed.

(** The progress is NaN or lies in [0, 100], whatever the payload. *)
Lemma extractProgress_range (item : MondayItem.t) :
  DataProcessor.extractProgress item = NaN \/
  between 0 100 (DataProcessor.extractProgress item).
Proof.
  assert (Z0 : between 0 100 (Fin 0)) by (split; [apply Qle_refl | discriminate]).
  unfold DataProcessor.extractProgress.
  destruct (find _ _) as [c|]; [| right; exact Z0].
  destruct (nonempty _) as [v|]; [| right; exact Z0].
  destruct (JSON_parse v) as [j|]; simpl; [| right; exact Z0].
  destruct (ToNumber _) as [n|]; simpl; [| right; exact Z0].
  apply clamp_range.
Qed.

(** A payload that decodes to a finite number is clamped. *)
Lemma extractProgress_number (item : MondayItem.t) (c : MondayColumnValue.t)
    (text : string) (q : Q) :
  find DataProcessor.isProgressColumn (MondayItem.column_values item) = Some c ->
  nonempty (MondayColumnValue.value c) = Some text ->
  JSON_parse text = Some (VNum (Fin q)) ->
  between 0 100 (DataProcessor.extractProgress item) /\
  ((0 <= q <= 100)%Q -> num_eq (DataProcessor.extractProgress item) (Fin q)).
Proof.
  intros Hc Hv Hp. unfold DataProcessor.extractProgress. rewrite Hc, Hv, Hp. simpl.
  unfold or_default. simpl.
  destruct (Qeq_bool q 0) eqn:Eq0; simpl.
  - split; [split; [apply Qle_refl | discriminate] |].
    intros _. apply Qeq_bool_iff in Eq0. symmetry. exact Eq0.
  - split.
    + destruct (clamp_range (Fin q)) as [E|R]; [discriminate E | exact R].
    + intros [L U].
      apply Qle_bool_iff in L.
      destruct (Qle_bool 100 q) eqn:E100; simpl.
      * apply Qle_bool_iff in E100. apply Qle_antisym; assumption.
      * rewrite L. apply Qeq_refl.
Qed.

End TaskBuilder.

(** ** Mirror data *)

Section Mirror.
Context `{Host}.

Lemma addMirrorEntry_keeps (item : MondayItem.t) (k : string) (cv : MondayColumnValue.t)
    (value : string) (mapping : MirrorColumnMapping.t) (md : gmap string MirrorDatum.t) :
  DataProcessor.find_by_id item k = Some cv ->
  nonempty (MondayColumnValue.value cv) = Some value ->
  (exists d, md !! k = Some d /\ DataProcessor.stored_for cv value d) ->
  exists d, DataProcessor.addMirrorEntry item md mapping !! k = Some d /\ DataProcessor.stored_for cv value d.
Proof.
  intros Hcv Hval Hmd. unfold DataProcessor.addMirrorEntry.
  destruct (DataProcessor.find_by_id item (MirrorColumnMapping.mirrorColumnId mapping))
    as [c|] eqn:Ec; [| exact Hmd].
  destruct (nonempty (MondayColumnValue.value c)) as [v|] eqn:Ev; [| exact Hmd].
  destruct (decide (MirrorColumnMapping.mirrorColumnId mapping = k)) as [E | Hne].
  - rewrite E in Ec |- *. rewrite Hcv in Ec. injection Ec as <-.
    rewrite Hval in Ev. injection Ev as <-.
    eexists. split; [apply lookup_insert_eq |].
    repeat split.
  - rewrite lookup_insert_ne by exact Hne. exact Hmd.
Qed.

Lemma addMirrorEntry_adds (item : MondayItem.t) (cv : MondayColumnValue.t)
    (value : string) (mapping : MirrorColumnMapping.t) (md : gmap string MirrorDatum.t) :
  DataProcessor.find_by_id item (MirrorColumnMapping.mirrorColumnId mapping) = Some cv ->
  nonempty (MondayColumnValue.value cv) = Some value ->
  exists d,
    DataProcessor.addMirrorEntry item md mapping
      !! MirrorColumnMapping.mirrorColumnId mapping = Some d /\
    DataProcessor.stored_for cv value d.
Proof.
  intros Hcv Hval. unfold DataProcessor.addMirrorEntry. rewrite Hcv, Hval.
  eexists. split; [apply lookup_insert_eq |].
  repeat split.
Qed.

Lemma fold_addMirrorEntry_keeps (item : MondayItem.t) (k : string)
    (cv : MondayColumnValue.t) (value : string) (mappings : list MirrorColumnMapping.t) :
  DataProcessor.find_by_id item k = Some cv ->
  nonempty (MondayColumnValue.value cv) = Some value ->
  forall md : gmap string MirrorDatum.t,
  (exists d, md !! k = Some d /\ DataProcessor.stored_for cv value d) ->
  exists d,
    fold_left (DataProcessor.addMirrorEntry item) mappings md !! k = Some d /\
    DataProcessor.stored_for cv value d.
Proof.
  intros Hcv Hval. induction mappings as [|m rest IH]; intros md Hmd; simpl.
  - exact Hmd.
  - apply IH. apply addMirrorEntry_keeps; assumption.
Qed.

(** C9, amended.  A mapping whose mirror column has a non-empty payload on
    the item always has an entry.  Its display value is the display text of
    the column; its raw value is the decoded payload, and when decoding
    fails it is the undecoded payload, not the display text. *)
Theorem extractMirrorData_entry (this : DataProcessor.t) (item : MondayItem.t)
    (boardId : string) (mappings : list MirrorColumnMapping.t)
    (mapping : MirrorColumnMapping.t) (cv : MondayColumnValue.t) (value : string) :
  DataProcessor.mirrorMappings this !! boardId = Some mappings ->
  In mapping mappings ->
  DataProcessor.find_by_id item (MirrorColumnMapping.mirrorColumnId mapping) = Some cv ->
  nonempty (MondayColumnValue.value cv) = Some value ->
  exists d,
    DataProcessor.extractMirrorData this item boardId
      !! MirrorColumnMapping.mirrorColumnId mapping = Some d /\
    MirrorDatum.displayValue d = MondayColumnValue.text cv /\
    MirrorDatum.type d = MondayColumnValue.type cv /\
    match JSON_parse value with
    | Some parsedValue => MirrorDatum.rawValue d = parsedValue
    | None => MirrorDatum.rawValue d = VStr value
    end.
Proof.
  intros Hmap Hin Hcv Hval. unfold DataProcessor.extractMirrorData.
  rewrite Hmap. simpl.
  cut (forall md : gmap string MirrorDatum.t,
        exists d,
          fold_left (DataProcessor.addMirrorEntry item) mappings md
            !! MirrorColumnMapping.mirrorColumnId mapping = Some d /\
          DataProcessor.stored_for cv value d).
  { intros C. destruct (C ∅) as (d & Hd & Hdisp & Hraw & Hty).
    exists d. repeat split; try assumption.
    rewrite Hraw. destruct (JSON_parse value); reflexivity. }
  clear Hmap. induction mappings as [|m rest IH]; intros md; [destruct Hin |].
  simpl. destruct Hin as [-> | Hin].
  - apply fold_addMirrorEntry_keeps; try assumption.
    apply addMirrorEntry_adds; assumption.
  - apply IH, Hin.
Qed.

End Mirror.

(** ** Task construction and mirror data on the reference host *)

#[global] Existing Instance Example.host.

(** Item A of the specification: the task keeps the two dates and its
    progress of 150 is clamped to 100. *)
Example item_A_task :
  exists task,
    DataProcessor.convertItemToGanttTask Samples.processor Samples.item_A Samples.board
      Samples.settings None = Some task /\
    GanttTask.startDate task = Some (Example.ymd 2024 1 10) /\
    GanttTask.endDate task = Some (Example.ymd 2024 1 15) /\
    GanttTask.progress task = Some (Fin 100).
Proof. eexists. split; [reflexivity |]. vm_compute. repeat split. Qed.

(** A timeline with a start and no end keeps its null end. *)
Example item_open_task :
  exists task,
    DataProcessor.convertItemToGanttTask Samples.processor Samples.item_open Samples.board
      Samples.settings None = Some task /\
    GanttTask.startDate task = Some (Example.ymd 2024 1 10) /\
    GanttTask.endDate task = None.
Proof. eexists. split; [reflexivity |]. vm_compute. repeat split. Qed.

(** C5.  A progress column whose payload is JSON but no number: the empty
    object and the string n/a both give NaN, which is outside [0, 100] and
    is not the 0 of a payload that cannot be decoded. *)
Theorem extractProgress_not_a_number :
  Example.parse "{}" = Some (VObj []) /\
  DataProcessor.extractProgress Samples.item_progress_object = NaN /\
  Example.parse (Example.quoted "n/a") = Some (VStr "n/a") /\
  DataProcessor.extractProgress Samples.item_progress_text = NaN.
Proof. vm_compute. repeat split. Qed.

(** C9, as stated, fails: the payload of the mirror column is no JSON
    text, and the raw value of the entry is that payload while the display
    value is the display text. *)
Lemma mirror_raw_value_is_not_display_text :
  JSON_parse "not json" = None /\
  exists d,
    DataProcessor.extractMirrorData Samples.processor Samples.mirror_item "b1"
      !! "mirror1" = Some d /\
    MirrorDatum.displayValue d = "Shown" /\
    MirrorDatum.rawValue d = VStr "not json" /\
    MirrorDatum.rawValue d <> VStr (MirrorDatum.displayValue d).
Proof.
  split; [reflexivity |]. eexists. split; [vm_compute; reflexivity |].
  simpl. repeat split. discriminate.
Qed.

Lemma extractMirrorData_entry_witness :
  exists d,
    DataProcessor.extractMirrorData Samples.processor Samples.mirror_item "b1"
      !! "mirror1" = Some d /\
    MirrorDatum.displayValue d = "Shown" /\
    MirrorDatum.type d = "mirror" /\
    MirrorDatum.rawValue d = VStr "not json".
Proof.
  exact (extractMirrorData_entry (H := Example.host) Samples.processor Samples.mirror_item "b1"
           [Samples.mirror_mapping] Samples.mirror_mapping
           (Samples.column "mirror1" "Owner" "mirror" (Some "not json") "Shown") "not json"
           eq_refl (or_introl eq_refl) eq_refl eq_refl).
Defined.

(** ** The sort comparator *)

Lemma negative_inject_Z (z : Z) : negative (Fin (inject_Z z)) = (z <? 0)%Z.
Proof.
  unfold negative, Qle_bool. simpl. rewrite Z.mul_1_r.
  destruct (Z.ltb_spec z 0); destruct (Z.leb_spec 0 z); simpl; try reflexivity; lia.
Qed.

Lemma positive_inject_Z (z : Z) : positive (Fin (inject_Z z)) = (0 <? z)%Z.
Proof.
  unfold positive, Qle_bool. simpl. rewrite Z.mul_1_r.
  destruct (Z.ltb_spec 0 z); destruct (Z.leb_spec z 0); simpl; try reflexivity; lia.
Qed.

Lemma Qle_bool_sub_swap (x y : Q) : Qle_bool 0 (x - y) = Qle_bool (y - x) 0.
Proof.
  destruct (Qle_bool 0 (x - y)) eqn:E1; destruct (Qle_bool (y - x) 0) eqn:E2;
    try reflexivity; exfalso.
  - apply Qle_bool_iff in E1. apply Qle_bool_false in E2. lra.
  - apply Qle_bool_iff in E2. apply Qle_bool_false in E1. lra.
Qed.

(** [b - a] has the opposite sign of [a - b]. *)
Lemma nsub_swap (a b : number) :
  positive (nsub b a) = negative (nsub a b) /\ negative (nsub b a) = positive (nsub a b).
Proof.
  destruct a as [| |x|], b as [| |y|]; simpl; auto.
  split; f_equal; [symmetry |]; apply Qle_bool_sub_swap.
Qed.

Lemma toLowerCase_nonempty (s : string) : s <> EmptyString -> toLowerCase s <> EmptyString.
Proof. destruct s; [congruence | discriminate]. Qed.

Section Comparator.
Context `{Host}.

(** The comparator finds a null value exactly under a date key, for a
    task whose date is null. *)
Lemma sortValues_null (key : string) (a b : GanttTask.t) :
  (fst (DataProcessor.sortValues key a b) = DataProcessor.SVNull <->
     (key = "start_date" /\ GanttTask.startDate a = None) \/
     (key = "end_date" /\ GanttTask.endDate a = None)) /\
  (snd (DataProcessor.sortValues key a b) = DataProcessor.SVNull <->
     (key = "start_date" /\ GanttTask.startDate b = None) \/
     (key = "end_date" /\ GanttTask.endDate b = None)).
Proof.
  unfold DataProcessor.sortValues.
  destruct (String.eqb_spec key "name") as [-> | _].
  { simpl. split; (split; [discriminate | intros [[E _] | [E _]]; discriminate E]). }
  destruct (String.eqb_spec key "start_date") as [-> | Ns].
  { simpl. split; split.
    - intros E. left. split; [reflexivity |].
      destruct (GanttTask.startDate a); [discriminate | reflexivity].
    - intros [[_ ->] | [E _]]; [reflexivity | discriminate E].
    - intros E. left. split; [reflexivity |].
      destruct (GanttTask.startDate b); [discriminate | reflexivity].
    - intros [[_ ->] | [E _]]; [reflexivity | discriminate E]. }
  destruct (String.eqb_spec key "end_date") as [-> | Ne].
  { simpl. split; split.
    - intros E. right. split; [reflexivity |].
      destruct (GanttTask.endDate a); [discriminate | reflexivity].
    - intros [[E _] | [_ ->]]; [discriminate E | reflexivity].
    - intros E. right. split; [reflexivity |].
      destruct (GanttTask.endDate b); [discriminate | reflexivity].
    - intros [[E _] | [_ ->]]; [discriminate E | reflexivity]. }
  assert (No : forall t : GanttTask.t,
            ~ ((key = "start_date" /\ GanttTask.startDate t = None) \/
               (key = "end_date" /\ GanttTask.endDate t = None))).
  { intros t [[E _] | [E _]]; contradiction. }
  destruct (_ || _)%bool.
  - destruct (_ ≫= _) as [[x y]|]; simpl;
      (split; (split; [discriminate | intros C; destruct (No _ C)])).
  - simpl. split; (split; [discriminate | intros C; destruct (No _ C)]).
Qed.

(** C2, amended.  When the host's collation is antisymmetric, the
    comparator under [desc] has the opposite sign of the comparator under
    [asc] on every pair of tasks, except under a date key when exactly one
    of the two dates is null. *)
Theorem sortTasks_compare_desc_reverses (key : string) (a b : GanttTask.t) :
  (forall x y : string, Z.sgn (localeCompare y x) = (- Z.sgn (localeCompare x y))%Z) ->
  (key = "start_date" -> (GanttTask.startDate a = None <-> GanttTask.startDate b = None)) ->
  (key = "end_date" -> (GanttTask.endDate a = None <-> GanttTask.endDate b = None)) ->
  positive (DataProcessor.sortTasks_compare key desc a b) =
    negative (DataProcessor.sortTasks_compare key asc a b) /\
  negative (DataProcessor.sortTasks_compare key desc a b) =
    positive (DataProcessor.sortTasks_compare key asc a b).
Proof.
  intros Hanti Hstart Hend.
  assert (Hstr : forall x y : string,
            positive (Fin (inject_Z (localeCompare y x))) =
              negative (Fin (inject_Z (localeCompare x y))) /\
            negative (Fin (inject_Z (localeCompare y x))) =
              positive (Fin (inject_Z (localeCompare x y)))).
  { intros x y. rewrite !positive_inject_Z, !negative_inject_Z.
    specialize (Hanti x y).
    destruct (Z.ltb_spec 0 (localeCompare y x)); destruct (Z.ltb_spec (localeCompare x y) 0);
      destruct (Z.ltb_spec (localeCompare y x) 0); destruct (Z.ltb_spec 0 (localeCompare x y));
      split; try reflexivity; exfalso; lia. }
  assert (Hself : forall x y : string,
            positive (Fin (inject_Z (localeCompare y y))) =
              negative (Fin (inject_Z (localeCompare x x))) /\
            negative (Fin (inject_Z (localeCompare y y))) =
              positive (Fin (inject_Z (localeCompare x x)))).
  { intros x y. rewrite !positive_inject_Z, !negative_inject_Z.
    pose proof (Hanti x x). pose proof (Hanti y y).
    destruct (Z.ltb_spec 0 (localeCompare y y)); destruct (Z.ltb_spec (localeCompare x x) 0);
      destruct (Z.ltb_spec (localeCompare y y) 0); destruct (Z.ltb_spec 0 (localeCompare x x));
      split; try reflexivity; exfalso; lia. }
  destruct (sortValues_null key a b) as [Na Nb].
  unfold DataProcessor.sortTasks_compare.
  destruct (DataProcessor.sortValues key a b) as [x y]. simpl in Na, Nb.
  assert (Hnull : x = DataProcessor.SVNull <-> y = DataProcessor.SVNull).
  { rewrite Na, Nb. split.
    - intros [[E Ea] | [E Ea]]; [left | right]; (split; [exact E |]).
      + apply (Hstart E), Ea.
      + apply (Hend E), Ea.
    - intros [[E Eb] | [E Eb]]; [left | right]; (split; [exact E |]).
      + apply (Hstart E), Eb.
      + apply (Hend E), Eb. }
  clear Na Nb Hstart Hend.
  destruct x as [|sx|dx|nx], y as [|sy|dy|ny];
    try (exfalso; destruct Hnull as [H1 H2];
         first [discriminate (H1 eq_refl) | discriminate (H2 eq_refl)]);
    simpl; first [apply Hself | apply Hstr | apply nsub_swap].
Qed.



End Comparator.

(** ** The comparator on the reference host *)

Lemma compareBytes_antisym (x y : string) :
  Z.sgn (Example.compareBytes y x) = (- Z.sgn (Example.compareBytes x y))%Z.
Proof.
  unfold Example.compareBytes. rewrite (String.compare_antisym x y).
  destruct (String.compare y x); reflexivity.
Qed.

(** The sorting scenario of the specification: by name, Alpha comes before
    Beta under [asc] and after it under [desc]. *)
Example alpha_beta_by_name :
  negative (DataProcessor.sortTasks_compare "name" asc Samples.alpha Samples.beta) = true /\
  positive (DataProcessor.sortTasks_compare "name" desc Samples.alpha Samples.beta) = true.
Proof. vm_compute. split; reflexivity. Qed.

Example alpha_beta_sorted :
  DataProcessor.sortTasks [Samples.beta; Samples.alpha] "name" asc =
    [Samples.alpha; Samples.beta] /\
  DataProcessor.sortTasks [Samples.alpha; Samples.beta] "name" desc =
    [Samples.beta; Samples.alpha].
Proof. vm_compute. split; reflexivity. Qed.

(** C2, as stated, fails: under the key [start_date] the task without a
    start comes before the task with one under [asc] and under [desc]. *)
Lemma null_date_first_in_both_directions :
  GanttTask.startDate Samples.no_start = None /\
  GanttTask.startDate Samples.alpha = Some (Example.ymd 2024 3 1) /\
  negative (DataProcessor.sortTasks_compare "start_date" asc Samples.no_start Samples.alpha)
    = true /\
  positive (DataProcessor.sortTasks_compare "start_date" desc Samples.no_start Samples.alpha)
    = false /\
  negative (DataProcessor.sortTasks_compare "start_date" desc Samples.no_start Samples.alpha)
    = true.
Proof. vm_compute. repeat split; reflexivity. Qed.

Lemma sortTasks_compare_desc_reverses_witness :
  positive (DataProcessor.sortTasks_compare "start_date" desc Samples.alpha Samples.beta) =
    negative (DataProcessor.sortTasks_compare "start_date" asc Samples.alpha Samples.beta) /\
  negative (DataProcessor.sortTasks_compare "start_date" desc Samples.alpha Samples.beta) =
    positive (DataProcessor.sortTasks_compare "start_date" asc Samples.alpha Samples.beta).
Proof.
  apply (sortTasks_compare_desc_reverses (H := Example.host)
           "start_date" Samples.alpha Samples.beta compareBytes_antisym).
  - intros _. simpl. split; discriminate.
  - discriminate.
Defined.



(** ** The chart: valid tasks and group buckets *)

Lemma filter_hasBothDates_idem (tasks : list GanttTask.t) :
  List.filter GanttChart.hasBothDates (List.filter GanttChart.hasBothDates tasks) =
  List.filter GanttChart.hasBothDates tasks.
Proof.
  induction tasks as [|t rest IH]; simpl; [reflexivity |].
  destruct (GanttChart.hasBothDates t) eqn:E; simpl; [rewrite E, IH |]; auto.
Qed.

Lemma layout_validTasks (innerWidth : number) (tasks : list GanttTask.t) :
  GanttChart.validTasks (GanttChart.layout innerWidth tasks) =
  List.filter GanttChart.hasBothDates tasks.
Proof.
  unfold GanttChart.layout. destruct (List.filter _ tasks); reflexivity.
Qed.

(** No task without parent is filed under a key that [groups] inherits:
    the condition under which the first loop of [groupedTasks] does not
    throw. *)
Definition rootKeysOwn (l : list GanttTask.t) : Prop :=
  forall t, In t l -> GanttChart.isSubtask t = false ->
            inherited (GanttChart.groupKey t) = false.

Lemma forEach_placeTask_returns (l : list GanttTask.t) :
  forall acc, rootKeysOwn l -> exists r, forEach GanttChart.placeTask l acc = Some r.
Proof.
  induction l as [|x rest IH]; intros [groups orphans] Hown; cbn [forEach].
  - eauto.
  - assert (Hrest : rootKeysOwn rest) by (intros t Ht; apply Hown; right; exact Ht).
    unfold GanttChart.placeTask.
    destruct (inherited (GanttChart.groupKey x)) eqn:Einh;
      destruct (GanttChart.isSubtask x) eqn:Esub;
      try (apply IH, Hrest).
    rewrite (Hown x (or_introl eq_refl) Esub) in Einh. discriminate Einh.
Qed.

Lemma forEach_placeTask_throws (l : list GanttTask.t) :
  forall acc,
    (exists t, In t l /\ GanttChart.isSubtask t = false /\
               inherited (GanttChart.groupKey t) = true) ->
    forEach GanttChart.placeTask l acc = None.
Proof.
  induction l as [|x rest IH]; intros [groups orphans] (t & Ht & Hroot & Hinh);
    [destruct Ht |].
  cbn [forEach].
  destruct (GanttChart.placeTask (groups, orphans) x) as [acc'|] eqn:Ep; [| reflexivity].
  destruct Ht as [<- | Ht].
  - unfold GanttChart.placeTask in Ep. rewrite Hinh, Hroot in Ep. discriminate Ep.
  - apply IH. eauto.
Qed.

(** The first loop of [groupedTasks], when it does not throw: the orphans
    are the subtasks, in order; buckets only grow; every task that is not
    a subtask is in the bucket of its group; a bucket holds nothing else;
    and no task without parent has an inherited key. *)
Lemma placeTask_fold (l : list GanttTask.t) :
  forall (groups groups' : gmap string (list GanttTask.t))
         (orphans orphans' : list GanttTask.t),
    forEach GanttChart.placeTask l (groups, orphans) = Some (groups', orphans') ->
    orphans' = orphans ++ List.filter GanttChart.isSubtask l /\
    (forall g b, groups !! g = Some b -> exists b', groups' !! g = Some b' /\ incl b b') /\
    (forall t, In t l -> GanttChart.isSubtask t = false ->
       exists b, groups' !! GanttChart.groupKey t = Some b /\ In t b) /\
    (forall g b' t, groups' !! g = Some b' -> In t b' ->
       In t l \/ exists b, groups !! g = Some b /\ In t b) /\
    rootKeysOwn l.
Proof.
  induction l as [|x rest IH]; intros groups groups' orphans orphans'; cbn [forEach].
  - intros [= <- <-]. rewrite app_nil_r. repeat split.
    + intros g b Hb. exists b. split; [exact Hb | apply incl_refl].
    + intros t [].
    + intros g b' t Hb Ht. right. eauto.
    + intros t [].
  - unfold GanttChart.placeTask.
    set (bucket := default [] (groups !! GanttChart.groupKey x)).
    destruct (inherited (GanttChart.groupKey x)) eqn:Einh;
      destruct (GanttChart.isSubtask x) eqn:Esub; try discriminate; intros Hfold;
      destruct (IH _ _ _ _ Hfold) as (Horph & Hgrow & Hroot & Hmem & Hown);
      cbn [List.filter]; rewrite Esub.
    + split; [rewrite Horph, <- app_assoc; reflexivity |]. repeat split.
      * exact Hgrow.
      * intros t [<- | Ht] Hns; [congruence | apply Hroot; assumption].
      * intros g b' t Hb Ht. destruct (Hmem g b' t Hb Ht) as [Hin | Hin];
          [left; right; exact Hin | right; exact Hin].
      * intros t [<- | Ht] Hns; [congruence | apply Hown; assumption].
    + split; [rewrite Horph, <- app_assoc; reflexivity |]. repeat split.
      * intros g b Hb. destruct (decide (GanttChart.groupKey x = g)) as [<- | Hne].
        -- apply (Hgrow (GanttChart.groupKey x) b). rewrite lookup_insert_eq.
           unfold bucket. rewrite Hb. reflexivity.
        -- apply Hgrow. rewrite lookup_insert_ne by exact Hne. exact Hb.
      * intros t [<- | Ht] Hns; [congruence | apply Hroot; assumption].
      * intros g b' t Hb Ht. destruct (Hmem g b' t Hb Ht) as [Hin | (b & Hb0 & Hin)].
        -- left. right. exact Hin.
        -- destruct (decide (GanttChart.groupKey x = g)) as [<- | Hne].
           ++ rewrite lookup_insert_eq in Hb0. injection Hb0 as <-.
              unfold bucket in Hin. destruct (groups !! GanttChart.groupKey x) as [b0|] eqn:E0;
                [right; eauto | destruct Hin].
           ++ rewrite lookup_insert_ne in Hb0 by exact Hne. right. eauto.
      * intros t [<- | Ht] Hns; [congruence | apply Hown; assumption].
    + split; [exact Horph |]. repeat split.
      * intros g b Hb. destruct (decide (GanttChart.groupKey x = g)) as [<- | Hne].
        -- destruct (Hgrow (GanttChart.groupKey x) (bucket ++ [x])) as (b' & Hb' & Hincl);
             [apply lookup_insert_eq |].
           exists b'. split; [exact Hb' |].
           intros t Ht. apply Hincl, in_or_app. left.
           unfold bucket. rewrite Hb. exact Ht.
        -- apply Hgrow. rewrite lookup_insert_ne by exact Hne. exact Hb.
      * intros t [<- | Ht] Hns; [| apply Hroot; assumption].
        destruct (Hgrow (GanttChart.groupKey x) (bucket ++ [x])) as (b' & Hb' & Hincl);
          [apply lookup_insert_eq |].
        exists b'. split; [exact Hb' |]. apply Hincl, in_or_app. right. left. reflexivity.
      * intros g b' t Hb Ht. destruct (Hmem g b' t Hb Ht) as [Hin | (b & Hb0 & Hin)].
        -- left. right. exact Hin.
        -- destruct (decide (GanttChart.groupKey x = g)) as [<- | Hne].
           ++ rewrite lookup_insert_eq in Hb0. injection Hb0 as <-.
              apply in_app_or in Hin. destruct Hin as [Hin | [<- | []]].
              ** unfold bucket in Hin. destruct (groups !! GanttChart.groupKey x) as [b0|] eqn:E0;
                   [right; eauto | destruct Hin].
              ** left. left. reflexivity.
           ++ rewrite lookup_insert_ne in Hb0 by exact Hne. right. eauto.
      * intros t [<- | Ht] Hns; [exact Einh | apply Hown; assumption].
Qed.

(** The second loop acts on each bucket by itself. *)
Lemma placeSubtask_fold (orphans : list GanttTask.t) :
  forall (groups : gmap string (list GanttTask.t)) (g : string),
  fold_left GanttChart.placeSubtask orphans groups !! g =
  (fun bucket => fold_left (fun b s => GanttChart.insertSubtask s b) orphans bucket)
    <$> (groups !! g).
Proof.
  induction orphans as [|s rest IH]; intros groups g; simpl.
  - destruct (groups !! g); reflexivity.
  - rewrite IH. unfold GanttChart.placeSubtask. rewrite lookup_fmap.
    destruct (groups !! g); reflexivity.
Qed.

(** [l.splice(k, 0, x)] on a concatenation lands in one of the two parts. *)
Lemma splice_app {A : Type} (k : nat) (x : A) (l1 l2 : list A) :
  take k (l1 ++ l2) ++ x :: drop k (l1 ++ l2) =
  if decide (k <= length l1)%nat
  then (take k l1 ++ x :: drop k l1) ++ l2
  else l1 ++ (take (k - length l1) l2 ++ x :: drop (k - length l1) l2).
Proof.
  rewrite take_app, drop_app. case_decide as Hk.
  - replace (k - length l1)%nat with 0%nat by lia. simpl.
    rewrite app_nil_r, <- app_assoc. reflexivity.
  - rewrite (take_ge l1), (drop_ge l1) by lia. simpl.
    rewrite <- app_assoc. reflexivity.
Qed.

Lemma splice_keeps {A : Type} (k : nat) (x y : A) (l : list A) :
  In y l -> In y (take k l ++ x :: drop k l).
Proof.
  intros Hy. rewrite <- (take_drop k l) in Hy.
  apply in_app_or in Hy. apply in_or_app. simpl. tauto.
Qed.

(** A splice of a subtask keeps the shape "parent, subtasks, child". *)
Lemma splice_keeps_shape (k : nat) (x q c : GanttTask.t) (l1 mid l2 : list GanttTask.t) :
  GanttChart.isSubtask x = true ->
  Forall (fun t => GanttChart.isSubtask t = true) mid ->
  exists l1' mid' l2',
    take k (l1 ++ q :: mid ++ c :: l2) ++ x :: drop k (l1 ++ q :: mid ++ c :: l2) =
      l1' ++ q :: mid' ++ c :: l2' /\
    Forall (fun t => GanttChart.isSubtask t = true) mid'.
Proof.
  intros Hx Hmid. rewrite splice_app. case_decide as H1.
  { eexists _, mid, l2. split; [reflexivity | exact Hmid]. }
  destruct (k - length l1)%nat as [|k1] eqn:Ek; [lia |]. simpl.
  rewrite splice_app. case_decide as H2.
  { exists l1, (take k1 mid ++ x :: drop k1 mid), l2. split; [reflexivity |].
    apply Forall_app. split; [apply Forall_take, Hmid |].
    constructor; [exact Hx | apply Forall_drop, Hmid]. }
  destruct (k1 - length mid)%nat as [|k2] eqn:Ek2; [lia |]. simpl.
  exists l1, mid, (take k2 l2 ++ x :: drop k2 l2). split; [reflexivity | exact Hmid].
Qed.

Lemma findIndex_Some {A : Type} (p : A -> bool) (l : list A) (i : nat) :
  GanttChart.findIndex p l = Some i -> exists q, l !! i = Some q /\ p q = true.
Proof.
  revert i. induction l as [|x rest IH]; intros i; simpl; [discriminate |].
  destruct (p x) eqn:Ep.
  - intros [= <-]. exists x. split; [reflexivity | exact Ep].
  - destruct (GanttChart.findIndex p rest) as [j|]; simpl; [| discriminate].
    intros [= <-]. apply (IH j). reflexivity.
Qed.

Lemma findIndex_exists {A : Type} (p : A -> bool) (l : list A) (q : A) :
  In q l -> p q = true -> exists i, GanttChart.findIndex p l = Some i.
Proof.
  induction l as [|x rest IH]; intros Hin Hp; simpl; [destruct Hin |].
  destruct (p x) eqn:Ep; [eauto |].
  destruct Hin as [-> | Hin]; [congruence |].
  destruct (IH Hin Hp) as [i ->]. simpl. eauto.
Qed.

Lemma insertSubtask_keeps (s y : GanttTask.t) (b : list GanttTask.t) :
  In y b -> In y (GanttChart.insertSubtask s b).
Proof.
  intros Hy. unfold GanttChart.insertSubtask.
  destruct (GanttChart.findIndex _ b); [apply splice_keeps |]; exact Hy.
Qed.

Lemma insertSubtask_members (s y : GanttTask.t) (b : list GanttTask.t) :
  In y (GanttChart.insertSubtask s b) -> y = s \/ In y b.
Proof.
  unfold GanttChart.insertSubtask.
  destruct (GanttChart.findIndex _ b) as [i|]; [| tauto].
  intros Hy. apply in_app_or in Hy. rewrite <- (take_drop (S i) b).
  destruct Hy as [Hy | [<- | Hy]]; [right | left | right];
    try reflexivity; apply in_or_app; tauto.
Qed.

(** The second loop on one bucket.  A subtask whose [parentId] is the id
    of a task of the bucket ends up in the bucket, after a task with that
    id and separated from it by subtasks only. *)
Lemma insertSubtask_fold (orphans : list GanttTask.t) (c : GanttTask.t) (parentId : string) :
  Forall (fun t => GanttChart.isSubtask t = true) orphans ->
  In c orphans ->
  GanttTask.parentId c = Some parentId ->
  forall bucket : list GanttTask.t,
  (exists q, In q bucket /\ GanttTask.id q = parentId) ->
  exists q l1 mid l2,
    fold_left (fun b s => GanttChart.insertSubtask s b) orphans bucket =
      l1 ++ q :: mid ++ c :: l2 /\
    GanttTask.id q = parentId /\
    Forall (fun t => GanttChart.isSubtask t = true) mid.
Proof.
  intros Hsub Hc Hpid.
  assert (Hshape : forall (rest : list GanttTask.t),
            Forall (fun t => GanttChart.isSubtask t = true) rest ->
            forall (b : list GanttTask.t),
            (exists q l1 mid l2, b = l1 ++ q :: mid ++ c :: l2 /\
               GanttTask.id q = parentId /\ Forall (fun t => GanttChart.isSubtask t = true) mid) ->
            exists q l1 mid l2,
              fold_left (fun b s => GanttChart.insertSubtask s b) rest b =
                l1 ++ q :: mid ++ c :: l2 /\
              GanttTask.id q = parentId /\ Forall (fun t => GanttChart.isSubtask t = true) mid).
  { induction rest as [|s rest IH]; intros Hrest b Hb; simpl; [exact Hb |].
    inversion Hrest as [|? ? Hs Hrest']; subst.
    apply (IH Hrest'). destruct Hb as (q & l1 & mid & l2 & -> & Hq & Hmid).
    unfold GanttChart.insertSubtask.
    destruct (GanttChart.findIndex _ _) as [i|].
    - destruct (splice_keeps_shape (S i) s q c l1 mid l2 Hs Hmid)
        as (l1' & mid' & l2' & E & Hmid').
      exists q, l1', mid', l2'. auto.
    - exists q, l1, mid, l2. auto. }
  induction orphans as [|s rest IH]; intros bucket Hq; [destruct Hc |].
  inversion Hsub as [|? ? Hs Hrest]; subst. simpl.
  destruct Hc as [-> | Hc].
  - apply (Hshape rest Hrest). destruct Hq as (q & Hin & Hid).
    unfold GanttChart.insertSubtask.
    destruct (findIndex_exists (GanttChart.isParentOf c) bucket q Hin) as [i Hi].
    { unfold GanttChart.isParentOf. rewrite Hpid. apply String.eqb_eq, Hid. }
    rewrite Hi. destruct (findIndex_Some _ _ _ Hi) as (q' & Hq' & Hp).
    unfold GanttChart.isParentOf in Hp. rewrite Hpid in Hp. apply String.eqb_eq in Hp.
    exists q', (take i bucket), [], (drop (S i) bucket). repeat split; [| exact Hp | constructor].
    rewrite (take_S_r _ _ _ Hq'), <- app_assoc. reflexivity.
  - apply (IH Hrest Hc). destruct Hq as (q & Hin & Hid).
    exists q. split; [apply insertSubtask_keeps, Hin | exact Hid].
Qed.

Lemma insertSubtask_fold_members (orphans : list GanttTask.t) (y : GanttTask.t) :
  forall bucket : list GanttTask.t,
  In y (fold_left (fun b s => GanttChart.insertSubtask s b) orphans bucket) ->
  In y orphans \/ In y bucket.
Proof.
  induction orphans as [|s rest IH]; intros bucket Hy; simpl in *; [tauto |].
  destruct (IH _ Hy) as [H1 | H2]; [tauto |].
  destruct (insertSubtask_members _ _ _ H2) as [-> | H3]; tauto.
Qed.

(** C3, amended.  A parent task and a subtask naming it, both with two
    dates, in a list whose tasks without parent have group labels that are
    no names of members of [Object.prototype] (so that the grouping does
    not throw): the subtask is in the bucket of the parent's group, after
    a task that carries the parent's id, and the tasks between the two are
    subtasks (those spliced in later). *)
Theorem groupedTasks_child_after_parent (innerWidth : number) (tasks : list GanttTask.t)
    (p c : GanttTask.t) :
  In p tasks -> In c tasks ->
  GanttChart.hasBothDates p = true -> GanttChart.hasBothDates c = true ->
  GanttChart.isSubtask p = false ->
  GanttTask.id p <> "" ->
  GanttTask.parentId c = Some (GanttTask.id p) ->
  (forall t, In t tasks -> GanttChart.hasBothDates t = true ->
     GanttChart.isSubtask t = false -> inherited (GanttChart.groupKey t) = false) ->
  exists groups bucket q l1 mid l2,
    GanttChart.groupedTasks (GanttChart.validTasks (GanttChart.layout innerWidth tasks))
      = Some groups /\
    groups !! GanttChart.groupKey p = Some bucket /\
    bucket = l1 ++ q :: mid ++ c :: l2 /\
    GanttTask.id q = GanttTask.id p /\
    Forall (fun t => GanttChart.isSubtask t = true) mid.
Proof.
  intros Hp Hc Vp Vc Rp Idp Pc Hown. rewrite layout_validTasks.
  set (vt := List.filter GanttChart.hasBothDates tasks).
  assert (Hpv : In p vt) by (apply filter_In; auto).
  assert (Hcv : In c vt) by (apply filter_In; auto).
  assert (Hownv : rootKeysOwn vt).
  { intros t Ht. apply filter_In in Ht. destruct Ht as [Ht Vt]. apply Hown; assumption. }
  unfold GanttChart.groupedTasks.
  destruct (forEach_placeTask_returns vt (∅, []) Hownv) as ([groups0 orphans0] & Hfold).
  rewrite Hfold.
  destruct (placeTask_fold vt _ _ _ _ Hfold) as (-> & _ & Hroot & _).
  destruct (Hroot p Hpv Rp) as (b0 & Hb0 & Hin).
  destruct (insertSubtask_fold (List.filter GanttChart.isSubtask vt) c (GanttTask.id p))
    with (bucket := b0) as (q & l1 & mid & l2 & E & Hq & Hmid).
  - apply List.Forall_forall. intros t Ht. apply filter_In in Ht. tauto.
  - apply filter_In. split; [exact Hcv |].
    unfold GanttChart.isSubtask. rewrite Pc. simpl. unfold truthy_str.
    destruct (String.eqb_spec (GanttTask.id p) ""); [contradiction | reflexivity].
  - exact Pc.
  - eauto.
  - eexists _, (l1 ++ q :: mid ++ c :: l2), q, l1, mid, l2.
    split; [reflexivity |]. cbn [app].
    rewrite placeSubtask_fold, Hb0. cbn. rewrite E. auto.
Qed.

(** C10.  The chart keeps the tasks with two dates and nothing else: the
    buckets hold only such tasks of the list, the layout is the layout of
    the kept tasks, and a bar without one of its dates is not drawn. *)
Theorem chart_ignores_half_dated_tasks (innerWidth : number) (tasks : list GanttTask.t) :
  let valid := GanttChart.validTasks (GanttChart.layout innerWidth tasks) in
  valid = List.filter GanttChart.hasBothDates tasks /\
  (forall groups g bucket t,
     GanttChart.groupedTasks valid = Some groups ->
     groups !! g = Some bucket -> In t bucket ->
     In t tasks /\
     exists s e, GanttTask.startDate t = Some s /\ GanttTask.endDate t = Some e) /\
  GanttChart.layout innerWidth tasks =
    GanttChart.layout innerWidth (List.filter GanttChart.hasBothDates tasks) /\
  (forall props : GanttBar.Props,
     GanttTask.startDate (GanttBar.task props) = None \/
     GanttTask.endDate (GanttBar.task props) = None ->
     GanttBar.geometry props = None).
Proof.
  intros valid. unfold valid. rewrite layout_validTasks.
  split; [reflexivity |]. split; [| split].
  - set (vt := List.filter GanttChart.hasBothDates tasks).
    intros groups g bucket t Hgroups Hg Ht.
    assert (Hv : In t vt).
    { unfold GanttChart.groupedTasks in Hgroups.
      destruct (forEach GanttChart.placeTask vt (∅, [])) as [[groups0 orphans0]|] eqn:Hfold;
        [| discriminate].
      injection Hgroups as <-.
      destruct (placeTask_fold vt _ _ _ _ Hfold) as (-> & _ & _ & Hmem & _).
      cbn [app] in Hg. rewrite placeSubtask_fold in Hg.
      destruct (groups0 !! g) as [b0|] eqn:Eb0; [| discriminate].
      simpl in Hg. injection Hg as <-.
      destruct (insertSubtask_fold_members _ _ _ Ht) as [Ho | Hb].
      - apply filter_In in Ho. tauto.
      - destruct (Hmem g b0 t Eb0 Hb) as [Hin | (b & Hb' & _)]; [exact Hin |].
        rewrite lookup_empty in Hb'. discriminate. }
    apply filter_In in Hv. destruct Hv as [Hin Hv]. split; [exact Hin |].
    unfold GanttChart.hasBothDates in Hv.
    destruct (GanttTask.startDate t) as [s|]; [| discriminate].
    destruct (GanttTask.endDate t) as [e|]; [| discriminate]. eauto.
  - unfold GanttChart.layout. rewrite filter_hasBothDates_idem. reflexivity.
  - intros props [E | E]; unfold GanttBar.geometry; rewrite E; [reflexivity |].
    destruct (GanttTask.startDate _); reflexivity.
Qed.

(** ** Grouping on sample tasks *)

(** C3, as stated, fails for a parent with two subtasks: the second one
    is spliced between the parent and the first, so the first subtask does
    not come immediately after its parent. *)
Lemma second_child_displaces_first :
  GanttTask.parentId Samples.child1 = Some (GanttTask.id Samples.parent) /\
  GanttTask.parentId Samples.child2 = Some (GanttTask.id Samples.parent) /\
  (GanttChart.groupedTasks
     (GanttChart.validTasks
        (GanttChart.layout (Fin 1200) [Samples.parent; Samples.child1; Samples.child2]))
     ≫= lookup "Plan") = Some [Samples.parent; Samples.child2; Samples.child1].
Proof. vm_compute. repeat split; reflexivity. Qed.

(** C3 needs a parent without parent: when the parent is itself a subtask
    and comes later in the list than its child, the child finds no task
    with its parent's id in any bucket and is in no bucket at all. *)
Lemma child_of_nested_parent_is_dropped :
  GanttTask.parentId Samples.nested_child = Some (GanttTask.id Samples.child1) /\
  GanttChart.groupedTasks
    (GanttChart.validTasks
       (GanttChart.layout (Fin 1200)
          [Samples.parent; Samples.nested_child; Samples.child1]))
  = Some {[ "Plan" := [Samples.parent; Samples.child1] ]}.
Proof. vm_compute. repeat split; reflexivity. Qed.

(** C3 needs a parent with a non-empty id: a parent id that is the empty
    string is falsy, so the child is filed as a task without parent, at its
    place in the list. *)
Lemma child_of_unnamed_parent_is_a_root :
  GanttTask.parentId Samples.unnamed_child = Some (GanttTask.id Samples.unnamed) /\
  GanttChart.groupedTasks
    (GanttChart.validTasks
       (GanttChart.layout (Fin 1200) [Samples.unnamed_child; Samples.unnamed]))
  = Some {[ "Plan" := [Samples.unnamed_child; Samples.unnamed] ]}.
Proof. vm_compute. repeat split; reflexivity. Qed.

(** C3 needs group labels that [groups] does not inherit: for a task
    without parent in the group [constructor] the read of the bucket gives
    the inherited member, no bucket is made and the [push] throws. *)
Lemma inherited_group_label_throws :
  GanttChart.groupKey Samples.in_constructor = "constructor" /\
  GanttChart.groupedTasks
    (GanttChart.validTasks
       (GanttChart.layout (Fin 1200) [Samples.parent; Samples.in_constructor]))
  = None.
Proof. vm_compute. repeat split; reflexivity. Qed.

Lemma groupedTasks_child_after_parent_witness :
  exists groups bucket q l1 mid l2,
    GanttChart.groupedTasks
      (GanttChart.validTasks
         (GanttChart.layout (Fin 1200) [Samples.parent; Samples.child1; Samples.child2]))
      = Some groups /\
    groups !! "Plan" = Some bucket /\
    bucket = l1 ++ q :: mid ++ Samples.child1 :: l2 /\
    GanttTask.id q = "p" /\
    Forall (fun t => GanttChart.isSubtask t = true) mid.
Proof.
  apply (groupedTasks_child_after_parent (Fin 1200)
           [Samples.parent; Samples.child1; Samples.child2] Samples.parent Samples.child1).
  - simpl. tauto.
  - simpl. tauto.
  - reflexivity.
  - reflexivity.
  - reflexivity.
  - discriminate.
  - reflexivity.
  - intros t [<- | [<- | [<- | []]]] _ _; reflexivity.
Defined.

(** ** The date window *)

Lemma Qle_bool_inject_Z (x y : Z) : Qle_bool (inject_Z x) (inject_Z y) = (x <=? y)%Z.
Proof. unfold Qle_bool. simpl. rewrite !Z.mul_1_r. reflexivity. Qed.

Lemma Date_of_number_getTime (ms : Z) : Date_of_number (Fin (inject_Z ms)) = DateTime ms.
Proof. simpl. rewrite Z.quot_1_r. reflexivity. Qed.

Lemma absRound_inject_Z (k : Z) : Moment.absRound (inject_Z k) = k.
Proof.
  unfold Moment.absRound.
  destruct (Qle_bool 0 (inject_Z k)); unfold Qfloor, Qplus, Qopp, inject_Z; simpl;
    rewrite Z.div_add_l by lia;
    change (Z.div (1 * 1) (Z.pos (1 * 2))) with 0%Z; lia.
Qed.

(** The dates gathered by [reduce]. *)
Lemma pushDates_fold (l : list GanttTask.t) (d : Date) :
  forall acc : list Date,
  In d (fold_left GanttChart.pushDates l acc) <->
  In d acc \/
  exists t, In t l /\ (GanttTask.startDate t = Some d \/ GanttTask.endDate t = Some d).
Proof.
  induction l as [|x rest IH]; intros acc; simpl.
  - split; [tauto | intros [H | (t & [] & _)]; exact H].
  - rewrite IH. unfold GanttChart.pushDates.
    split.
    + intros [Hacc | (t & Ht & Hd)]; [| right; exists t; tauto].
      destruct (GanttTask.startDate x) as [s|] eqn:Es;
        destruct (GanttTask.endDate x) as [e|] eqn:Ee;
        repeat (apply in_app_or in Hacc; destruct Hacc as [Hacc | Hacc]);
        try (left; exact Hacc);
        destruct Hacc as [<- | []]; right; exists x; tauto.
    + intros [Hacc | (t & [<- | Ht] & Hd)].
      * left. destruct (GanttTask.startDate x), (GanttTask.endDate x);
          repeat (apply in_or_app; left); exact Hacc.
      * left. destruct Hd as [Hd | Hd]; rewrite Hd.
        -- destruct (GanttTask.endDate x);
             [apply in_or_app; left |]; apply in_or_app; right; left; reflexivity.
        -- destruct (GanttTask.startDate x);
             apply in_or_app; right; left; reflexivity.
      * right. exists t. tauto.
Qed.

(** [Math.min] and [Math.max] over the time values of valid dates. *)
Lemma Math_min_list_dates (dates : list Date) :
  dates <> [] ->
  (forall d, In d dates -> d <> InvalidDate) ->
  exists lo : Z,
    Math_min_list (map getTime dates) = Fin (inject_Z lo) /\
    In (DateTime lo) dates /\
    (forall x, In (DateTime x) dates -> (lo <= x)%Z).
Proof.
  induction dates as [|d rest IH]; intros Hne Hvalid; [congruence |].
  destruct d as [|ms]; [destruct (Hvalid InvalidDate); [left |]; reflexivity |].
  destruct rest as [|d' rest'].
  - exists ms. simpl. repeat split; [tauto |].
    intros x [[= <-] | []]. lia.
  - destruct IH as (lo & Hmin & Hin & Hlo); [discriminate | intros; apply Hvalid; right; assumption |].
    change (Math_min_list (map getTime (DateTime ms :: d' :: rest')))
      with (Math_min (Fin (inject_Z ms)) (Math_min_list (map getTime (d' :: rest')))).
    rewrite Hmin. simpl Math_min. rewrite Qle_bool_inject_Z.
    destruct (Z.leb_spec ms lo).
    + exists ms. repeat split; [left; reflexivity |].
      intros x [[= <-] | Hx]; [lia | specialize (Hlo x Hx); lia].
    + exists lo. repeat split; [right; exact Hin |].
      intros x [[= <-] | Hx]; [lia | exact (Hlo x Hx)].
Qed.

Lemma Math_max_list_dates (dates : list Date) :
  dates <> [] ->
  (forall d, In d dates -> d <> InvalidDate) ->
  exists hi : Z,
    Math_max_list (map getTime dates) = Fin (inject_Z hi) /\
    In (DateTime hi) dates /\
    (forall x, In (DateTime x) dates -> (x <= hi)%Z).
Proof.
  induction dates as [|d rest IH]; intros Hne Hvalid; [congruence |].
  destruct d as [|ms]; [destruct (Hvalid InvalidDate); [left |]; reflexivity |].
  destruct rest as [|d' rest'].
  - exists ms. simpl. repeat split; [tauto |].
    intros x [[= <-] | []]. lia.
  - destruct IH as (hi & Hmax & Hin & Hhi); [discriminate | intros; apply Hvalid; right; assumption |].
    change (Math_max_list (map getTime (DateTime ms :: d' :: rest')))
      with (Math_max (Fin (inject_Z ms)) (Math_max_list (map getTime (d' :: rest')))).
    rewrite Hmax. simpl Math_max. rewrite Qle_bool_inject_Z.
    destruct (Z.leb_spec ms hi).
    + exists hi. repeat split; [right; exact Hin |].
      intros x [[= <-] | Hx]; [lia | exact (Hhi x Hx)].
    + exists ms. repeat split; [left; reflexivity |].
      intros x [[= <-] | Hx]; [lia | specialize (Hhi x Hx); lia].
Qed.

(** C6, amended.  The window is computed from the tasks that have both
    dates: with [lo] the earliest and [hi] the latest of their dates, it is
    [lo - 7 days, hi + 7 days], and the width of a day is the larger of 20
    and the available width divided by the days of the window. *)
Theorem layout_window (innerWidth : number) (tasks : list GanttTask.t) :
  let valid := List.filter GanttChart.hasBothDates tasks in
  let dated (t : GanttTask.t) (d : Date) :=
    In t valid /\ (GanttTask.startDate t = Some d \/ GanttTask.endDate t = Some d) in
  valid <> [] ->
  (forall t d, dated t d -> d <> InvalidDate) ->
  exists lo hi : Z,
    (exists t, dated t (DateTime lo)) /\
    (exists t, dated t (DateTime hi)) /\
    (forall t x, dated t (DateTime x) -> (lo <= x <= hi)%Z) /\
    GanttChart.dateRange (GanttChart.layout innerWidth tasks) =
      Some (GanttChart.mkRange (DateTime (lo - 7 * Moment.day_ms))
                               (DateTime (hi + 7 * Moment.day_ms))) /\
    GanttChart.dayWidth (GanttChart.layout innerWidth tasks) =
      Math_max (Fin 20)
        (ndiv (Math_max (Fin 800) (nsub innerWidth (Fin 350)))
              (Moment.diff (DateTime (hi + 7 * Moment.day_ms))
                           (DateTime (lo - 7 * Moment.day_ms)))).
Proof.
  intros valid dated Hne Hvalid.
  set (dates := fold_left GanttChart.pushDates valid []).
  assert (Hdates : forall d, In d dates <-> exists t, dated t d).
  { intros d. unfold dates. rewrite pushDates_fold. unfold dated. simpl.
    split; [intros [[] | H]; exact H | intros H; right; exact H]. }
  assert (Hdne : dates <> []).
  { destruct valid as [|t rest] eqn:Ev; [congruence |].
    assert (Ht : In t (List.filter GanttChart.hasBothDates tasks)).
    { fold valid. rewrite Ev. left. reflexivity. }
    apply filter_In in Ht. destruct Ht as [_ Ht].
    unfold GanttChart.hasBothDates in Ht.
    destruct (GanttTask.startDate t) as [s|] eqn:Es; [| discriminate].
    intros E. assert (Hin : In s dates).
    { apply Hdates. exists t. split; [left; reflexivity | left; exact Es]. }
    rewrite E in Hin. destruct Hin. }
  assert (Hdv : forall d, In d dates -> d <> InvalidDate).
  { intros d Hd. apply Hdates in Hd. destruct Hd as [t Ht]. apply (Hvalid t d Ht). }
  destruct (Math_min_list_dates dates Hdne Hdv) as (lo & Hmin & Hlo_in & Hlo).
  destruct (Math_max_list_dates dates Hdne Hdv) as (hi & Hmax & Hhi_in & Hhi).
  exists lo, hi.
  split; [apply Hdates, Hlo_in |]. split; [apply Hdates, Hhi_in |].
  split.
  { intros t x Hx. assert (Hin : In (DateTime x) dates) by (apply Hdates; eauto).
    split; [apply Hlo | apply Hhi]; exact Hin. }
  unfold GanttChart.layout. fold valid.
  destruct valid as [|t rest] eqn:Ev; [congruence |].
  fold dates. rewrite Hmin, Hmax, !Date_of_number_getTime.
  cbn [GanttChart.dateRange GanttChart.dayWidth Moment.subtract Moment.add].
  change (Moment.absRound 7) with (Moment.absRound (inject_Z 7)).
  rewrite !absRound_inject_Z. split; reflexivity.
Qed.

(** The scenario of the specification: one task from 2024-03-01 to
    2024-03-03 gives the window 2024-02-23 to 2024-03-10, that is 16 days,
    and in a viewport 1550 wide a day is 75 wide. *)
Example single_task_window :
  GanttChart.dateRange (GanttChart.layout (Fin 1550) [Samples.alpha]) =
    Some (GanttChart.mkRange (Example.ymd 2024 2 23) (Example.ymd 2024 3 10)) /\
  Moment.diff (Example.ymd 2024 3 10) (Example.ymd 2024 2 23) = Fin 16 /\
  num_eq (GanttChart.dayWidth (GanttChart.layout (Fin 1550) [Samples.alpha])) (Fin 75).
Proof. vm_compute. repeat split. Qed.

(** C6, as stated, fails: a task with a start on 2024-01-01 and no end
    gives no date to the window, which stays 2024-02-23 to 2024-03-10
    instead of starting seven days before 2024-01-01. *)
Lemma half_dated_task_outside_window :
  GanttTask.startDate Samples.no_end = Some (Example.ymd 2024 1 1) /\
  GanttChart.dateRange (GanttChart.layout (Fin 1550) [Samples.alpha; Samples.no_end]) =
    Some (GanttChart.mkRange (Example.ymd 2024 2 23) (Example.ymd 2024 3 10)) /\
  Moment.subtract (Example.ymd 2024 1 1) (Fin 7) = Example.ymd 2023 12 25 /\
  Example.ymd 2024 2 23 <> Example.ymd 2023 12 25.
Proof. vm_compute. repeat split; discriminate. Qed.

Lemma layout_window_witness :
  exists lo hi : Z,
    (exists t, In t [Samples.alpha] /\
       (GanttTask.startDate t = Some (DateTime lo) \/
        GanttTask.endDate t = Some (DateTime lo))) /\
    (exists t, In t [Samples.alpha] /\
       (GanttTask.startDate t = Some (DateTime hi) \/
        GanttTask.endDate t = Some (DateTime hi))) /\
    (forall t x, In t [Samples.alpha] /\
       (GanttTask.startDate t = Some (DateTime x) \/
        GanttTask.endDate t = Some (DateTime x)) -> (lo <= x <= hi)%Z) /\
    GanttChart.dateRange (GanttChart.layout (Fin 1550) [Samples.alpha; Samples.no_end]) =
      Some (GanttChart.mkRange (DateTime (lo - 7 * Moment.day_ms))
                               (DateTime (hi + 7 * Moment.day_ms))) /\
    GanttChart.dayWidth (GanttChart.layout (Fin 1550) [Samples.alpha; Samples.no_end]) =
      Math_max (Fin 20)
        (ndiv (Math_max (Fin 800) (nsub (Fin 1550) (Fin 350)))
              (Moment.diff (DateTime (hi + 7 * Moment.day_ms))
                           (DateTime (lo - 7 * Moment.day_ms)))).
Proof.
  apply (layout_window (Fin 1550) [Samples.alpha; Samples.no_end]).
  - discriminate.
  - intros t d [[<- | []] [E | E]]; injection E as <-; discriminate.
Defined.

(** ** The bar *)

Lemma Math_max_finite (x y : Q) :
  exists w : Q, Math_max (Fin x) (Fin y) = Fin w /\ (w == Qmax x y)%Q.
Proof.
  simpl. destruct (Qle_bool x y) eqn:E; eexists; (split; [reflexivity |]).
  - apply Qle_bool_iff in E. symmetry. apply Q.max_r, E.
  - apply Qle_bool_false in E. symmetry. apply Q.max_l, Qlt_le_weak, E.
Qed.

(** The width of a bar on valid dates.  For two bars drawn at the same
    positive width of a day, of tasks with valid dates: the width of a bar is the larger of the day width
    times the duration and half the day width, where the duration is the
    whole days from start to end plus one; it is never below half the day
    width and does not decrease when the duration grows. *)
Theorem bar_width (props1 props2 : GanttBar.Props) (p : Q) (s1 e1 s2 e2 : Z) :
  GanttBar.dayWidth props1 = Fin p ->
  GanttBar.dayWidth props2 = Fin p ->
  (0 < p)%Q ->
  GanttTask.startDate (GanttBar.task props1) = Some (DateTime s1) ->
  GanttTask.endDate (GanttBar.task props1) = Some (DateTime e1) ->
  GanttTask.startDate (GanttBar.task props2) = Some (DateTime s2) ->
  GanttTask.endDate (GanttBar.task props2) = Some (DateTime e2) ->
  let d1 := (Z.quot (e1 - s1) Moment.day_ms + 1)%Z in
  let d2 := (Z.quot (e2 - s2) Moment.day_ms + 1)%Z in
  exists (g1 g2 : GanttBar.Geometry) (w1 w2 : Q),
    GanttBar.geometry props1 = Some g1 /\
    GanttBar.geometry props2 = Some g2 /\
    num_eq (GanttBar.duration g1) (Fin (inject_Z d1)) /\
    num_eq (GanttBar.duration g2) (Fin (inject_Z d2)) /\
    GanttBar.width g1 = Fin w1 /\
    GanttBar.width g2 = Fin w2 /\
    (w1 == Qmax (p * inject_Z d1) (p * (1 # 2)))%Q /\
    (w2 == Qmax (p * inject_Z d2) (p * (1 # 2)))%Q /\
    (p * (1 # 2) <= w1)%Q /\
    ((d1 <= d2)%Z -> (w1 <= w2)%Q).
Proof.
  intros W1 W2 Hp S1 E1 S2 E2 d1 d2.
  unfold GanttBar.geometry. rewrite W1, W2, S1, E1, S2, E2.
  cbn [Moment.diff nadd nmul].
  destruct (Math_max_finite (p * (inject_Z (Z.quot (e1 - s1) Moment.day_ms) + 1))
              (p * (1 # 2))) as (w1 & Hw1 & Q1).
  destruct (Math_max_finite (p * (inject_Z (Z.quot (e2 - s2) Moment.day_ms) + 1))
              (p * (1 # 2))) as (w2 & Hw2 & Q2).
  assert (D1 : (inject_Z (Z.quot (e1 - s1) Moment.day_ms) + 1 == inject_Z d1)%Q).
  { unfold d1. rewrite inject_Z_plus. reflexivity. }
  assert (D2 : (inject_Z (Z.quot (e2 - s2) Moment.day_ms) + 1 == inject_Z d2)%Q).
  { unfold d2. rewrite inject_Z_plus. reflexivity. }
  eexists _, _, w1, w2.
  split; [reflexivity |]. split; [reflexivity |].
  cbn [GanttBar.duration GanttBar.width num_eq].
  split; [exact D1 |]. split; [exact D2 |].
  split; [exact Hw1 |]. split; [exact Hw2 |].
  rewrite D1 in Q1. rewrite D2 in Q2.
  split; [exact Q1 |]. split; [exact Q2 |].
  split.
  - rewrite Q1. apply Q.le_max_r.
  - intros Hd. rewrite Q1, Q2. apply Q.max_le_compat_r.
    apply Qmult_le_l; [exact Hp |]. rewrite <- Zle_Qle. exact Hd.
Qed.

Lemma bar_width_witness :
  exists (g1 g2 : GanttBar.Geometry) (w1 w2 : Q),
    GanttBar.geometry Samples.bar_alpha = Some g1 /\
    GanttBar.geometry Samples.bar_beta = Some g2 /\
    num_eq (GanttBar.duration g1) (Fin 3) /\
    num_eq (GanttBar.duration g2) (Fin 5) /\
    GanttBar.width g1 = Fin w1 /\
    GanttBar.width g2 = Fin w2 /\
    (w1 == Qmax (75 * 3) (75 * (1 # 2)))%Q /\
    (w2 == Qmax (75 * 5) (75 * (1 # 2)))%Q /\
    (75 * (1 # 2) <= w1)%Q /\
    ((3 <= 5)%Z -> (w1 <= w2)%Q).
Proof.
  exact (bar_width Samples.bar_alpha Samples.bar_beta 75
           1709251200000 1709424000000 1709510400000 1709856000000
           eq_refl eq_refl eq_refl eq_refl eq_refl eq_refl eq_refl).
Defined.


(** ** Dragging *)

Lemma ndiv_finite (x w : Q) : (0 < w)%Q -> ndiv (Fin x) (Fin w) = Fin (x / w).
Proof.
  intros Hw. simpl. destruct (w ?= 0)%Q eqn:E; try reflexivity.
  apply Qeq_alt in E. rewrite E in Hw. discriminate Hw.
Qed.

(** C4.  A gesture started on a bar whose task runs from [s] to [e] with
    [s <= e], and a movement sample at [clientX]: with [deltaDays] the
    rounded quotient of the distance by the positive width of a day, [move]
    shifts both ends by [deltaDays] days, [resize-left] keeps the end and
    moves the start, at most up to the end, and [resize-right] keeps the
    start and moves the end, at most down to the start.  The range passed
    to [onUpdate] always has its start before or at its end. *)
Theorem handleMouseMove_range (props : GanttBar.Props) (type : GanttBar.DragType)
    (st0 : GanttBar.State) (x0 clientX w : Q) (s e : Z) :
  GanttTask.startDate (GanttBar.task props) = Some (DateTime s) ->
  GanttTask.endDate (GanttBar.task props) = Some (DateTime e) ->
  GanttBar.onUpdate props = true ->
  GanttBar.dayWidth props = Fin w ->
  (0 < w)%Q ->
  (s <= e)%Z ->
  let st := GanttBar.handleMouseDown props (Fin x0) type st0 in
  let deltaDays := Qfloor ((clientX - x0) / w + (1 # 2)) in
  exists s' e' : Z,
    GanttBar.handleMouseMove props type (Fin clientX) st =
      Some (GanttTask.id (GanttBar.task props), DateTime s', DateTime e') /\
    (s' <= e')%Z /\
    match type with
    | GanttBar.move =>
        s' = (s + deltaDays * Moment.day_ms)%Z /\ e' = (e + deltaDays * Moment.day_ms)%Z /\
        (e' - s' = e - s)%Z
    | GanttBar.resize_left =>
        e' = e /\ s' = Z.min (s + deltaDays * Moment.day_ms) e
    | GanttBar.resize_right =>
        s' = s /\ e' = Z.max (e + deltaDays * Moment.day_ms) s
    end.
Proof.
  intros Hs He Hup Hw Wpos Hle st deltaDays.
  unfold st, GanttBar.handleMouseDown, GanttBar.handleMouseMove.
  rewrite Hs, He. cbn [GanttBar.dragStartRef GanttBar.x GanttBar.anchorStart
                       GanttBar.anchorEnd].
  rewrite Hup, Hw. cbn [negb nsub]. rewrite ndiv_finite by exact Wpos.
  cbn [Math_round Moment.add]. rewrite absRound_inject_Z. fold deltaDays.
  destruct type; cbn [Moment.isAfter Moment.isBefore].
  - eexists _, _. split; [reflexivity |]. split; [lia |]. split; [| split]; lia.
  - destruct (Z.ltb_spec e (s + deltaDays * Moment.day_ms)).
    + eexists _, _. split; [reflexivity |]. split; [lia |]. split; lia.
    + eexists _, _. split; [reflexivity |]. split; [lia |]. split; lia.
  - destruct (Z.ltb_spec (e + deltaDays * Moment.day_ms) s).
    + eexists _, _. split; [reflexivity |]. split; [lia |]. split; lia.
    + eexists _, _. split; [reflexivity |]. split; [lia |]. split; lia.
Qed.

(** A [resize-left] of the bar of [alpha] (2024-03-01 to 2024-03-03) by
    450 pixels at 75 pixels a day: six days exceed the duration, and the
    new start is the end. *)
Lemma handleMouseMove_range_witness :
  exists s' e' : Z,
    GanttBar.handleMouseMove Samples.bar_alpha GanttBar.resize_left (Fin 550)
      (GanttBar.handleMouseDown Samples.bar_alpha (Fin 100) GanttBar.resize_left
         GanttBar.idle) =
      Some ("1", DateTime s', DateTime e') /\
    (s' <= e')%Z /\
    e' = 1709424000000%Z /\
    s' = Z.min (1709251200000 + Qfloor ((550 - 100) / 75 + (1 # 2)) * Moment.day_ms)
               1709424000000.
Proof.
  apply (handleMouseMove_range Samples.bar_alpha GanttBar.resize_left GanttBar.idle
           100 550 75 1709251200000 1709424000000); try reflexivity.
  discriminate.
Defined.

Example resize_left_clamps_to_end :
  GanttBar.handleMouseMove Samples.bar_alpha GanttBar.resize_left (Fin 550)
    (GanttBar.handleMouseDown Samples.bar_alpha (Fin 100) GanttBar.resize_left
       GanttBar.idle) =
  Some ("1", Example.ymd 2024 3 3, Example.ymd 2024 3 3).
Proof. vm_compute. reflexivity. Qed.

(** * Further properties of the task builder *)

Section Extraction.
Context `{Host}.

(** The column [extractTimelineData] reads: the one with the configured
    id, or else the first column of a timeline, date or creation-log
    type. *)
Definition selectedTimelineColumn (item : MondayItem.t) (timelineColumnId : option string)
    : option MondayColumnValue.t :=
  match nonempty timelineColumnId with
  | Some columnId => DataProcessor.find_by_id item columnId
  | None =>
      List.find (fun cv =>
        (String.eqb (MondayColumnValue.type cv) "timeline" ||
         String.eqb (MondayColumnValue.type cv) "date" ||
         String.eqb (MondayColumnValue.type cv) "creation_log")%bool)
        (MondayItem.column_values item)
  end.

(** X1.  An item none of whose columns is of type timeline gets the same
    start and end: a date column gives a one-day range, everything else
    no range at all. *)
Theorem extractTimelineData_without_timeline_column
    (item : MondayItem.t) (timelineColumnId : option string) :
  (forall cv, In cv (MondayItem.column_values item) ->
              MondayColumnValue.type cv <> "timeline") ->
  TimelineData.from (DataProcessor.extractTimelineData item timelineColumnId) =
  TimelineData.to (DataProcessor.extractTimelineData item timelineColumnId).
Proof.
  intros Hno. unfold DataProcessor.extractTimelineData.
  fold (selectedTimelineColumn item timelineColumnId).
  destruct (selectedTimelineColumn item timelineColumnId) as [column|] eqn:Esel;
    [| reflexivity].
  assert (Hin : In column (MondayItem.column_values item)).
  { unfold selectedTimelineColumn, DataProcessor.find_by_id in Esel.
    destruct (nonempty timelineColumnId); apply find_some in Esel; tauto. }
  destruct (nonempty (MondayColumnValue.value column)) as [value|]; [| reflexivity].
  destruct (String.eqb_spec (MondayColumnValue.type column) "timeline") as [E | _];
    [destruct (Hno column Hin E) |].
  destruct (String.eqb (MondayColumnValue.type column) "date"); [| reflexivity].
  destruct (JSON_parse value) as [v|]; [| reflexivity]. simpl.
  destruct (getProp v "date") as [d|]; [| reflexivity]. simpl.
  destruct (DataProcessor.date_or_null d) as [date|]; reflexivity.
Qed.

(** X2.  A timeline is extracted only from the selected column, and only
    when that column has a non-empty payload that is JSON and is of type
    timeline or date: a configured id the item lacks, or a first candidate
    that is empty or a creation log, gives no timeline whatever the other
    columns hold. *)
Theorem extractTimelineData_source (item : MondayItem.t) (timelineColumnId : option string) :
  DataProcessor.extractTimelineData item timelineColumnId <> DataProcessor.no_timeline ->
  exists column value decoded,
    selectedTimelineColumn item timelineColumnId = Some column /\
    nonempty (MondayColumnValue.value column) = Some value /\
    (MondayColumnValue.type column = "timeline" \/ MondayColumnValue.type column = "date") /\
    JSON_parse value = Some decoded.
Proof.
  unfold DataProcessor.extractTimelineData.
  fold (selectedTimelineColumn item timelineColumnId).
  destruct (selectedTimelineColumn item timelineColumnId) as [column|]; [| congruence].
  destruct (nonempty (MondayColumnValue.value column)) as [value|] eqn:Ev; [| congruence].
  destruct (String.eqb_spec (MondayColumnValue.type column) "timeline") as [Et | _].
  - destruct (JSON_parse value) as [v|] eqn:Ep; simpl; [| congruence].
    intros _. exists column, value, v. repeat split; auto.
  - destruct (String.eqb_spec (MondayColumnValue.type column) "date") as [Ed | _];
      [| congruence].
    destruct (JSON_parse value) as [v|] eqn:Ep; simpl; [| congruence].
    intros _. exists column, value, v. repeat split; auto.
Qed.

Lemma str_or_nonempty (s d : string) : d <> "" -> str_or s d <> "".
Proof.
  intros Hd. unfold str_or, truthy_str.
  destruct (String.eqb_spec s ""); simpl; assumption.
Qed.

Lemma extractGroup_nonempty (item : MondayItem.t) (groupByColumnId : option string)
    (mirrorData : option (gmap string MirrorDatum.t)) :
  DataProcessor.extractGroup item groupByColumnId mirrorData <> "".
Proof.
  unfold DataProcessor.extractGroup.
  assert (Hf : match MondayItem.group item with
               | Some g => str_or (MondayGroup.title g) "No Group"
               | None => "No Group"
               end <> "").
  { destruct (MondayItem.group item); [apply str_or_nonempty |]; discriminate. }
  destruct (nonempty groupByColumnId); [| exact Hf].
  destruct (mirrorData ≫= _); [apply str_or_nonempty; discriminate |].
  destruct (DataProcessor.find_by_id item _); [apply str_or_nonempty; discriminate | exact Hf].
Qed.

(** X3.  The group of a built task is never empty, so the chart files
    the task under exactly that group: its fallback label is not used for
    tasks that come from the task builder. *)
Theorem built_task_group (this : DataProcessor.t) (item : MondayItem.t)
    (board : MondayBoard.t) (settings : GanttSettings.t) (parentId : option string)
    (task : GanttTask.t) :
  DataProcessor.convertItemToGanttTask this item board settings parentId = Some task ->
  GanttChart.groupKey task <> "" /\
  GanttTask.group task = Some (GanttChart.groupKey task).
Proof.
  unfold DataProcessor.convertItemToGanttTask. intros Hc.
  set (g := DataProcessor.extractGroup item (GanttSettings.groupByColumn settings)
              (Some (DataProcessor.extractMirrorData this item (MondayBoard.id board)))) in *.
  assert (Hg : g <> "") by apply extractGroup_nonempty.
  assert (Ht : GanttTask.group task = Some g).
  { destruct (TimelineData.from _), (TimelineData.to _);
      try discriminate; injection Hc as <-; reflexivity. }
  unfold GanttChart.groupKey. rewrite Ht. simpl. unfold truthy_str.
  destruct (String.eqb_spec g ""); [contradiction |]. simpl. auto.
Qed.

Lemma color_member_truthy (colorData : option JSValue) :
  truthy (DataProcessor.color_member colorData) = true.
Proof.
  unfold DataProcessor.color_member.
  destruct colorData as [data|]; simpl; [| reflexivity].
  destruct (getProp data "color") as [c|]; simpl; [| reflexivity].
  unfold or_default. destruct (truthy c) eqn:E; [exact E | reflexivity].
Qed.

(** X4.  A colour read from a column or from mirror data is never falsy:
    the colour of a task is a truthy value, or it is the colour of the
    item's group and that colour is the empty string. *)
Theorem extractColor_truthy_or_group (item : MondayItem.t) (colorByColumnId : option string)
    (mirrorData : option (gmap string MirrorDatum.t)) :
  truthy (DataProcessor.extractColor item colorByColumnId mirrorData) = true \/
  exists g, MondayItem.group item = Some g /\ MondayGroup.color g = "" /\
            DataProcessor.extractColor item colorByColumnId mirrorData = VStr "".
Proof.
  unfold DataProcessor.extractColor.
  assert (Hf : truthy (match MondayItem.group item with
                       | Some g => VStr (MondayGroup.color g)
                       | None => DataProcessor.default_color
                       end) = true \/
               exists g, MondayItem.group item = Some g /\ MondayGroup.color g = "" /\
                 match MondayItem.group item with
                 | Some g => VStr (MondayGroup.color g)
                 | None => DataProcessor.default_color
                 end = VStr "").
  { destruct (MondayItem.group item) as [g|]; [| left; reflexivity].
    destruct (String.eqb_spec (MondayGroup.color g) "") as [E | N].
    - right. exists g. rewrite E. auto.
    - left. simpl. apply String.eqb_neq in N. rewrite N. reflexivity. }
  destruct (nonempty colorByColumnId); [| exact Hf].
  destruct (mirrorData ≫= _) as [mv|].
  { left. unfold DataProcessor.getColorFromValue.
    repeat (destruct (_ && _)%bool; [apply color_member_truthy |]). reflexivity. }
  destruct (DataProcessor.find_by_id item _) as [c|]; [| exact Hf].
  left. unfold DataProcessor.getColorFromColumnValue.
  destruct (nonempty _); [| reflexivity].
  repeat (destruct (String.eqb _ _); [apply color_member_truthy |]). reflexivity.
Qed.

Lemma addMirrorEntry_origin (item : MondayItem.t) (md : gmap string MirrorDatum.t)
    (mapping : MirrorColumnMapping.t) (k : string) (d : MirrorDatum.t) :
  DataProcessor.addMirrorEntry item md mapping !! k = Some d ->
  md !! k = Some d \/
  (MirrorColumnMapping.mirrorColumnId mapping = k /\
   MirrorDatum.sourceColumnTitle d = MirrorColumnMapping.sourceColumnTitle mapping /\
   MirrorDatum.sourceBoardName d = MirrorColumnMapping.sourceBoardName mapping /\
   exists cv value,
     DataProcessor.find_by_id item k = Some cv /\
     nonempty (MondayColumnValue.value cv) = Some value /\
     DataProcessor.stored_for cv value d).
Proof.
  unfold DataProcessor.addMirrorEntry.
  destruct (DataProcessor.find_by_id item (MirrorColumnMapping.mirrorColumnId mapping))
    as [cv|] eqn:Ecv; [| tauto].
  destruct (nonempty (MondayColumnValue.value cv)) as [value|] eqn:Ev; [| tauto].
  destruct (decide (MirrorColumnMapping.mirrorColumnId mapping = k)) as [E | Hne].
  - rewrite E, lookup_insert_eq. intros [= <-]. right.
    rewrite <- E. repeat split. exists cv, value. repeat split; assumption.
  - rewrite lookup_insert_ne by exact Hne. tauto.
Qed.

(** X5.  The mirror data hold nothing unmapped: every entry sits
    under the mirror column id of a mapping of the board, carries the
    source titles of such a mapping, and is made from a column of the item
    with that id and a non-empty payload.  A board without mappings gives
    no entry. *)
Theorem extractMirrorData_only_mapped (this : DataProcessor.t) (item : MondayItem.t)
    (boardId k : string) (d : MirrorDatum.t) :
  DataProcessor.extractMirrorData this item boardId !! k = Some d ->
  exists mappings mapping cv value,
    DataProcessor.mirrorMappings this !! boardId = Some mappings /\
    In mapping mappings /\
    MirrorColumnMapping.mirrorColumnId mapping = k /\
    MirrorDatum.sourceColumnTitle d = MirrorColumnMapping.sourceColumnTitle mapping /\
    MirrorDatum.sourceBoardName d = MirrorColumnMapping.sourceBoardName mapping /\
    DataProcessor.find_by_id item k = Some cv /\
    nonempty (MondayColumnValue.value cv) = Some value /\
    MirrorDatum.displayValue d = MondayColumnValue.text cv /\
    MirrorDatum.type d = MondayColumnValue.type cv.
Proof.
  unfold DataProcessor.extractMirrorData.
  destruct (DataProcessor.mirrorMappings this !! boardId) as [mappings|];
    simpl; [| rewrite lookup_empty; discriminate].
  intros Hd.
  cut (forall md : gmap string MirrorDatum.t,
        fold_left (DataProcessor.addMirrorEntry item) mappings md !! k = Some d ->
        md !! k = Some d \/
        exists mapping cv value,
          In mapping mappings /\
          MirrorColumnMapping.mirrorColumnId mapping = k /\
          MirrorDatum.sourceColumnTitle d = MirrorColumnMapping.sourceColumnTitle mapping /\
          MirrorDatum.sourceBoardName d = MirrorColumnMapping.sourceBoardName mapping /\
          DataProcessor.find_by_id item k = Some cv /\
          nonempty (MondayColumnValue.value cv) = Some value /\
          DataProcessor.stored_for cv value d).
  { intros C. destruct (C ∅ Hd) as [E | (m & cv & value & Hin & Hk & Ht & Hb & Hcv & Hv & Hs)].
    - rewrite lookup_empty in E. discriminate.
    - destruct Hs as (Hdisp & _ & Hty).
      exists mappings, m, cv, value. repeat split; assumption. }
  clear Hd. induction mappings as [|m rest IH]; intros md Hd; simpl in Hd; [tauto |].
  destruct (IH _ Hd) as [E | (m' & cv & value & Hin & Hrest)].
  - destruct (addMirrorEntry_origin _ _ _ _ _ E)
      as [E' | (Hk & Ht & Hb & cv & value & Hcv & Hv & Hs)]; [tauto |].
    right. exists m, cv, value.
    split; [left; reflexivity |]. repeat (split; [assumption |]). exact Hs.
  - right. exists m', cv, value. split; [right; exact Hin | exact Hrest].
Qed.

End Extraction.

(** Witnesses of X1 to X5 on the reference host. *)

Lemma extractTimelineData_without_timeline_column_witness :
  TimelineData.from (DataProcessor.extractTimelineData Samples.item_date None) =
  TimelineData.to (DataProcessor.extractTimelineData Samples.item_date None).
Proof.
  apply (extractTimelineData_without_timeline_column (H := Example.host)).
  intros cv [<- | []]. discriminate.
Defined.

Example item_date_one_day :
  DataProcessor.extractTimelineData Samples.item_date None =
  TimelineData.mk (Some (Example.ymd 2024 1 10)) (Some (Example.ymd 2024 1 10)).
Proof. vm_compute. reflexivity. Qed.

Lemma extractTimelineData_source_witness :
  exists column value decoded,
    selectedTimelineColumn Samples.item_A None = Some column /\
    nonempty (MondayColumnValue.value column) = Some value /\
    (MondayColumnValue.type column = "timeline" \/ MondayColumnValue.type column = "date") /\
    JSON_parse value = Some decoded.
Proof.
  apply (extractTimelineData_source (H := Example.host)).
  intros E. apply (f_equal TimelineData.from) in E. vm_compute in E. discriminate E.
Defined.

Lemma built_task_group_witness :
  exists task,
    DataProcessor.convertItemToGanttTask Samples.processor Samples.item_A Samples.board
      Samples.settings None = Some task /\
    GanttChart.groupKey task <> "" /\
    GanttTask.group task = Some (GanttChart.groupKey task).
Proof.
  eexists. split; [reflexivity |].
  apply (built_task_group (H := Example.host) Samples.processor Samples.item_A
           Samples.board Samples.settings None).
  reflexivity.
Defined.

Lemma extractMirrorData_only_mapped_witness :
  exists d mappings mapping cv value,
    DataProcessor.extractMirrorData Samples.processor Samples.mirror_item "b1"
      !! "mirror1" = Some d /\
    DataProcessor.mirrorMappings Samples.processor !! "b1" = Some mappings /\
    In mapping mappings /\
    MirrorColumnMapping.mirrorColumnId mapping = "mirror1" /\
    MirrorDatum.sourceColumnTitle d = MirrorColumnMapping.sourceColumnTitle mapping /\
    MirrorDatum.sourceBoardName d = MirrorColumnMapping.sourceBoardName mapping /\
    DataProcessor.find_by_id Samples.mirror_item "mirror1" = Some cv /\
    nonempty (MondayColumnValue.value cv) = Some value /\
    MirrorDatum.displayValue d = MondayColumnValue.text cv /\
    MirrorDatum.type d = MondayColumnValue.type cv.
Proof.
  eexists. 
  assert (E : DataProcessor.extractMirrorData Samples.processor Samples.mirror_item "b1"
                !! "mirror1" =
              Some (MirrorDatum.mk "Shown" (VStr "not json") "Person" "People" "mirror"))
    by (vm_compute; reflexivity).
  destruct (extractMirrorData_only_mapped (H := Example.host) _ _ _ _ _ E)
    as (mappings & mapping & cv & value & Hrest).
  exists mappings, mapping, cv, value. split; [exact E | exact Hrest].
Defined.

(** * The item loop and the comparator *)

Section Pipeline.
Context `{Host}.

Lemma convertItemToGanttTask_fields (this : DataProcessor.t) (item : MondayItem.t)
    (board : MondayBoard.t) (settings : GanttSettings.t) (parentId : option string)
    (task : GanttTask.t) :
  DataProcessor.convertItemToGanttTask this item board settings parentId = Some task ->
  GanttTask.id task = MondayItem.id item /\
  GanttTask.parentId task = parentId /\
  GanttTask.originalItem task = item /\
  GanttTask.boardId task = Some (MondayBoard.id board).
Proof.
  unfold DataProcessor.convertItemToGanttTask.
  destruct (TimelineData.from _), (TimelineData.to _);
    try discriminate; intros [= <-]; repeat split.
Qed.

(** The tasks of one item, as built: the task of the item, then the
    tasks of those subitems that have one. *)
Lemma tasksOfItem_cases (this : DataProcessor.t) (board : MondayBoard.t)
    (settings : GanttSettings.t) (item : MondayItem.t) :
  DataProcessor.tasksOfItem this board settings item = [] \/
  exists task subtasks,
    DataProcessor.tasksOfItem this board settings item = task :: subtasks /\
    DataProcessor.convertItemToGanttTask this item board settings None = Some task /\
    Forall (fun t =>
              exists subitems subitem,
                MondayItem.subitems item = Some subitems /\
                In subitem subitems /\
                DataProcessor.convertItemToGanttTask this subitem board settings
                  (Some (MondayItem.id item)) = Some t) subtasks /\
    (GanttSettings.showSubitems settings <> Some true -> subtasks = []).
Proof.
  unfold DataProcessor.tasksOfItem.
  destruct (DataProcessor.convertItemToGanttTask this item board settings None)
    as [task|] eqn:Ec; [right | left; reflexivity].
  eexists task, _. split; [reflexivity |]. split; [reflexivity |].
  destruct (GanttSettings.showSubitems settings) as [[|]|];
    try (split; [constructor | reflexivity]).
  destruct (MondayItem.subitems item) as [subitems|];
    [| split; [constructor | reflexivity]].
  split; [| intros C; congruence].
  apply List.Forall_forall. intros t Ht.
  apply list_elem_of_In, list_elem_of_omap in Ht. destruct Ht as (sub & Hsub & Hct).
  exists subitems, sub. split; [reflexivity |].
  split; [apply list_elem_of_In, Hsub |].
  destruct (convertItemToGanttTask_fields _ _ _ _ _ _ Ec) as (<- & _). exact Hct.
Qed.


(** The tasks before sorting. *)
Lemma collected_tasks (this : DataProcessor.t) (settings : GanttSettings.t) (t : GanttTask.t) :
  In t (flat_map (fun entry : string * list MondayItem.t =>
                    match List.find (fun b => String.eqb (MondayBoard.id b) (fst entry))
                            (DataProcessor.boards this) with
                    | None => []
                    | Some board =>
                        flat_map (DataProcessor.tasksOfItem this board settings) (snd entry)
                    end)
                 (DataProcessor.allItems this)) <->
  exists boardId items board item,
    In (boardId, items) (DataProcessor.allItems this) /\
    List.find (fun b => String.eqb (MondayBoard.id b) boardId) (DataProcessor.boards this)
      = Some board /\
    In item items /\
    In t (DataProcessor.tasksOfItem this board settings item).
Proof.
  rewrite in_flat_map. split.
  - intros ([boardId items] & Hentry & Ht). simpl in Ht.
    destruct (find _ _) as [board|] eqn:Eb; [| destruct Ht].
    apply in_flat_map in Ht. destruct Ht as (item & Hitem & Ht).
    exists boardId, items, board, item. auto.
  - intros (boardId & items & board & item & Hentry & Eb & Hitem & Ht).
    exists (boardId, items). split; [exact Hentry |]. simpl. rewrite Eb.
    apply in_flat_map. eauto.
Qed.

(** X7.  When the host's sort returns a permutation of its argument: every
    task of the result belongs to a registered board (the items of other
    boards are skipped), and a task with a parent id is accompanied by a
    task with that id, without parent, of the same board. *)
Theorem processItemsToGanttTasks_parents (this : DataProcessor.t) (settings : GanttSettings.t)
    (t : GanttTask.t) :
  (forall (compare : GanttTask.t -> GanttTask.t -> number) (l : list GanttTask.t),
     Permutation (Array_sort GanttTask.t compare l) l) ->
  In t (DataProcessor.processItemsToGanttTasks this settings) ->
  (exists board, In board (DataProcessor.boards this) /\
                 GanttTask.boardId t = Some (MondayBoard.id board)) /\
  (forall parentId, GanttTask.parentId t = Some parentId ->
     exists parent, In parent (DataProcessor.processItemsToGanttTasks this settings) /\
                    GanttTask.id parent = parentId /\
                    GanttTask.parentId parent = None /\
                    GanttTask.boardId parent = GanttTask.boardId t).
Proof.
  intros Hsort. unfold DataProcessor.processItemsToGanttTasks.
  set (tasks := flat_map _ _).
  assert (Hperm : Permutation (DataProcessor.applySettingsToTasks tasks settings) tasks).
  { unfold DataProcessor.applySettingsToTasks, DataProcessor.sortTasks.
    destruct (nonempty _); [| reflexivity].
    destruct (GanttSettings.sortDirection settings); [apply Hsort | reflexivity]. }
  intros Ht. apply (Permutation_in _ Hperm) in Ht.
  apply collected_tasks in Ht.
  destruct Ht as (boardId & items & board & item & Hentry & Eb & Hitem & Ht).
  destruct (tasksOfItem_cases this board settings item)
    as [E | (task & subtasks & E & Ec & Hsubs & _)];
    [rewrite E in Ht; destruct Ht |].
  assert (Htask : In task tasks).
  { apply collected_tasks. exists boardId, items, board, item.
    repeat split; try assumption. rewrite E. left. reflexivity. }
  destruct (convertItemToGanttTask_fields _ _ _ _ _ _ Ec) as (Hid & Hpar & Horig & Hboard).
  apply find_some in Eb. destruct Eb as [Hb _].
  rewrite E in Ht. destruct Ht as [<- | Ht].
  - split; [eauto |]. intros p Hp. congruence.
  - rewrite List.Forall_forall in Hsubs.
    destruct (Hsubs t Ht) as (subitems & sub & _ & _ & Hct).
    destruct (convertItemToGanttTask_fields _ _ _ _ _ _ Hct) as (_ & Hp & _ & Hbt).
    split; [exists board; split; [exact Hb | congruence] |].
    intros p Hp'. exists task. split.
    + apply (Permutation_in _ (Permutation_sym Hperm)), Htask.
    + repeat split; congruence.
Qed.

Lemma negative_sub_inject_Z (x y : Z) :
  negative (Fin (inject_Z x - inject_Z y)) = (x <? y)%Z.
Proof.
  unfold negative.
  destruct (Qle_bool 0 (inject_Z x - inject_Z y)) eqn:E; destruct (Z.ltb_spec x y);
    simpl; try reflexivity; exfalso.
  - apply Qle_bool_iff in E. assert (L : (inject_Z y <= inject_Z x)%Q) by lra.
    rewrite <- Zle_Qle in L. lia.
  - apply Qle_bool_false in E. assert (L : (inject_Z y <= inject_Z x)%Q).
    { rewrite <- Zle_Qle. lia. }
    lra.
Qed.

Lemma positive_sub_inject_Z (x y : Z) :
  positive (Fin (inject_Z x - inject_Z y)) = (y <? x)%Z.
Proof.
  unfold positive.
  destruct (Qle_bool (inject_Z x - inject_Z y) 0) eqn:E; destruct (Z.ltb_spec y x);
    simpl; try reflexivity; exfalso.
  - apply Qle_bool_iff in E. assert (L : (inject_Z x <= inject_Z y)%Q) by lra.
    rewrite <- Zle_Qle in L. lia.
  - apply Qle_bool_false in E. assert (L : (inject_Z x <= inject_Z y)%Q).
    { rewrite <- Zle_Qle. lia. }
    lra.
Qed.

(** X8.  Under a date key, two tasks whose dates are valid are ordered by
    time: ascending puts the earlier date first, descending the later
    one, and equal times tie. *)
Theorem sortTasks_compare_chronological (key : string) (a b : GanttTask.t) (x y : Z) :
  (key = "start_date" /\
   GanttTask.startDate a = Some (DateTime x) /\ GanttTask.startDate b = Some (DateTime y)) \/
  (key = "end_date" /\
   GanttTask.endDate a = Some (DateTime x) /\ GanttTask.endDate b = Some (DateTime y)) ->
  negative (DataProcessor.sortTasks_compare key asc a b) = (x <? y)%Z /\
  positive (DataProcessor.sortTasks_compare key asc a b) = (y <? x)%Z /\
  negative (DataProcessor.sortTasks_compare key desc a b) = (y <? x)%Z /\
  positive (DataProcessor.sortTasks_compare key desc a b) = (x <? y)%Z.
Proof.
  assert (N : forall u v : Z,
            negative (nsub (getTime (DateTime u)) (getTime (DateTime v))) = (u <? v)%Z)
    by (intros u v; apply negative_sub_inject_Z).
  assert (P : forall u v : Z,
            positive (nsub (getTime (DateTime u)) (getTime (DateTime v))) = (v <? u)%Z)
    by (intros u v; apply positive_sub_inject_Z).
  intros [(-> & Ea & Eb) | (-> & Ea & Eb)];
    unfold DataProcessor.sortTasks_compare, DataProcessor.sortValues;
    cbn -[nsub getTime negative positive]; rewrite Ea, Eb;
    cbn -[nsub getTime negative positive]; rewrite !N, !P; auto.
Qed.

(** X9.  Under a field key, when the field of the first task is of type
    numeric or rating and the payload of one of the two fields cannot be
    decoded, both values become 0: the pair ties under both directions,
    whatever the other payload is. *)
Theorem sortTasks_compare_undecodable_number (key : string) (direction : SortDirection)
    (a b : GanttTask.t) (column : MondayColumnValue.t) :
  key <> "name" -> key <> "start_date" -> key <> "end_date" ->
  DataProcessor.find_by_id (GanttTask.originalItem a) key = Some column ->
  MondayColumnValue.type column = "numeric" \/ MondayColumnValue.type column = "rating" ->
  DataProcessor.numeric_of (Some column) = None \/
  DataProcessor.numeric_of (DataProcessor.find_by_id (GanttTask.originalItem b) key) = None ->
  negative (DataProcessor.sortTasks_compare key direction a b) = false /\
  positive (DataProcessor.sortTasks_compare key direction a b) = false.
Proof.
  intros Nn Ns Ne Ha Hty Hfail.
  apply String.eqb_neq in Nn, Ns, Ne.
  unfold DataProcessor.sortTasks_compare, DataProcessor.sortValues.
  rewrite Nn, Ns, Ne, Ha. simpl.
  assert (Et : (String.eqb (MondayColumnValue.type column) "numeric"
                || String.eqb (MondayColumnValue.type column) "rating")%bool = true).
  { destruct Hty as [-> | ->]; reflexivity. }
  rewrite Et.
  assert (Ef : (x ← DataProcessor.numeric_of (Some column);
                y ← DataProcessor.numeric_of
                      (DataProcessor.find_by_id (GanttTask.originalItem b) key);
                Some (x, y)) = None).
  { destruct Hfail as [-> | ->]; [reflexivity |].
    destruct (DataProcessor.numeric_of (Some column)); reflexivity. }
  rewrite Ef. destruct direction; split; reflexivity.
Qed.

End Pipeline.

Lemma sort_insert_permutation {A : Type} (compare : A -> A -> number) (x : A) (l : list A) :
  Permutation (Example.sort_insert compare x l) (x :: l).
Proof.
  induction l as [|y rest IH]; simpl; [reflexivity |].
  destruct (positive (compare x y)); [| reflexivity].
  rewrite IH. apply perm_swap.
Qed.

Lemma sort_permutation {A : Type} (compare : A -> A -> number) (l : list A) :
  Permutation (Example.sort compare l) l.
Proof.
  induction l as [|x rest IH]; simpl; [reflexivity |].
  rewrite sort_insert_permutation, IH. reflexivity.
Qed.

(** The family on the reference host: sorted by name, descending; the
    subitem without dates and the items of the unregistered board give no
    task. *)
Example family_tasks :
  map (fun t => (GanttTask.id t, GanttTask.parentId t))
      (DataProcessor.processItemsToGanttTasks Samples.family_processor Samples.family_settings)
  = [("S1", Some "F"); ("F", None)].
Proof. vm_compute. reflexivity. Qed.

Lemma processItemsToGanttTasks_parents_witness :
  exists t,
    In t (DataProcessor.processItemsToGanttTasks Samples.family_processor
            Samples.family_settings) /\
    GanttTask.parentId t = Some "F" /\
    (exists board, In board (DataProcessor.boards Samples.family_processor) /\
                   GanttTask.boardId t = Some (MondayBoard.id board)) /\
    (forall parentId, GanttTask.parentId t = Some parentId ->
       exists parent,
         In parent (DataProcessor.processItemsToGanttTasks Samples.family_processor
                      Samples.family_settings) /\
         GanttTask.id parent = parentId /\
         GanttTask.parentId parent = None /\
         GanttTask.boardId parent = GanttTask.boardId t).
Proof.
  eexists. split; [left; reflexivity |]. split; [reflexivity |].
  apply (processItemsToGanttTasks_parents (H := Example.host)
           Samples.family_processor Samples.family_settings).
  - intros compare l. apply sort_permutation.
  - left. reflexivity.
Defined.

Lemma sortTasks_compare_chronological_witness :
  negative (DataProcessor.sortTasks_compare "start_date" asc Samples.alpha Samples.beta)
    = (1709251200000 <? 1709510400000)%Z /\
  positive (DataProcessor.sortTasks_compare "start_date" asc Samples.alpha Samples.beta)
    = (1709510400000 <? 1709251200000)%Z /\
  negative (DataProcessor.sortTasks_compare "start_date" desc Samples.alpha Samples.beta)
    = (1709510400000 <? 1709251200000)%Z /\
  positive (DataProcessor.sortTasks_compare "start_date" desc Samples.alpha Samples.beta)
    = (1709251200000 <? 1709510400000)%Z.
Proof.
  apply (sortTasks_compare_chronological (H := Example.host) "start_date"
           Samples.alpha Samples.beta).
  left. repeat split.
Defined.

Lemma sortTasks_compare_undecodable_number_witness :
  negative (DataProcessor.sortTasks_compare "effort" asc
              (Samples.with_number "7" "5") (Samples.with_number "8" "five")) = false /\
  positive (DataProcessor.sortTasks_compare "effort" asc
              (Samples.with_number "7" "5") (Samples.with_number "8" "five")) = false.
Proof.
  apply (sortTasks_compare_undecodable_number (H := Example.host) "effort" asc
           (Samples.with_number "7" "5") (Samples.with_number "8" "five")
           (Samples.column "effort" "Effort" "numeric" (Some "5") "5"));
    try discriminate; try reflexivity.
  - left. reflexivity.
  - right. reflexivity.
Defined.

(** * The column catalogue *)

Lemma listed_In (columns : list AvailableColumns.ColumnOption) (columnId : string) :
  AvailableColumns.listed columns columnId = true <->
  In columnId (map AvailableColumns.id columns).
Proof.
  unfold AvailableColumns.listed. rewrite existsb_exists, in_map_iff. split.
  - intros (c & Hc & E). apply String.eqb_eq in E. eauto.
  - intros (c & E & Hc). exists c. split; [exact Hc | apply String.eqb_eq, E].
Qed.

(** What a column of a board contributes to the catalogue. *)
Definition optionOf (board : MondayBoard.t) (column : MondayColumn.t)
    : AvailableColumns.ColumnOption :=
  AvailableColumns.mkOption (MondayColumn.id column)
    (MondayColumn.title column +:+ " (" +:+ MondayBoard.name board +:+ ")")
    (MondayColumn.type column).

Lemma addColumn_fold (board : MondayBoard.t) (columns : list MondayColumn.t) :
  forall acc : list AvailableColumns.ColumnOption,
  let result := fold_left (AvailableColumns.addColumn board) columns acc in
  (NoDup (map AvailableColumns.id acc) -> NoDup (map AvailableColumns.id result)) /\
  (forall c, In c acc -> In c result) /\
  (forall c, In c result ->
     In c acc \/
     exists column, In column columns /\ MondayColumn.archived column <> Some true /\
                    c = optionOf board column) /\
  (forall column, In column columns -> MondayColumn.archived column <> Some true ->
     In (MondayColumn.id column) (map AvailableColumns.id result)).
Proof.
  induction columns as [|x rest IH]; intros acc; simpl.
  - repeat split; auto. intros column [].
  - destruct (IH (AvailableColumns.addColumn board acc x)) as (Hnd & Hkeep & Horig & Hall).
    assert (Hstep_keep : forall c, In c acc -> In c (AvailableColumns.addColumn board acc x)).
    { intros c Hc. unfold AvailableColumns.addColumn.
      destruct (_ && _)%bool; [apply in_or_app; left |]; exact Hc. }
    repeat split.
    + intros Hacc. apply Hnd. unfold AvailableColumns.addColumn.
      destruct (negb (default false (MondayColumn.archived x))); simpl; [| exact Hacc].
      destruct (AvailableColumns.listed acc (MondayColumn.id x)) eqn:El; simpl;
        [exact Hacc |].
      rewrite List.map_app. simpl. apply NoDup_app. repeat split; [exact Hacc | | ].
      * intros k Hk Hk'. apply list_elem_of_In in Hk, Hk'. destruct Hk' as [<- | []].
        apply listed_In in Hk. congruence.
      * apply NoDup_singleton.
    + intros c Hc. apply Hkeep, Hstep_keep, Hc.
    + intros c Hc. destruct (Horig c Hc) as [Hin | (column & Hcol & Harch & E)].
      * unfold AvailableColumns.addColumn in Hin.
        destruct (MondayColumn.archived x) as [[|]|] eqn:Ea; simpl in Hin;
          try (left; exact Hin);
          (destruct (AvailableColumns.listed acc (MondayColumn.id x)); simpl in Hin;
           [left; exact Hin |]);
          (apply in_app_or in Hin; destruct Hin as [Hin | [<- | []]]; [left; exact Hin |]);
          right; exists x; (split; [left; reflexivity |]); (split; [congruence | reflexivity]).
      * right. exists column. split; [right; exact Hcol | auto].
    + intros column [<- | Hcol] Harch; [| apply Hall; assumption].
      assert (Hin : In (MondayColumn.id x)
                       (map AvailableColumns.id (AvailableColumns.addColumn board acc x))).
      { unfold AvailableColumns.addColumn.
        assert (Ea : default false (MondayColumn.archived x) = false).
        { destruct (MondayColumn.archived x) as [[|]|]; [congruence | |]; reflexivity. }
        rewrite Ea. simpl.
        destruct (AvailableColumns.listed acc (MondayColumn.id x)) eqn:El; simpl.
        - apply listed_In, El.
        - rewrite List.map_app. apply in_or_app. right. left. reflexivity. }
      apply in_map_iff in Hin. destruct Hin as (c & E & Hc).
      apply in_map_iff. exists c. split; [exact E | apply Hkeep, Hc].
Qed.

Lemma addBoard_fold (boards : list MondayBoard.t) :
  forall acc : list AvailableColumns.ColumnOption,
  let result := fold_left AvailableColumns.addBoard boards acc in
  (NoDup (map AvailableColumns.id acc) -> NoDup (map AvailableColumns.id result)) /\
  (forall c, In c acc -> In c result) /\
  (forall c, In c result ->
     In c acc \/
     exists board column,
       In board boards /\ In column (MondayBoard.columns board) /\
       MondayColumn.archived column <> Some true /\ c = optionOf board column) /\
  (forall board column,
     In board boards -> In column (MondayBoard.columns board) ->
     MondayColumn.archived column <> Some true ->
     In (MondayColumn.id column) (map AvailableColumns.id result)).
Proof.
  induction boards as [|b rest IH]; intros acc; simpl.
  - repeat split; auto. intros board column [].
  - destruct (addColumn_fold b (MondayBoard.columns b) acc) as (Hnd & Hkeep & Horig & Hall).
    destruct (IH (AvailableColumns.addBoard acc b)) as (Rnd & Rkeep & Rorig & Rall).
    unfold AvailableColumns.addBoard in Rnd, Rkeep, Rorig, Rall at 1.
    repeat split.
    + intros Hacc. apply Rnd, Hnd, Hacc.
    + intros c Hc. apply Rkeep, Hkeep, Hc.
    + intros c Hc. destruct (Rorig c Hc) as [Hin | (board & column & Hb & Hrest)].
      * destruct (Horig c Hin) as [Hin' | (column & Hcol & Harch & E)]; [left; exact Hin' |].
        right. exists b, column. repeat split; try assumption. left. reflexivity.
      * right. exists board, column. split; [right; exact Hb | exact Hrest].
    + intros board column [<- | Hb] Hcol Harch; [| apply (Rall board column); assumption].
      specialize (Hall column Hcol Harch).
      apply in_map_iff in Hall. destruct Hall as (c & E & Hc).
      apply in_map_iff. exists c. split; [exact E | apply Rkeep, Hc].
Qed.

(** X10.  The catalogue of columns never lists an id twice and never
    lists an archived column; besides the basic entries it holds, for each
    id of a column that is not archived, one entry, which comes from a
    board that has such a column: its type is the column's and its title
    is the column's followed by the name of the board in brackets. *)
Theorem getAvailableColumns_catalogue (this : DataProcessor.t) (includeBasicColumns : bool) :
  let result := AvailableColumns.getAvailableColumns this includeBasicColumns in
  NoDup (map AvailableColumns.id result) /\
  (forall c, In c result ->
     (includeBasicColumns = true /\ In c AvailableColumns.basicColumns) \/
     exists board column,
       In board (DataProcessor.boards this) /\
       In column (MondayBoard.columns board) /\
       MondayColumn.archived column <> Some true /\
       c = optionOf board column) /\
  (forall board column,
     In board (DataProcessor.boards this) ->
     In column (MondayBoard.columns board) ->
     MondayColumn.archived column <> Some true ->
     In (MondayColumn.id column) (map AvailableColumns.id result)).
Proof.
  unfold AvailableColumns.getAvailableColumns.
  destruct (addBoard_fold (DataProcessor.boards this)
              (if includeBasicColumns then AvailableColumns.basicColumns else []))
    as (Hnd & _ & Horig & Hall).
  split; [| split].
  - apply Hnd. destruct includeBasicColumns; simpl; [| constructor].
    repeat (apply NoDup_cons; split;
            [intros C; apply list_elem_of_In in C; simpl in C; intuition discriminate |]).
    constructor.
  - intros c Hc. destruct (Horig c Hc) as [Hin | Hrest]; [left | right; exact Hrest].
    destruct includeBasicColumns; [auto | destruct Hin].
  - exact Hall.
Qed.

(** * Further properties of the chart *)

(** The layout for tasks with valid dates, with the earliest and the
    latest date. *)
Lemma layout_of_valid_dates (innerWidth : number) (tasks : list GanttTask.t) :
  List.filter GanttChart.hasBothDates tasks <> [] ->
  (forall t d, In t (List.filter GanttChart.hasBothDates tasks) ->
     GanttTask.startDate t = Some d \/ GanttTask.endDate t = Some d -> d <> InvalidDate) ->
  exists lo hi : Z,
    (lo <= hi)%Z /\
    (forall t x, In t (List.filter GanttChart.hasBothDates tasks) ->
       GanttTask.startDate t = Some (DateTime x) \/ GanttTask.endDate t = Some (DateTime x) ->
       (lo <= x <= hi)%Z) /\
    GanttChart.layout innerWidth tasks =
      GanttChart.mkLayout (List.filter GanttChart.hasBothDates tasks)
        (Some (GanttChart.mkRange (DateTime (lo - 7 * Moment.day_ms))
                                  (DateTime (hi + 7 * Moment.day_ms))))
        (Math_max (Fin 20)
           (ndiv (Math_max (Fin 800) (nsub innerWidth (Fin 350)))
                 (Fin (inject_Z (Z.quot (hi + 7 * Moment.day_ms - (lo - 7 * Moment.day_ms))
                                        Moment.day_ms))))).
Proof.
  intros Hne Hvalid.
  set (valid := List.filter GanttChart.hasBothDates tasks) in *.
  set (dates := fold_left GanttChart.pushDates valid []).
  assert (Hdates : forall d, In d dates <->
            exists t, In t valid /\
              (GanttTask.startDate t = Some d \/ GanttTask.endDate t = Some d)).
  { intros d. unfold dates. rewrite pushDates_fold. simpl.
    split; [intros [[] | Hd]; exact Hd | intros Hd; right; exact Hd]. }
  assert (Hdne : dates <> []).
  { destruct valid as [|t rest] eqn:Ev; [congruence |].
    assert (Ht : In t (List.filter GanttChart.hasBothDates tasks)).
    { fold valid. rewrite Ev. left. reflexivity. }
    apply filter_In in Ht. destruct Ht as [_ Ht].
    unfold GanttChart.hasBothDates in Ht.
    destruct (GanttTask.startDate t) as [s|] eqn:Es; [| discriminate].
    intros E. assert (Hin : In s dates).
    { apply Hdates. exists t. split; [left; reflexivity | left; exact Es]. }
    rewrite E in Hin. destruct Hin. }
  assert (Hdv : forall d, In d dates -> d <> InvalidDate).
  { intros d Hd. apply Hdates in Hd. destruct Hd as (t & Ht & Hd). apply (Hvalid t d Ht Hd). }
  destruct (Math_min_list_dates dates Hdne Hdv) as (lo & Hmin & Hlo_in & Hlo).
  destruct (Math_max_list_dates dates Hdne Hdv) as (hi & Hmax & Hhi_in & Hhi).
  exists lo, hi. split; [apply Hlo, Hhi_in |]. split.
  { intros t x Ht Hx. assert (Hin : In (DateTime x) dates) by (apply Hdates; eauto).
    split; [apply Hlo | apply Hhi]; exact Hin. }
  unfold GanttChart.layout. fold valid.
  destruct valid as [|t rest] eqn:Ev; [congruence |].
  fold dates. rewrite Hmin, Hmax, !Date_of_number_getTime.
  cbn [Moment.subtract Moment.add Moment.diff].
  change (Moment.absRound 7) with (Moment.absRound (inject_Z 7)).
  rewrite !absRound_inject_Z. reflexivity.
Qed.

Lemma quot_padded (lo hi : Z) :
  (lo <= hi)%Z ->
  Z.quot (hi + 7 * Moment.day_ms - (lo - 7 * Moment.day_ms)) Moment.day_ms =
  ((hi - lo) / Moment.day_ms + 14)%Z.
Proof.
  intros Hle. unfold Moment.day_ms. rewrite Z.quot_div_nonneg by lia.
  replace (hi + 7 * 86400000 - (lo - 7 * 86400000))%Z
    with (hi - lo + 14 * 86400000)%Z by lia.
  apply Z.div_add. lia.
Qed.

Lemma padded_dayWidth (viewportWidth : Q) (lo hi : Z) :
  (lo <= hi)%Z ->
  exists p : Q,
    Math_max (Fin 20)
      (ndiv (Math_max (Fin 800) (nsub (Fin viewportWidth) (Fin 350)))
            (Fin (inject_Z (Z.quot (hi + 7 * Moment.day_ms - (lo - 7 * Moment.day_ms))
                                   Moment.day_ms)))) = Fin p /\
    (20 <= p)%Q.
Proof.
  intros Hle. rewrite quot_padded by exact Hle.
  assert (Hdq : (0 < inject_Z ((hi - lo) / Moment.day_ms + 14))%Q).
  { change 0%Q with (inject_Z 0). rewrite <- Zlt_Qlt.
    assert (0 <= (hi - lo) / Moment.day_ms)%Z; [| lia].
    apply Z.div_pos; unfold Moment.day_ms; lia. }
  cbn [nsub].
  destruct (Math_max_finite 800 (viewportWidth - 350)) as (a & -> & Ha).
  rewrite ndiv_finite by exact Hdq.
  destruct (Math_max_finite 20 (a / inject_Z ((hi - lo) / Moment.day_ms + 14)))
    as (p & Hp & Hpq).
  exists p. split; [exact Hp |]. rewrite Hpq. apply Q.le_max_l.
Qed.

(** X11.  For tasks with valid dates and a finite viewport width, the
    chart has a window, the window spans a whole number of days that is at
    least 14, and the width of a day is a finite number that is at least
    20. *)
Theorem layout_scale (viewportWidth : Q) (tasks : list GanttTask.t) :
  List.filter GanttChart.hasBothDates tasks <> [] ->
  (forall t d, In t (List.filter GanttChart.hasBothDates tasks) ->
     GanttTask.startDate t = Some d \/ GanttTask.endDate t = Some d -> d <> InvalidDate) ->
  exists (range : GanttChart.DateRange) (totalDays : Z) (dayWidth : Q),
    GanttChart.dateRange (GanttChart.layout (Fin viewportWidth) tasks) = Some range /\
    Moment.diff (GanttChart.end_ range) (GanttChart.start range) = Fin (inject_Z totalDays) /\
    GanttChart.dayWidth (GanttChart.layout (Fin viewportWidth) tasks) = Fin dayWidth /\
    (14 <= totalDays)%Z /\
    (20 <= dayWidth)%Q.
Proof.
  intros Hne Hvalid.
  destruct (layout_of_valid_dates (Fin viewportWidth) tasks Hne Hvalid)
    as (lo & hi & Hle & _ & Hlayout).
  destruct (padded_dayWidth viewportWidth lo hi Hle) as (p & Hp & Hp20).
  exists (GanttChart.mkRange (DateTime (lo - 7 * Moment.day_ms))
                             (DateTime (hi + 7 * Moment.day_ms))),
    ((hi - lo) / Moment.day_ms + 14)%Z, p.
  rewrite Hlayout. cbn [GanttChart.dateRange GanttChart.dayWidth].
  split; [reflexivity |]. split.
  { cbn [GanttChart.end_ GanttChart.start Moment.diff].
    rewrite quot_padded by exact Hle. reflexivity. }
  split; [exact Hp |]. split; [| exact Hp20].
  assert (0 <= (hi - lo) / Moment.day_ms)%Z; [| lia].
  apply Z.div_pos; unfold Moment.day_ms; lia.
Qed.

Lemma layout_scale_witness :
  exists (range : GanttChart.DateRange) (totalDays : Z) (dayWidth : Q),
    GanttChart.dateRange (GanttChart.layout (Fin 1550) [Samples.alpha; Samples.no_end])
      = Some range /\
    Moment.diff (GanttChart.end_ range) (GanttChart.start range) = Fin (inject_Z totalDays) /\
    GanttChart.dayWidth (GanttChart.layout (Fin 1550) [Samples.alpha; Samples.no_end])
      = Fin dayWidth /\
    (14 <= totalDays)%Z /\
    (20 <= dayWidth)%Q.
Proof.
  apply (layout_scale 1550 [Samples.alpha; Samples.no_end]).
  - discriminate.
  - intros t d [<- | []] [E | E]; injection E as <-; discriminate.
Defined.

(** X12.  When no task has both dates the chart has nothing to lay out:
    no valid task, no window, the default day width of 30 and no
    bucket. *)
Theorem chart_without_dated_tasks (innerWidth : number) (tasks : list GanttTask.t) :
  (forall t, In t tasks -> GanttTask.startDate t = None \/ GanttTask.endDate t = None) ->
  GanttChart.layout innerWidth tasks = GanttChart.mkLayout [] None (Fin 30) /\
  GanttChart.groupedTasks (GanttChart.validTasks (GanttChart.layout innerWidth tasks))
    = Some ∅.
Proof.
  intros Hnone.
  assert (E : List.filter GanttChart.hasBothDates tasks = []).
  { induction tasks as [|t rest IH]; simpl; [reflexivity |].
    assert (Ht : GanttChart.hasBothDates t = false).
    { unfold GanttChart.hasBothDates.
      destruct (Hnone t (or_introl eq_refl)) as [-> | ->];
        [| destruct (GanttTask.startDate t)]; reflexivity. }
    rewrite Ht. apply IH. intros t' Ht'. apply Hnone. right. exact Ht'. }
  unfold GanttChart.layout. rewrite E. split; reflexivity.
Qed.

Lemma chart_without_dated_tasks_witness :
  GanttChart.layout (Fin 1550) [Samples.no_start; Samples.no_end] =
    GanttChart.mkLayout [] None (Fin 30) /\
  GanttChart.groupedTasks
    (GanttChart.validTasks (GanttChart.layout (Fin 1550) [Samples.no_start; Samples.no_end]))
    = Some ∅.
Proof.
  apply (chart_without_dated_tasks (Fin 1550) [Samples.no_start; Samples.no_end]).
  intros t [<- | [<- | []]]; [left | right]; reflexivity.
Defined.

(** The root tasks of a list that belong to the group [g]. *)
Definition rootsOf (g : string) (tasks : list GanttTask.t) : list GanttTask.t :=
  List.filter (fun t => (negb (GanttChart.isSubtask t) &&
                         String.eqb (GanttChart.groupKey t) g)%bool) tasks.

(** The buckets after the first loop, when it does not throw: a key
    that [groups] inherits gets no bucket. *)
Lemma placeTask_fold_lookup (l : list GanttTask.t) (g : string) :
  forall (groups groups' : gmap string (list GanttTask.t))
         (orphans orphans' : list GanttTask.t),
  forEach GanttChart.placeTask l (groups, orphans) = Some (groups', orphans') ->
  groups' !! g =
  if inherited g then groups !! g
  else
    match groups !! g with
    | Some b => Some (b ++ rootsOf g l)
    | None =>
        if existsb (fun t => String.eqb (GanttChart.groupKey t) g) l
        then Some (rootsOf g l) else None
    end.
Proof.
  induction l as [|x rest IH]; intros groups groups' orphans orphans'; cbn [forEach].
  - intros [= <- <-]. unfold rootsOf. cbn [List.filter existsb].
    destruct (inherited g); [reflexivity |].
    destruct (groups !! g); [rewrite app_nil_r |]; reflexivity.
  - unfold GanttChart.placeTask, rootsOf. cbn [List.filter existsb]. fold (rootsOf g rest).
    destruct (inherited (GanttChart.groupKey x)) eqn:Einh;
      destruct (GanttChart.isSubtask x) eqn:Esub; try discriminate; intros Hfold;
      rewrite (IH _ _ _ _ Hfold);
      destruct (inherited g) eqn:Eg;
      destruct (String.eqb_spec (GanttChart.groupKey x) g) as [E | N];
      cbn [negb andb orb]; try reflexivity; try congruence;
      try (rewrite lookup_insert_ne by exact N; reflexivity);
      rewrite E, lookup_insert_eq; destruct (groups !! g); cbn [default from_option id];
      rewrite <- ?app_assoc; reflexivity.
Qed.

Lemma filter_splice {A : Type} (f : A -> bool) (k : nat) (x : A) (l : list A) :
  f x = false -> List.filter f (take k l ++ x :: drop k l) = List.filter f l.
Proof.
  intros Hx. rewrite List.filter_app. simpl. rewrite Hx, <- List.filter_app, take_drop.
  reflexivity.
Qed.

Lemma insertSubtask_fold_roots (f : GanttTask.t -> bool) (orphans : list GanttTask.t) :
  Forall (fun t => f t = false) orphans ->
  forall bucket : list GanttTask.t,
  List.filter f (fold_left (fun b s => GanttChart.insertSubtask s b) orphans bucket) =
  List.filter f bucket.
Proof.
  induction orphans as [|s rest IH]; intros Hall bucket; simpl; [reflexivity |].
  inversion Hall as [|? ? Hs Hrest]; subst. rewrite (IH Hrest).
  unfold GanttChart.insertSubtask.
  destruct (GanttChart.findIndex _ bucket); [apply filter_splice, Hs | reflexivity].
Qed.

Lemma filter_all {A : Type} (f : A -> bool) (l : list A) :
  (forall x, In x l -> f x = true) -> List.filter f l = l.
Proof.
  induction l as [|x rest IH]; intros Hall; simpl; [reflexivity |].
  rewrite (Hall x (or_introl eq_refl)), IH; [reflexivity |].
  intros y Hy. apply Hall. right. exact Hy.
Qed.

(** X13.  When no task without parent has a group label that names a
    member of [Object.prototype], the grouping returns, and a group has a
    bucket exactly when a task of the list carries its key and the key is
    no such name.  The tasks of the bucket that are no subtasks are the
    root tasks of the group, each once and in the order of the list: the
    splices of subtasks neither drop nor reorder them. *)
Theorem groupedTasks_roots (validTasks : list GanttTask.t) (g : string) :
  (forall t, In t validTasks -> GanttChart.isSubtask t = false ->
     inherited (GanttChart.groupKey t) = false) ->
  exists groups,
    GanttChart.groupedTasks validTasks = Some groups /\
    match groups !! g with
    | Some bucket =>
        inherited g = false /\
        (exists t, In t validTasks /\ GanttChart.groupKey t = g) /\
        List.filter (fun t => negb (GanttChart.isSubtask t)) bucket = rootsOf g validTasks
    | None =>
        forall t, In t validTasks -> GanttChart.groupKey t = g ->
                  inherited g = true /\ GanttChart.isSubtask t = true
    end.
Proof.
  intros Hown. unfold GanttChart.groupedTasks.
  destruct (forEach_placeTask_returns validTasks (∅, []) Hown) as ([groups0 orphans0] & Hfold).
  rewrite Hfold. eexists. split; [reflexivity |].
  pose proof (placeTask_fold_lookup validTasks g _ _ _ _ Hfold) as Hlook.
  destruct (placeTask_fold validTasks _ _ _ _ Hfold) as (-> & _).
  cbn [app]. rewrite placeSubtask_fold, Hlook, lookup_empty.
  destruct (inherited g) eqn:Eg; cbn [fmap option_fmap option_map].
  - intros t Ht E. split; [reflexivity |].
    destruct (GanttChart.isSubtask t) eqn:Esub; [reflexivity |].
    rewrite <- E, (Hown t Ht Esub) in Eg. discriminate Eg.
  - destruct (existsb _ validTasks) eqn:Ex; cbn [fmap option_fmap option_map].
    + split; [reflexivity |]. split.
      * apply existsb_exists in Ex. destruct Ex as (t & Ht & E).
        exists t. split; [exact Ht | apply String.eqb_eq, E].
      * rewrite insertSubtask_fold_roots.
        -- apply filter_all. intros t Ht. apply filter_In in Ht.
           destruct Ht as [_ Ht]. apply andb_prop in Ht. tauto.
        -- apply List.Forall_forall. intros t Ht. apply filter_In in Ht.
           destruct Ht as [_ ->]. reflexivity.
    + intros t Ht E. exfalso.
      assert (C : existsb (fun t => String.eqb (GanttChart.groupKey t) g) validTasks = true).
      { apply existsb_exists. exists t. split; [exact Ht | apply String.eqb_eq, E]. }
      congruence.
Qed.

Lemma groupedTasks_roots_witness :
  exists groups,
    GanttChart.groupedTasks [Samples.parent; Samples.child1; Samples.in_constructor_child]
      = Some groups /\
    match groups !! "constructor" with
    | Some bucket =>
        inherited "constructor" = false /\
        (exists t, In t [Samples.parent; Samples.child1; Samples.in_constructor_child] /\
                   GanttChart.groupKey t = "constructor") /\
        List.filter (fun t => negb (GanttChart.isSubtask t)) bucket =
        rootsOf "constructor" [Samples.parent; Samples.child1; Samples.in_constructor_child]
    | None =>
        forall t, In t [Samples.parent; Samples.child1; Samples.in_constructor_child] ->
                  GanttChart.groupKey t = "constructor" ->
                  inherited "constructor" = true /\ GanttChart.isSubtask t = true
    end.
Proof.
  apply (groupedTasks_roots [Samples.parent; Samples.child1; Samples.in_constructor_child]
           "constructor").
  intros t [<- | [<- | [<- | []]]] E; try reflexivity; discriminate E.
Defined.

(** X26.  The grouping throws exactly when a task without parent has a
    group label that names a member of [Object.prototype]. *)
Theorem groupedTasks_throws_iff (validTasks : list GanttTask.t) :
  GanttChart.groupedTasks validTasks = None <->
  exists t, In t validTasks /\ GanttChart.isSubtask t = false /\
            inherited (GanttChart.groupKey t) = true.
Proof.
  unfold GanttChart.groupedTasks. split.
  - intros Hnone.
    destruct (existsb (fun t => negb (GanttChart.isSubtask t) &&
                                inherited (GanttChart.groupKey t))%bool validTasks) eqn:Ex.
    + apply existsb_exists in Ex. destruct Ex as (t & Ht & E).
      apply andb_prop in E. destruct E as [E1 E2]. apply negb_true_iff in E1. eauto.
    + exfalso.
      assert (Hown : rootKeysOwn validTasks).
      { intros t Ht Hroot. destruct (inherited (GanttChart.groupKey t)) eqn:Einh;
          [| reflexivity].
        assert (C : existsb (fun t => negb (GanttChart.isSubtask t) &&
                                      inherited (GanttChart.groupKey t))%bool validTasks
                    = true).
        { apply existsb_exists. exists t. rewrite Hroot, Einh. auto. }
        congruence. }
      destruct (forEach_placeTask_returns validTasks (∅, []) Hown) as ([g0 o0] & Hfold).
      rewrite Hfold in Hnone. discriminate Hnone.
  - intros Hex. rewrite (forEach_placeTask_throws validTasks (∅, []) Hex). reflexivity.
Qed.

Lemma insertSubtask_fold_parent (orphans : list GanttTask.t) :
  forall bucket : list GanttTask.t,
  (forall y, In y bucket -> GanttChart.isSubtask y = true ->
     exists q, In q bucket /\ GanttChart.isParentOf y q = true) ->
  forall y,
  In y (fold_left (fun b s => GanttChart.insertSubtask s b) orphans bucket) ->
  GanttChart.isSubtask y = true ->
  exists q,
    In q (fold_left (fun b s => GanttChart.insertSubtask s b) orphans bucket) /\
    GanttChart.isParentOf y q = true.
Proof.
  induction orphans as [|s rest IH]; intros bucket Hb; simpl; [exact Hb |].
  apply IH. intros y Hy Hsub.
  destruct (insertSubtask_members _ _ _ Hy) as [-> | Hin].
  - unfold GanttChart.insertSubtask in Hy |- *.
    destruct (GanttChart.findIndex (GanttChart.isParentOf s) bucket) as [i|] eqn:Ei.
    + destruct (findIndex_Some _ _ _ Ei) as (q & Hq & Hp).
      exists q. split; [| exact Hp].
      apply splice_keeps, list_elem_of_In, list_elem_of_lookup. eauto.
    + apply (Hb s Hy Hsub).
  - destruct (Hb y Hin Hsub) as (q & Hq & Hp).
    exists q. split; [apply insertSubtask_keeps, Hq | exact Hp].
Qed.

(** X14.  A subtask is shown only beside its parent: every subtask in a
    bucket has, in the same bucket, a task of the list whose id is its
    [parentId].  Hence a subtask whose parent is not among the valid tasks
    is in no bucket. *)
Theorem groupedTasks_subtask_has_parent (validTasks : list GanttTask.t)
    (groups : gmap string (list GanttTask.t)) (g : string)
    (bucket : list GanttTask.t) (c : GanttTask.t) :
  GanttChart.groupedTasks validTasks = Some groups ->
  groups !! g = Some bucket ->
  In c bucket ->
  GanttChart.isSubtask c = true ->
  exists q, In q bucket /\ In q validTasks /\
            GanttTask.parentId c = Some (GanttTask.id q).
Proof.
  unfold GanttChart.groupedTasks.
  destruct (forEach GanttChart.placeTask validTasks (∅, [])) as [[groups0 orphans0]|] eqn:Hfold;
    [| discriminate].
  intros [= <-].
  destruct (placeTask_fold validTasks _ _ _ _ Hfold) as (-> & _ & _ & Hmem & _).
  cbn [app]. rewrite placeSubtask_fold.
  destruct (groups0 !! g) as [b0|] eqn:Eb0; [| discriminate].
  cbn [fmap option_fmap option_map]. intros [= <-] Hc Hsub.
  assert (Hb0 : forall t, In t b0 -> In t validTasks /\ GanttChart.isSubtask t = false).
  { intros t Ht. pose proof (placeTask_fold_lookup validTasks g _ _ _ _ Hfold) as Hlook.
    rewrite Eb0, lookup_empty in Hlook.
    destruct (inherited g); [discriminate |].
    destruct (existsb _ validTasks); [| discriminate].
    injection Hlook as ->. apply filter_In in Ht. destruct Ht as [Ht Hf].
    apply andb_prop in Hf. destruct Hf as [Hf _]. apply negb_true_iff in Hf. auto. }
  destruct (insertSubtask_fold_parent (List.filter GanttChart.isSubtask validTasks) b0)
    with (y := c) as (q & Hq & Hp); try assumption.
  - intros y Hy Hy'. destruct (Hb0 y Hy) as [_ Hf]. congruence.
  - exists q. split; [exact Hq |]. split.
    + destruct (insertSubtask_fold_members _ _ _ Hq) as [Ho | Hr].
      * apply filter_In in Ho. tauto.
      * apply (Hb0 q Hr).
    + unfold GanttChart.isParentOf in Hp.
      destruct (GanttTask.parentId c) as [pid|]; [| discriminate].
      apply String.eqb_eq in Hp. congruence.
Qed.

Lemma groupedTasks_subtask_has_parent_witness :
  exists q, In q [Samples.parent; Samples.child1] /\
            In q [Samples.parent; Samples.child1] /\
            GanttTask.parentId Samples.child1 = Some (GanttTask.id q).
Proof.
  apply (groupedTasks_subtask_has_parent [Samples.parent; Samples.child1]
           {[ "Plan" := [Samples.parent; Samples.child1] ]} "Plan"
           [Samples.parent; Samples.child1] Samples.child1).
  - vm_compute. reflexivity.
  - vm_compute. reflexivity.
  - right. left. reflexivity.
  - reflexivity.
Defined.

Lemma insertSubtask_fold_keeps (orphans : list GanttTask.t) (y : GanttTask.t) :
  forall bucket : list GanttTask.t,
  In y bucket -> In y (fold_left (fun b s => GanttChart.insertSubtask s b) orphans bucket).
Proof.
  induction orphans as [|s rest IH]; intros bucket Hy; simpl; [exact Hy |].
  apply IH, insertSubtask_keeps, Hy.
Qed.

(** A splice elsewhere than directly behind [q] keeps [c] directly behind
    [q]. *)
Lemma splice_keeps_adjacent {A : Type} (k : nat) (x q c : A) (l1 l2 : list A) :
  k <> S (length l1) ->
  exists l1' l2',
    take k (l1 ++ q :: c :: l2) ++ x :: drop k (l1 ++ q :: c :: l2) = l1' ++ q :: c :: l2'.
Proof.
  intros Hk. rewrite splice_app. case_decide as H1.
  { eexists _, l2. reflexivity. }
  destruct (k - length l1)%nat as [|[|k2]] eqn:Ek; [lia | lia |]. simpl.
  exists l1, (take k2 l2 ++ x :: drop k2 l2). reflexivity.
Qed.

Lemma insertSubtask_fold_adjacent (parentId : string) (c : GanttTask.t)
    (later : list GanttTask.t) :
  Forall (fun s => GanttTask.parentId s <> Some parentId) later ->
  forall bucket : list GanttTask.t,
  (exists q l1 l2, bucket = l1 ++ q :: c :: l2 /\ GanttTask.id q = parentId) ->
  exists q l1 l2,
    fold_left (fun b s => GanttChart.insertSubtask s b) later bucket = l1 ++ q :: c :: l2 /\
    GanttTask.id q = parentId.
Proof.
  induction later as [|s rest IH]; intros Hall bucket Hb; simpl; [exact Hb |].
  inversion Hall as [|? ? Hs Hrest]; subst. apply (IH Hrest).
  destruct Hb as (q & l1 & l2 & -> & Hq).
  unfold GanttChart.insertSubtask.
  destruct (GanttChart.findIndex _ _) as [i|] eqn:Ei; [| eauto].
  destruct (findIndex_Some _ _ _ Ei) as (q' & Hq' & Hp).
  destruct (splice_keeps_adjacent (S i) s q c l1 l2) as (l1' & l2' & E); [| eauto].
  intros Hi. injection Hi as ->.
  rewrite lookup_app_r, Nat.sub_diag in Hq' by lia. injection Hq' as <-.
  unfold GanttChart.isParentOf in Hp.
  destruct (GanttTask.parentId s) as [pid|]; [| discriminate].
  apply String.eqb_eq in Hp. congruence.
Qed.

(** X15.  In a list whose tasks without parent have group labels that
    are no names of members of [Object.prototype]: the last subtask of the
    list that names a root task of the list as its parent comes
    immediately after a task with that id, in the bucket of the root
    task's group. *)
Theorem groupedTasks_last_child_adjacent (before after : list GanttTask.t)
    (p c : GanttTask.t) :
  In p (before ++ c :: after) ->
  GanttChart.isSubtask p = false ->
  GanttTask.id p <> "" ->
  GanttTask.parentId c = Some (GanttTask.id p) ->
  (forall s, In s after -> GanttTask.parentId s <> Some (GanttTask.id p)) ->
  (forall t, In t (before ++ c :: after) -> GanttChart.isSubtask t = false ->
     inherited (GanttChart.groupKey t) = false) ->
  exists groups q l1 l2,
    GanttChart.groupedTasks (before ++ c :: after) = Some groups /\
    groups !! GanttChart.groupKey p = Some (l1 ++ q :: c :: l2) /\
    GanttTask.id q = GanttTask.id p.
Proof.
  intros Hp Rp Idp Pc Hlast Hown.
  assert (Hc : GanttChart.isSubtask c = true).
  { unfold GanttChart.isSubtask. rewrite Pc. simpl. unfold truthy_str.
    destruct (String.eqb_spec (GanttTask.id p) ""); [contradiction | reflexivity]. }
  unfold GanttChart.groupedTasks.
  destruct (forEach_placeTask_returns (before ++ c :: after) (∅, []) Hown)
    as ([groups0 orphans0] & Hfold).
  rewrite Hfold.
  destruct (placeTask_fold _ _ _ _ _ Hfold) as (-> & _ & Hroot & _).
  destruct (Hroot p Hp Rp) as (b0 & Hb0 & Hin).
  set (b1 := fold_left (fun b s => GanttChart.insertSubtask s b)
               (List.filter GanttChart.isSubtask before) b0).
  assert (Hin1 : In p b1) by (apply insertSubtask_fold_keeps, Hin).
  destruct (insertSubtask_fold_adjacent (GanttTask.id p) c
              (List.filter GanttChart.isSubtask after))
    with (bucket := GanttChart.insertSubtask c b1) as (q & l1 & l2 & E & Hq).
  - apply List.Forall_forall. intros s Hs. apply filter_In in Hs. apply Hlast, Hs.
  - unfold GanttChart.insertSubtask.
    destruct (findIndex_exists (GanttChart.isParentOf c) b1 p Hin1) as [i Hi].
    { unfold GanttChart.isParentOf. rewrite Pc. apply String.eqb_refl. }
    rewrite Hi. destruct (findIndex_Some _ _ _ Hi) as (q & Hq & Hpq).
    unfold GanttChart.isParentOf in Hpq. rewrite Pc in Hpq. apply String.eqb_eq in Hpq.
    exists q, (take i b1), (drop (S i) b1). split; [| exact Hpq].
    rewrite (take_S_r _ _ _ Hq), <- app_assoc. reflexivity.
  - eexists _, q, l1, l2. split; [reflexivity |]. split; [| exact Hq].
    cbn [app]. rewrite placeSubtask_fold, Hb0. cbn [fmap option_fmap option_map].
    rewrite List.filter_app. cbn [List.filter]. rewrite Hc, fold_left_app.
    cbn [fold_left]. fold b1. rewrite E. reflexivity.
Qed.

Lemma groupedTasks_last_child_adjacent_witness :
  exists groups q l1 l2,
    GanttChart.groupedTasks ([Samples.parent; Samples.child1] ++ Samples.child2 :: [])
      = Some groups /\
    groups !! GanttChart.groupKey Samples.parent = Some (l1 ++ q :: Samples.child2 :: l2) /\
    GanttTask.id q = GanttTask.id Samples.parent.
Proof.
  apply (groupedTasks_last_child_adjacent [Samples.parent; Samples.child1] []
           Samples.parent Samples.child2).
  - left. reflexivity.
  - reflexivity.
  - discriminate.
  - reflexivity.
  - intros s [].
  - intros t [<- | [<- | [<- | []]]] E; try reflexivity; discriminate E.
Defined.

(** * Further properties of the bar *)

Lemma div_add_le (a b d : Z) :
  (0 < d)%Z -> (0 <= a)%Z -> (0 <= b)%Z -> (a / d + b / d <= (a + b) / d)%Z.
Proof.
  intros Hd Ha Hb. apply Z.div_le_lower_bound; [exact Hd |].
  pose proof (Z.mul_div_le a d Hd). pose proof (Z.mul_div_le b d Hd). lia.
Qed.

(** X16.  In the chart of tasks with valid dates, the bar of a task that
    ends no earlier than it starts lies inside the window, counted in
    whole days: its left offset is the width of a day times a number of
    days that is at least 7, its duration is at least one day, and the two
    numbers of days together are at most the days of the window less 6. *)
Theorem bar_inside_window (viewportWidth : Q) (tasks : list GanttTask.t)
    (t : GanttTask.t) (s e : Z) (onUpdate : bool) :
  (forall t' d, In t' (List.filter GanttChart.hasBothDates tasks) ->
     GanttTask.startDate t' = Some d \/ GanttTask.endDate t' = Some d -> d <> InvalidDate) ->
  In t tasks ->
  GanttTask.startDate t = Some (DateTime s) ->
  GanttTask.endDate t = Some (DateTime e) ->
  (s <= e)%Z ->
  let chart := GanttChart.layout (Fin viewportWidth) tasks in
  exists (range : GanttChart.DateRange) (totalDays offsetDays durationDays : Z)
         (g : GanttBar.Geometry),
    GanttChart.dateRange chart = Some range /\
    Moment.diff (GanttChart.end_ range) (GanttChart.start range) = Fin (inject_Z totalDays) /\
    GanttBar.geometry
      (GanttBar.mkProps t (GanttChart.start range) (GanttChart.dayWidth chart) onUpdate)
      = Some g /\
    Moment.diff (DateTime s) (GanttChart.start range) = Fin (inject_Z offsetDays) /\
    GanttBar.leftOffset g = nmul (Fin (inject_Z offsetDays)) (GanttChart.dayWidth chart) /\
    num_eq (GanttBar.duration g) (Fin (inject_Z durationDays)) /\
    (7 <= offsetDays)%Z /\
    (1 <= durationDays)%Z /\
    (offsetDays + durationDays <= totalDays - 6)%Z.
Proof.
  intros Hvalid Ht Hs He Hse chart.
  assert (Htv : In t (List.filter GanttChart.hasBothDates tasks)).
  { apply filter_In. split; [exact Ht |]. unfold GanttChart.hasBothDates.
    rewrite Hs, He. reflexivity. }
  assert (Hne : List.filter GanttChart.hasBothDates tasks <> []).
  { intros E. rewrite E in Htv. destruct Htv. }
  destruct (layout_of_valid_dates (Fin viewportWidth) tasks Hne Hvalid)
    as (lo & hi & Hle & Hbounds & Hlayout).
  destruct (Hbounds t s Htv (or_introl Hs)) as [Hlo_s _].
  destruct (Hbounds t e Htv (or_intror He)) as [_ He_hi].
  set (q1 := Z.quot (s - (lo - 7 * Moment.day_ms)) Moment.day_ms).
  set (q2 := Z.quot (e - s) Moment.day_ms).
  assert (Eq1 : q1 = ((s - lo) / Moment.day_ms + 7)%Z).
  { unfold q1, Moment.day_ms. rewrite Z.quot_div_nonneg by lia.
    replace (s - (lo - 7 * 86400000))%Z with (s - lo + 7 * 86400000)%Z by lia.
    apply Z.div_add. lia. }
  assert (Eq2 : q2 = ((e - s) / Moment.day_ms)%Z).
  { unfold q2, Moment.day_ms. apply Z.quot_div_nonneg; lia. }
  assert (H1 : (0 <= (s - lo) / Moment.day_ms)%Z)
    by (apply Z.div_pos; unfold Moment.day_ms; lia).
  assert (H2 : (0 <= q2)%Z)
    by (rewrite Eq2; apply Z.div_pos; unfold Moment.day_ms; lia).
  assert (H3 : (q1 + (q2 + 1) <= (hi - lo) / Moment.day_ms + 14 - 6)%Z).
  { rewrite Eq1, Eq2.
    pose proof (div_add_le (s - lo) (e - s) Moment.day_ms) as Hadd.
    assert (Hmono : ((s - lo + (e - s)) / Moment.day_ms <= (hi - lo) / Moment.day_ms)%Z)
      by (apply Z.div_le_mono; unfold Moment.day_ms; lia).
    unfold Moment.day_ms in *. lia. }
  exists (GanttChart.mkRange (DateTime (lo - 7 * Moment.day_ms))
                             (DateTime (hi + 7 * Moment.day_ms))),
    ((hi - lo) / Moment.day_ms + 14)%Z, q1, (q2 + 1)%Z.
  eexists. unfold chart. rewrite Hlayout.
  cbn [GanttChart.dateRange GanttChart.dayWidth GanttChart.end_ GanttChart.start].
  split; [reflexivity |].
  split; [cbn [Moment.diff]; rewrite quot_padded by exact Hle; reflexivity |].
  split.
  { unfold GanttBar.geometry.
    cbn [GanttBar.task GanttBar.startDate GanttBar.dayWidth]. rewrite Hs, He. reflexivity. }
  cbn [GanttBar.leftOffset GanttBar.duration Moment.diff nadd num_eq].
  split; [reflexivity |]. split; [reflexivity |].
  split; [fold q2; rewrite inject_Z_plus; reflexivity |].
  split; [lia |]. split; [lia | exact H3].
Qed.

Lemma bar_inside_window_witness :
  let chart := GanttChart.layout (Fin 1550) [Samples.alpha; Samples.beta] in
  exists (range : GanttChart.DateRange) (totalDays offsetDays durationDays : Z)
         (g : GanttBar.Geometry),
    GanttChart.dateRange chart = Some range /\
    Moment.diff (GanttChart.end_ range) (GanttChart.start range) = Fin (inject_Z totalDays) /\
    GanttBar.geometry
      (GanttBar.mkProps Samples.beta (GanttChart.start range) (GanttChart.dayWidth chart) true)
      = Some g /\
    Moment.diff (DateTime 1709510400000) (GanttChart.start range)
      = Fin (inject_Z offsetDays) /\
    GanttBar.leftOffset g = nmul (Fin (inject_Z offsetDays)) (GanttChart.dayWidth chart) /\
    num_eq (GanttBar.duration g) (Fin (inject_Z durationDays)) /\
    (7 <= offsetDays)%Z /\
    (1 <= durationDays)%Z /\
    (offsetDays + durationDays <= totalDays - 6)%Z.
Proof.
  apply (bar_inside_window 1550 [Samples.alpha; Samples.beta] Samples.beta
           1709510400000 1709856000000 true).
  - intros t d [<- | [<- | []]] [E | E]; injection E as <-; discriminate.
  - right. left. reflexivity.
  - reflexivity.
  - reflexivity.
  - discriminate.
Defined.

Lemma Qfloor_zero (x : Q) : (0 <= x)%Q -> (x < 1)%Q -> Qfloor x = 0%Z.
Proof.
  intros H0 H1.
  pose proof (Qfloor_le x) as Hl. pose proof (Qlt_floor x) as Hu.
  assert (A : (inject_Z (Qfloor x) < inject_Z 1)%Q) by (change (inject_Z 1) with 1%Q; lra).
  assert (B : (inject_Z 0 < inject_Z (Qfloor x + 1))%Q) by (change (inject_Z 0) with 0%Q; lra).
  rewrite <- Zlt_Qlt in A, B. lia.
Qed.

(** X17.  On a bar whose task has valid dates with the start no later
    than the end, drawn at a positive finite width of a day and with an
    update callback: while the pointer is less than half that width away
    from where the gesture began, every kind of gesture reports the dates
    of the task unchanged. *)
Theorem handleMouseMove_within_half_day (props : GanttBar.Props) (type : GanttBar.DragType)
    (st0 : GanttBar.State) (x0 clientX w : Q) (s e : Z) :
  GanttTask.startDate (GanttBar.task props) = Some (DateTime s) ->
  GanttTask.endDate (GanttBar.task props) = Some (DateTime e) ->
  GanttBar.onUpdate props = true ->
  GanttBar.dayWidth props = Fin w ->
  (0 < w)%Q ->
  (s <= e)%Z ->
  (- (w / 2) <= clientX - x0)%Q ->
  (clientX - x0 < w / 2)%Q ->
  GanttBar.handleMouseMove props type (Fin clientX)
    (GanttBar.handleMouseDown props (Fin x0) type st0) =
  Some (GanttTask.id (GanttBar.task props), DateTime s, DateTime e).
Proof.
  intros Hs He Hup Hw Wpos Hle Hlow Hhigh.
  assert (Hdelta : Qfloor ((clientX - x0) / w + (1 # 2)) = 0%Z).
  { assert (Hw0 : ~ (w == 0)%Q) by (intros E; rewrite E in Wpos; discriminate Wpos).
    unfold Qdiv in Hlow, Hhigh. change (/ 2)%Q with (1 # 2)%Q in Hlow, Hhigh.
    assert (L : (- (1 # 2) <= (clientX - x0) / w)%Q).
    { apply Qle_shift_div_l; [exact Wpos |]. lra. }
    assert (U : ((clientX - x0) / w < 1 # 2)%Q).
    { apply Qlt_shift_div_r; [exact Wpos |]. lra. }
    apply Qfloor_zero; lra. }
  unfold GanttBar.handleMouseDown, GanttBar.handleMouseMove.
  rewrite Hs, He. cbn [GanttBar.dragStartRef GanttBar.x GanttBar.anchorStart
                       GanttBar.anchorEnd].
  rewrite Hup, Hw. cbn [negb nsub]. rewrite ndiv_finite by exact Wpos.
  cbn [Math_round Moment.add]. rewrite absRound_inject_Z, Hdelta.
  rewrite !Z.mul_0_l, !Z.add_0_r.
  destruct type; cbn [Moment.isAfter Moment.isBefore]; [reflexivity | |].
  - destruct (Z.ltb_spec e s); [lia | reflexivity].
  - destruct (Z.ltb_spec e s); [lia | reflexivity].
Qed.

Lemma handleMouseMove_within_half_day_witness :
  GanttBar.handleMouseMove Samples.bar_alpha GanttBar.resize_right (Fin 130)
    (GanttBar.handleMouseDown Samples.bar_alpha (Fin 100) GanttBar.resize_right
       GanttBar.idle) =
  Some (GanttTask.id (GanttBar.task Samples.bar_alpha),
        DateTime 1709251200000, DateTime 1709424000000).
Proof.
  apply (handleMouseMove_within_half_day Samples.bar_alpha GanttBar.resize_right
           GanttBar.idle 100 130 75 1709251200000 1709424000000); try reflexivity;
    discriminate.
Defined.

(** The order of the two dates matters: on a task that ends before it
    starts, a left resize without movement reports the end as the start. *)
Example resize_left_on_inverted_range :
  GanttBar.handleMouseMove Samples.bar_inverted GanttBar.resize_left (Fin 100)
    (GanttBar.handleMouseDown Samples.bar_inverted (Fin 100) GanttBar.resize_left
       GanttBar.idle) =
  Some ("7", Example.ymd 2024 3 1, Example.ymd 2024 3 1).
Proof. vm_compute. reflexivity. Qed.

(** * The header *)

Section Header.
Context `{GanttHeader.Calendar}.

(** The element pushed to [days] for the date [d]. *)
Definition dayCell (d : Date) : GanttHeader.Day :=
  GanttHeader.mkDay d (GanttHeader.date_of d) (GanttHeader.format_MMM d)
    ((GanttHeader.day_of d =? 0)%Z || (GanttHeader.day_of d =? 6)%Z)%bool
    (GanttHeader.format_YYYY_MM d).

(** The elements of [n] consecutive days, the first at the time [s]. *)
Definition daysFrom (s : Z) (n : nat) : list GanttHeader.Day :=
  map (fun i => dayCell (DateTime (s + Z.of_nat i * Moment.day_ms))) (seq 0 n).

(** The counts of [months] after the days [days]. *)
Definition countDays (months : list (string * Z)) (days : list GanttHeader.Day)
    : list (string * Z) :=
  fold_left (fun m d => GanttHeader.countDay (GanttHeader.monthKey d) m) days months.

(** The number of day cells of a header from [s] to [e]. *)
Definition span (s e : Z) : nat :=
  Z.to_nat (GanttHeader.dayIndex e - GanttHeader.dayIndex s + 1).

Lemma daysFrom_S (s : Z) (n : nat) :
  daysFrom s (S n) = dayCell (DateTime s) :: daysFrom (s + Moment.day_ms) n.
Proof.
  unfold daysFrom. cbn [seq map].
  replace (s + Z.of_nat 0 * Moment.day_ms)%Z with s by lia. f_equal.
  rewrite <- seq_shift, List.map_map. apply map_ext. intros i.
  replace (s + Z.of_nat (S i) * Moment.day_ms)%Z
    with (s + Moment.day_ms + Z.of_nat i * Moment.day_ms)%Z by lia.
  reflexivity.
Qed.

Lemma dayIndex_next (ms : Z) :
  GanttHeader.dayIndex (ms + Moment.day_ms) = (GanttHeader.dayIndex ms + 1)%Z.
Proof.
  unfold GanttHeader.dayIndex, Moment.day_ms.
  replace (ms + 86400000 + GanttHeader.utcOffset)%Z
    with (ms + GanttHeader.utcOffset + 1 * 86400000)%Z by lia.
  apply Z.div_add. lia.
Qed.

Lemma isSameOrBefore_day_spec (x y : Z) :
  GanttHeader.isSameOrBefore_day (DateTime x) (DateTime y) =
  (GanttHeader.dayIndex x <=? GanttHeader.dayIndex y)%Z.
Proof.
  unfold GanttHeader.isSameOrBefore_day, GanttHeader.startOfDay.
  set (i := GanttHeader.dayIndex x).
  unfold GanttHeader.dayIndex. unfold Moment.day_ms.
  destruct (Z.leb_spec i ((y + GanttHeader.utcOffset) / 86400000)) as [L | L].
  - apply Z.leb_le.
    pose proof (Z.mul_div_le (y + GanttHeader.utcOffset) 86400000 ltac:(lia)). nia.
  - apply Z.leb_gt.
    pose proof (Z.mul_succ_div_gt (y + GanttHeader.utcOffset) 86400000 ltac:(lia)). nia.
Qed.

Lemma add_one_day (ms : Z) :
  Moment.add (DateTime ms) (Fin 1) = DateTime (ms + Moment.day_ms).
Proof.
  cbn [Moment.add]. change (Fin 1) with (Fin (inject_Z 1)).
  change (Moment.absRound 1) with (Moment.absRound (inject_Z 1)).
  rewrite absRound_inject_Z, Z.mul_1_l. reflexivity.
Qed.

Lemma fill_run (n : nat) :
  forall (fuel : nat) (s e : Z) (months : list (string * Z)) (days : list GanttHeader.Day),
    (GanttHeader.dayIndex e - GanttHeader.dayIndex s + 1 = Z.of_nat n)%Z ->
    (n <= fuel)%nat ->
    GanttHeader.fill fuel (DateTime s) (DateTime e) months days =
    Some (countDays months (daysFrom s n), days ++ daysFrom s n).
Proof.
  induction n as [|n IH]; intros fuel s e months days Hn Hfuel.
  - assert (C : GanttHeader.isSameOrBefore_day (DateTime s) (DateTime e) = false).
    { rewrite isSameOrBefore_day_spec. apply Z.leb_gt. lia. }
    destruct fuel; cbn [GanttHeader.fill]; rewrite C;
      unfold daysFrom, countDays; cbn [seq map fold_left];
      rewrite app_nil_r; reflexivity.
  - assert (C : GanttHeader.isSameOrBefore_day (DateTime s) (DateTime e) = true).
    { rewrite isSameOrBefore_day_spec. apply Z.leb_le. lia. }
    destruct fuel as [|fuel]; [lia |].
    cbn [GanttHeader.fill]. rewrite C, add_one_day.
    rewrite (IH fuel (s + Moment.day_ms)%Z e); [| rewrite dayIndex_next; lia | lia].
    rewrite daysFrom_S. unfold countDays. cbn [fold_left].
    rewrite <- app_assoc. reflexivity.
Qed.

(** X18.  Given enough rounds, the loop of the header ends, and [days]
    holds one element for each local day from the day of the start date
    through the day of the end date, in order, one day apart. *)
Theorem fill_days (fuel : nat) (s e : Z) :
  (GanttHeader.dayIndex s <= GanttHeader.dayIndex e)%Z ->
  (span s e <= fuel)%nat ->
  exists months : list (string * Z),
    GanttHeader.fill fuel (DateTime s) (DateTime e) [] [] =
    Some (months,
          map (fun i => dayCell (DateTime (s + Z.of_nat i * Moment.day_ms)))
              (seq 0 (span s e))) /\
    (0 < span s e)%nat.
Proof.
  intros Hse Hfuel.
  exists (countDays [] (daysFrom s (span s e))). split.
  - rewrite (fill_run (span s e) fuel s e [] []); [reflexivity | | exact Hfuel].
    unfold span. lia.
  - unfold span. lia.
Qed.

(** The count of [monthKey] in [months], 0 when it has no entry. *)
Definition countOf (months : list (string * Z)) (monthKey : string) : Z :=
  match find (fun entry => String.eqb (fst entry) monthKey) months with
  | Some entry => snd entry
  | None => 0%Z
  end.

Definition daysOfMonth (days : list GanttHeader.Day) (monthKey : string) : list GanttHeader.Day :=
  List.filter (fun d => String.eqb (GanttHeader.monthKey d) monthKey) days.

Lemma countDay_key_origin (k x : string) (months : list (string * Z)) :
  In x (map fst (GanttHeader.countDay k months)) -> x = k \/ In x (map fst months).
Proof.
  induction months as [|[k' n] rest IH]; cbn [GanttHeader.countDay].
  - cbn. intros [<- | []]. left. reflexivity.
  - destruct (String.eqb_spec k' k) as [-> | Hk]; cbn [map fst In].
    + intros [<- | Hx]; [left; reflexivity | right; right; exact Hx].
    + intros [<- | Hx]; [right; left; reflexivity |].
      destruct (IH Hx) as [-> | Hin]; [left; reflexivity | right; right; exact Hin].
Qed.

Lemma countDay_keys (k : string) (months : list (string * Z)) :
  List.NoDup (map fst months) -> List.NoDup (map fst (GanttHeader.countDay k months)).
Proof.
  induction months as [|[k' n] rest IH]; cbn [GanttHeader.countDay]; intros Hnd.
  - cbn. constructor; [intros [] | constructor].
  - destruct (String.eqb_spec k' k) as [-> | Hk]; cbn [map fst] in Hnd |- *.
    + exact Hnd.
    + inversion Hnd as [|? ? Hnot Hrest]; subst. constructor; [| apply IH, Hrest].
      intros Hin. destruct (countDay_key_origin _ _ _ Hin) as [E | Hin'];
        [congruence | contradiction].
Qed.

Lemma countDay_countOf (k x : string) (months : list (string * Z)) :
  countOf (GanttHeader.countDay k months) x =
  (countOf months x + (if String.eqb k x then 1 else 0))%Z.
Proof.
  unfold countOf.
  induction months as [|[k' n] rest IH]; cbn [GanttHeader.countDay find fst snd].
  - destruct (String.eqb k x); reflexivity.
  - destruct (String.eqb_spec k' k) as [-> | Hk]; cbn [find fst snd].
    + destruct (String.eqb k x); [| lia]. destruct (n =? 0)%Z eqn:E; [| reflexivity].
      apply Z.eqb_eq in E. subst n. reflexivity.
    + destruct (String.eqb_spec k' x) as [-> | Hx].
      * destruct (String.eqb_spec k x) as [-> | _]; [congruence | lia].
      * exact IH.
Qed.

Lemma countDay_positive (k : string) (months : list (string * Z)) :
  (forall entry, In entry months -> (0 < snd entry)%Z) ->
  forall entry, In entry (GanttHeader.countDay k months) -> (0 < snd entry)%Z.
Proof.
  induction months as [|[k' n] rest IH]; cbn [GanttHeader.countDay]; intros Hpos entry Hin.
  - destruct Hin as [<- | []]. cbn. lia.
  - destruct (String.eqb k' k).
    + destruct Hin as [<- | Hin]; [| apply Hpos; right; exact Hin].
      pose proof (Hpos (k', n) (or_introl eq_refl)) as P. cbn [snd] in P |- *.
      destruct (n =? 0)%Z; lia.
    + destruct Hin as [<- | Hin]; [apply Hpos; left; reflexivity |].
      apply IH; [| exact Hin]. intros e' He'. apply Hpos. right. exact He'.
Qed.

Lemma countDays_spec (days : list GanttHeader.Day) :
  forall months : list (string * Z),
    List.NoDup (map fst months) ->
    (forall entry, In entry months -> (0 < snd entry)%Z) ->
    List.NoDup (map fst (countDays months days)) /\
    (forall entry, In entry (countDays months days) -> (0 < snd entry)%Z) /\
    (forall k, countOf (countDays months days) k =
               (countOf months k + Z.of_nat (length (daysOfMonth days k)))%Z).
Proof.
  induction days as [|d rest IH]; intros months Hnd Hpos; unfold countDays; cbn [fold_left].
  - split; [exact Hnd |]. split; [exact Hpos |]. intros k. cbn. lia.
  - destruct (IH (GanttHeader.countDay (GanttHeader.monthKey d) months))
      as (A & B & C).
    + apply countDay_keys, Hnd.
    + apply countDay_positive, Hpos.
    + split; [exact A |]. split; [exact B |]. intros k.
      unfold countDays in C. rewrite C, countDay_countOf.
      unfold daysOfMonth. cbn [List.filter].
      destruct (String.eqb (GanttHeader.monthKey d) k); cbn [length]; lia.
Qed.

Lemma countOf_In (months : list (string * Z)) (k : string) (c : Z) :
  List.NoDup (map fst months) -> In (k, c) months -> countOf months k = c.
Proof.
  unfold countOf.
  induction months as [|[k' n] rest IH]; cbn [map fst find snd]; intros Hnd Hin.
  - destruct Hin.
  - inversion Hnd as [|? ? Hnot Hrest]; subst.
    destruct Hin as [E | Hin].
    + injection E as -> ->. rewrite String.eqb_refl. reflexivity.
    + destruct (String.eqb_spec k' k) as [-> | _].
      * exfalso. apply Hnot. apply (in_map fst) in Hin. exact Hin.
      * apply IH; assumption.
Qed.

(** X19.  Given enough rounds, the loop of the header ends with exactly
    one entry of [months] for each month key of the days: the keys are
    distinct, every day's key has an entry, and the count of an entry is
    the number of days with its key, which is positive. *)
Theorem fill_months (fuel : nat) (s e : Z) :
  (span s e <= fuel)%nat ->
  exists (months : list (string * Z)) (days : list GanttHeader.Day),
    GanttHeader.fill fuel (DateTime s) (DateTime e) [] [] = Some (months, days) /\
    List.NoDup (map fst months) /\
    (forall k c, In (k, c) months ->
       (0 < c)%Z /\ c = Z.of_nat (length (daysOfMonth days k))) /\
    (forall d, In d days -> In (GanttHeader.monthKey d) (map fst months)).
Proof.
  intros Hfuel.
  destruct (Z.le_gt_cases (GanttHeader.dayIndex s) (GanttHeader.dayIndex e)) as [Hse | Hse].
  - set (days := daysFrom s (span s e)).
    exists (countDays [] days), days.
    destruct (countDays_spec days [] (List.NoDup_nil _) ltac:(intros ? [])) as (A & B & C).
    split.
    { rewrite (fill_run (span s e) fuel s e [] []); [reflexivity | | exact Hfuel].
      unfold span. lia. }
    split; [exact A |]. split.
    + intros k c Hin. split; [apply (B (k, c) Hin) |].
      rewrite <- (countOf_In _ k c A Hin), C. cbn. lia.
    + intros d Hd.
      assert (P : (0 < countOf (countDays [] days) (GanttHeader.monthKey d))%Z).
      { rewrite C. cbn [countOf find].
        assert (In d (daysOfMonth days (GanttHeader.monthKey d))) as Hin.
        { apply filter_In. split; [exact Hd | apply String.eqb_refl]. }
        destruct (daysOfMonth days (GanttHeader.monthKey d)); [destruct Hin | cbn; lia]. }
      unfold countOf in P.
      destruct (find _ (countDays [] days)) as [[k c]|] eqn:F; [| lia].
      apply find_some in F. destruct F as [Hin Hk]. cbn [fst] in Hk.
      apply String.eqb_eq in Hk. subst k. apply (in_map fst) in Hin. exact Hin.
  - exists [], []. split.
    + assert (C : GanttHeader.isSameOrBefore_day (DateTime s) (DateTime e) = false).
      { rewrite isSameOrBefore_day_spec. apply Z.leb_gt. lia. }
      destruct fuel; cbn [GanttHeader.fill]; rewrite C; reflexivity.
    + split; [constructor |]. split; [intros ? ? [] | intros ? []].
Qed.

Lemma countDay_sum (k : string) (months : list (string * Z)) :
  fold_right Z.add 0%Z (map snd (GanttHeader.countDay k months)) =
  (fold_right Z.add 0%Z (map snd months) + 1)%Z.
Proof.
  induction months as [|[k' n] rest IH]; cbn [GanttHeader.countDay map snd fold_right].
  - reflexivity.
  - destruct (String.eqb k' k); cbn [map snd fold_right].
    + destruct (n =? 0)%Z eqn:E; [apply Z.eqb_eq in E; subst n |]; lia.
    + rewrite IH. lia.
Qed.

Lemma countDays_sum (days : list GanttHeader.Day) :
  forall months : list (string * Z),
    fold_right Z.add 0%Z (map snd (countDays months days)) =
    (fold_right Z.add 0%Z (map snd months) + Z.of_nat (length days))%Z.
Proof.
  induction days as [|d rest IH]; intros months; unfold countDays; cbn [fold_left length].
  - lia.
  - fold (countDays (GanttHeader.countDay (GanttHeader.monthKey d) months) rest).
    rewrite IH, countDay_sum. lia.
Qed.

(** X20.  Given enough rounds, the day counts of the month cells of the
    header, each cell being its count times the width of a day wide, add
    up to the number of day cells. *)
Theorem header_month_counts_sum (fuel : nat) (s e : Z) :
  (span s e <= fuel)%nat ->
  exists (months : list (string * Z)) (days : list GanttHeader.Day),
    GanttHeader.fill fuel (DateTime s) (DateTime e) [] [] = Some (months, days) /\
    fold_right Z.add 0%Z (GanttHeader.monthCellDays months) =
    Z.of_nat (length (GanttHeader.dayCells days)).
Proof.
  intros Hfuel.
  assert (R : exists n, GanttHeader.fill fuel (DateTime s) (DateTime e) [] [] =
                        Some (countDays [] (daysFrom s n), daysFrom s n)).
  { destruct (Z.le_gt_cases (GanttHeader.dayIndex s) (GanttHeader.dayIndex e)) as [Hse | Hse].
    - exists (span s e).
      rewrite (fill_run (span s e) fuel s e [] []); [reflexivity | | exact Hfuel].
      unfold span. lia.
    - exists 0%nat.
      assert (C : GanttHeader.isSameOrBefore_day (DateTime s) (DateTime e) = false).
      { rewrite isSameOrBefore_day_spec. apply Z.leb_gt. lia. }
      destruct fuel; cbn [GanttHeader.fill]; rewrite C; reflexivity. }
  destruct R as (n & R). eexists _, _. split; [exact R |].
  unfold GanttHeader.monthCellDays, GanttHeader.dayCells.
  rewrite length_map.
  change (map (fun entry : string * Z => snd entry)) with (map (@snd string Z)).
  rewrite countDays_sum. cbn [map fold_right]. lia.
Qed.

Lemma dayIndex_shift (ms k : Z) :
  GanttHeader.dayIndex (ms + k * Moment.day_ms) = (GanttHeader.dayIndex ms + k)%Z.
Proof.
  unfold GanttHeader.dayIndex, Moment.day_ms.
  replace (ms + k * 86400000 + GanttHeader.utcOffset)%Z
    with (ms + GanttHeader.utcOffset + k * 86400000)%Z by lia.
  apply Z.div_add. lia.
Qed.

Lemma dayIndex_distance (lo hi : Z) :
  (lo <= hi)%Z ->
  ((hi - lo) / Moment.day_ms <= GanttHeader.dayIndex hi - GanttHeader.dayIndex lo
     <= (hi - lo) / Moment.day_ms + 1)%Z.
Proof.
  intros Hle. unfold GanttHeader.dayIndex, Moment.day_ms.
  set (o := GanttHeader.utcOffset).
  pose proof (Z.mul_div_le (hi - lo) 86400000 ltac:(lia)).
  pose proof (Z.mul_succ_div_gt (hi - lo) 86400000 ltac:(lia)).
  pose proof (Z.mul_div_le (hi + o) 86400000 ltac:(lia)).
  pose proof (Z.mul_succ_div_gt (hi + o) 86400000 ltac:(lia)).
  pose proof (Z.mul_div_le (lo + o) 86400000 ltac:(lia)).
  pose proof (Z.mul_succ_div_gt (lo + o) 86400000 ltac:(lia)).
  lia.
Qed.

(** X21.  The header of the chart's window: for tasks with valid dates
    it is drawn from the start to the end of the window and has one or
    two day cells more than the days the day width was computed for. *)
Theorem header_of_chart_window (viewportWidth : Q) (tasks : list GanttTask.t) :
  List.filter GanttChart.hasBothDates tasks <> [] ->
  (forall t d, In t (List.filter GanttChart.hasBothDates tasks) ->
     GanttTask.startDate t = Some d \/ GanttTask.endDate t = Some d -> d <> InvalidDate) ->
  exists (range : GanttChart.DateRange) (totalDays : Z),
    GanttChart.dateRange (GanttChart.layout (Fin viewportWidth) tasks) = Some range /\
    Moment.diff (GanttChart.end_ range) (GanttChart.start range) = Fin (inject_Z totalDays) /\
    forall fuel : nat,
      (Z.to_nat totalDays + 2 <= fuel)%nat ->
      exists (months : list (string * Z)) (days : list GanttHeader.Day),
        GanttHeader.fill fuel (GanttChart.start range) (GanttChart.end_ range) [] [] =
          Some (months, days) /\
        (totalDays + 1 <= Z.of_nat (length days) <= totalDays + 2)%Z.
Proof.
  intros Hne Hvalid.
  destruct (layout_of_valid_dates (Fin viewportWidth) tasks Hne Hvalid)
    as (lo & hi & Hle & _ & Hlayout).
  exists (GanttChart.mkRange (DateTime (lo - 7 * Moment.day_ms))
                             (DateTime (hi + 7 * Moment.day_ms))),
    ((hi - lo) / Moment.day_ms + 14)%Z.
  split; [rewrite Hlayout; reflexivity |].
  split.
  { cbn [GanttChart.end_ GanttChart.start Moment.diff].
    rewrite quot_padded by exact Hle. reflexivity. }
  intros fuel Hfuel. cbn [GanttChart.end_ GanttChart.start].
  pose proof (dayIndex_distance lo hi Hle) as Hd.
  assert (H0 : (0 <= (hi - lo) / Moment.day_ms)%Z)
    by (apply Z.div_pos; unfold Moment.day_ms; lia).
  assert (Hs : GanttHeader.dayIndex (lo - 7 * Moment.day_ms)
               = (GanttHeader.dayIndex lo - 7)%Z).
  { replace (lo - 7 * Moment.day_ms)%Z with (lo + (-7) * Moment.day_ms)%Z by lia.
    rewrite dayIndex_shift. lia. }
  assert (He : GanttHeader.dayIndex (hi + 7 * Moment.day_ms)
               = (GanttHeader.dayIndex hi + 7)%Z) by apply dayIndex_shift.
  set (n := Z.to_nat (GanttHeader.dayIndex hi - GanttHeader.dayIndex lo + 15)).
  exists (countDays [] (daysFrom (lo - 7 * Moment.day_ms) n)),
    (daysFrom (lo - 7 * Moment.day_ms) n).
  split.
  - rewrite (fill_run n fuel _ _ [] []); [reflexivity | | ].
    + rewrite Hs, He. unfold n. lia.
    + unfold n. lia.
  - unfold daysFrom. rewrite length_map, length_seq. unfold n. lia.
Qed.

End Header.

(** ** The header of the first days of March 2024, in the time zone UTC *)

Example header_first_days_of_march :
  option_map
    (fun r => (fst r,
               map (fun d => (GanttHeader.day d, GanttHeader.month d, GanttHeader.isWeekend d))
                   (snd r)))
    (GanttHeader.fill (H := GanttHeader.utc) 5
       (Example.ymd 2024 3 1) (Example.ymd 2024 3 3) [] []) =
  Some ([("2024-03", 3%Z)],
        [(1%Z, "Mar", false); (2%Z, "Mar", true); (3%Z, "Mar", true)]).
Proof. vm_compute. reflexivity. Qed.

(** The rounds run out when they are fewer than the days. *)
Example header_out_of_rounds :
  GanttHeader.fill (H := GanttHeader.utc) 2
    (Example.ymd 2024 3 1) (Example.ymd 2024 3 3) [] [] = None.
Proof. vm_compute. reflexivity. Qed.

Lemma fill_days_witness :
  exists months : list (string * Z),
    GanttHeader.fill (H := GanttHeader.utc) 5
      (DateTime 1709251200000) (DateTime 1709424000000) [] [] =
    Some (months,
          map (fun i => dayCell (H := GanttHeader.utc)
                          (DateTime (1709251200000 + Z.of_nat i * Moment.day_ms)))
              (seq 0 (span (H := GanttHeader.utc) 1709251200000 1709424000000))) /\
    (0 < span (H := GanttHeader.utc) 1709251200000 1709424000000)%nat.
Proof.
  apply (fill_days (H := GanttHeader.utc) 5 1709251200000 1709424000000).
  - discriminate.
  - vm_compute. lia.
Defined.

Lemma fill_months_witness :
  exists (months : list (string * Z)) (days : list GanttHeader.Day),
    GanttHeader.fill (H := GanttHeader.utc) 40
      (DateTime 1709251200000) (DateTime 1712016000000) [] [] = Some (months, days) /\
    List.NoDup (map fst months) /\
    (forall k c, In (k, c) months ->
       (0 < c)%Z /\ c = Z.of_nat (length (daysOfMonth days k))) /\
    (forall d, In d days -> In (GanttHeader.monthKey d) (map fst months)).
Proof.
  apply (fill_months (H := GanttHeader.utc) 40 1709251200000 1712016000000).
  vm_compute. lia.
Defined.

Lemma header_month_counts_sum_witness :
  exists (months : list (string * Z)) (days : list GanttHeader.Day),
    GanttHeader.fill (H := GanttHeader.utc) 40
      (DateTime 1709251200000) (DateTime 1712016000000) [] [] = Some (months, days) /\
    fold_right Z.add 0%Z (GanttHeader.monthCellDays months) =
    Z.of_nat (length (GanttHeader.dayCells days)).
Proof.
  apply (header_month_counts_sum (H := GanttHeader.utc) 40 1709251200000 1712016000000).
  vm_compute. lia.
Defined.

Lemma header_of_chart_window_witness :
  exists (range : GanttChart.DateRange) (totalDays : Z),
    GanttChart.dateRange (GanttChart.layout (Fin 1550) [Samples.alpha; Samples.no_end])
      = Some range /\
    Moment.diff (GanttChart.end_ range) (GanttChart.start range) = Fin (inject_Z totalDays) /\
    forall fuel : nat,
      (Z.to_nat totalDays + 2 <= fuel)%nat ->
      exists (months : list (string * Z)) (days : list GanttHeader.Day),
        GanttHeader.fill (H := GanttHeader.utc) fuel
          (GanttChart.start range) (GanttChart.end_ range) [] [] = Some (months, days) /\
        (totalDays + 1 <= Z.of_nat (length days) <= totalDays + 2)%Z.
Proof.
  apply (header_of_chart_window (H := GanttHeader.utc) 1550 [Samples.alpha; Samples.no_end]).
  - discriminate.
  - intros t d [<- | []] [E | E]; injection E as <-; discriminate.
Defined.

(** * The board id of the URL *)

Definition all_digits (s : string) : Prop :=
  forallb MondayService.is_digit (list_ascii_of_string s) = true.

(** [s] does not begin with a digit. *)
Definition no_digit_ahead (s : string) : Prop :=
  match s with
  | String c _ => MondayService.is_digit c = false
  | EmptyString => True
  end.

Lemma leading_digits_split (s : string) :
  exists rest : string,
    s = MondayService.leading_digits s +:+ rest /\
    all_digits (MondayService.leading_digits s) /\
    no_digit_ahead rest.
Proof.
  induction s as [|c s (rest & E & D & N)]; cbn [MondayService.leading_digits].
  - exists EmptyString. repeat split.
  - destruct (MondayService.is_digit c) eqn:Hc.
    + exists rest. split.
      { change (String c s = String c (MondayService.leading_digits s +:+ rest)).
        f_equal. exact E. }
      split; [| exact N]. unfold all_digits. cbn [list_ascii_of_string forallb].
      rewrite Hc. exact D.
    + exists (String c s). split; [reflexivity |]. split; [reflexivity | exact Hc].
Qed.

Lemma match_first_sound (atoms : list MondayService.Atom) (url id : string) :
  MondayService.match_first atoms url = Some id ->
  exists pre text rest : string,
    url = pre +:+ text /\
    MondayService.after_atoms atoms text = Some (id +:+ rest) /\
    id <> EmptyString /\ all_digits id /\ no_digit_ahead rest.
Proof.
  induction url as [|c url IH]; cbn [MondayService.match_first].
  - destruct (MondayService.match_here atoms EmptyString) as [run|] eqn:M; [| discriminate].
    intros [= <-]. unfold MondayService.match_here in M.
    destruct (MondayService.after_atoms atoms EmptyString) as [tail|] eqn:A; [| discriminate].
    destruct (leading_digits_split tail) as (rest & E & D & N).
    destruct (MondayService.leading_digits tail) as [|d run'] eqn:L; [discriminate |].
    injection M as <-.
    exists EmptyString, EmptyString, rest. rewrite A, <- E.
    repeat split; [discriminate | exact D | exact N].
  - destruct (MondayService.match_here atoms (String c url)) as [run|] eqn:M.
    + intros [= <-]. unfold MondayService.match_here in M.
      destruct (MondayService.after_atoms atoms (String c url)) as [tail|] eqn:A;
        [| discriminate].
      destruct (leading_digits_split tail) as (rest & E & D & N).
      destruct (MondayService.leading_digits tail) as [|d run'] eqn:L; [discriminate |].
      injection M as <-.
      exists EmptyString, (String c url), rest. rewrite A, <- E.
      repeat split; [discriminate | exact D | exact N].
    + intros Hm. destruct (IH Hm) as (pre & text & rest & -> & A & P).
      exists (String c pre), text, rest. split; [reflexivity |]. split; [exact A | exact P].
Qed.

(** X22.  A board id found in the URL is a non-empty run of digits that
    follows in the URL a text accepted by one of the four patterns, and
    it is not followed by a further digit. *)
Theorem extractBoardIdFromUrl_sound (href : option string) (id : string) :
  MondayService.extractBoardIdFromUrl href = Some id ->
  exists (url pre text rest : string) (pattern : list MondayService.Atom),
    href = Some url /\
    In pattern MondayService.patterns /\
    url = pre +:+ text /\
    MondayService.after_atoms pattern text = Some (id +:+ rest) /\
    id <> EmptyString /\ all_digits id /\ no_digit_ahead rest.
Proof.
  destruct href as [url|]; [| discriminate].
  unfold MondayService.extractBoardIdFromUrl, MondayService.patterns. cbn [fold_left].
  destruct (MondayService.match_first (MondayService.literal "/boards/") url)
    as [r1|] eqn:M1.
  { intros [= ->]. destruct (match_first_sound _ _ _ M1) as (pre & text & rest & P).
    exists url, pre, text, rest, (MondayService.literal "/boards/").
    split; [reflexivity |]. split; [left; reflexivity | exact P]. }
  destruct (MondayService.match_first
              (MondayService.literal "boardId" ++ [MondayService.equals_colon]) url)
    as [r2|] eqn:M2.
  { intros [= ->]. destruct (match_first_sound _ _ _ M2) as (pre & text & rest & P).
    exists url, pre, text, rest,
      (MondayService.literal "boardId" ++ [MondayService.equals_colon]).
    split; [reflexivity |]. split; [right; left; reflexivity | exact P]. }
  destruct (MondayService.match_first
              (MondayService.literal "board_id" ++ [MondayService.equals_colon]) url)
    as [r3|] eqn:M3.
  { intros [= ->]. destruct (match_first_sound _ _ _ M3) as (pre & text & rest & P).
    exists url, pre, text, rest,
      (MondayService.literal "board_id" ++ [MondayService.equals_colon]).
    split; [reflexivity |]. split; [right; right; left; reflexivity | exact P]. }
  intros M4. destruct (match_first_sound _ _ _ M4) as (pre & text & rest & P).
  exists url, pre, text, rest, (MondayService.literal "boards%2F").
  split; [reflexivity |]. split; [right; right; right; left; reflexivity | exact P].
Qed.

Example board_id_of_board_page :
  MondayService.extractBoardIdFromUrl
    (Some "https://team.monday.com/boards/1234567/views/8?boardId=99") = Some "1234567" /\
  MondayService.extractBoardIdFromUrl
    (Some "https://team.monday.com/boards/new?board_id:77x") = Some "77" /\
  MondayService.extractBoardIdFromUrl (Some "https://team.monday.com/boards/") = None /\
  MondayService.extractBoardIdFromUrl None = None.
Proof. vm_compute. repeat split; reflexivity. Qed.

Lemma extractBoardIdFromUrl_sound_witness :
  exists (url pre text rest : string) (pattern : list MondayService.Atom),
    Some "https://team.monday.com/boards/1234567/views/8" = Some url /\
    In pattern MondayService.patterns /\
    url = pre +:+ text /\
    MondayService.after_atoms pattern text = Some ("1234567" +:+ rest) /\
    "1234567" <> EmptyString /\ all_digits "1234567" /\ no_digit_ahead rest.
Proof.
  apply (extractBoardIdFromUrl_sound
           (Some "https://team.monday.com/boards/1234567/views/8") "1234567").
  reflexivity.
Defined.

Lemma match_first_complete (atoms : list MondayService.Atom) (pre text rest : string)
    (d : ascii) :
  MondayService.after_atoms atoms text = Some (String d rest) ->
  MondayService.is_digit d = true ->
  MondayService.match_first atoms (pre +:+ text) <> None.
Proof.
  intros A D.
  assert (Here : MondayService.match_here atoms text <> None).
  { unfold MondayService.match_here. rewrite A.
    cbn [MondayService.leading_digits]. rewrite D. discriminate. }
  assert (First : MondayService.match_first atoms text <> None).
  { clear A. destruct text; cbn [MondayService.match_first];
      (destruct (MondayService.match_here atoms _);
       [discriminate | contradiction]). }
  induction pre as [|c pre IH].
  - exact First.
  - change (String c pre +:+ text) with (String c (pre +:+ text)).
    cbn [MondayService.match_first].
    destruct (MondayService.match_here atoms (String c (pre +:+ text)));
      [discriminate | exact IH].
Qed.

(** X23.  A URL that holds a text accepted by one of the four patterns
    with a digit after it gives a board id. *)
Theorem extractBoardIdFromUrl_complete (pattern : list MondayService.Atom)
    (pre text rest : string) (d : ascii) :
  In pattern MondayService.patterns ->
  MondayService.after_atoms pattern text = Some (String d rest) ->
  MondayService.is_digit d = true ->
  MondayService.extractBoardIdFromUrl (Some (pre +:+ text)) <> None.
Proof.
  intros Hin A D.
  pose proof (match_first_complete pattern pre text rest d A D) as Found.
  unfold MondayService.extractBoardIdFromUrl. revert Hin Found.
  unfold MondayService.patterns. cbn [fold_left In].
  intros Hin Found.
  destruct (MondayService.match_first (MondayService.literal "/boards/") (pre +:+ text))
    eqn:M1; [discriminate |].
  destruct (MondayService.match_first
              (MondayService.literal "boardId" ++ [MondayService.equals_colon])
              (pre +:+ text)) eqn:M2; [discriminate |].
  destruct (MondayService.match_first
              (MondayService.literal "board_id" ++ [MondayService.equals_colon])
              (pre +:+ text)) eqn:M3; [discriminate |].
  destruct Hin as [<- | [<- | [<- | [<- | []]]]]; congruence.
Qed.

Lemma extractBoardIdFromUrl_complete_witness :
  MondayService.extractBoardIdFromUrl
    (Some ("https://apps.example.com/view?" +:+ "boardId=42&theme=dark")) <> None.
Proof.
  apply (extractBoardIdFromUrl_complete
           (MondayService.literal "boardId" ++ [MondayService.equals_colon])
           "https://apps.example.com/view?" "boardId=42&theme=dark" "2&theme=dark" "4").
  - right. left. reflexivity.
  - reflexivity.
  - reflexivity.
Defined.

(** * The selection of boards *)

(** X24.  Selecting a board that is not selected and deselecting it again
    gives back the selection, and leaves the other settings as they
    were. *)
Theorem handleBoardToggle_round_trip (localSettings : GanttSettings.t) (boardId : string) :
  ~ In boardId (default [] (GanttSettings.selectedBoards localSettings)) ->
  SettingsPanel.handleBoardToggle
    (SettingsPanel.handleBoardToggle localSettings boardId true) boardId false =
  SettingsPanel.withSelectedBoards localSettings
    (default [] (GanttSettings.selectedBoards localSettings)).
Proof.
  intros Hnot. unfold SettingsPanel.handleBoardToggle, SettingsPanel.withSelectedBoards.
  cbn [GanttSettings.selectedBoards GanttSettings.colorByColumn GanttSettings.groupByColumn
       GanttSettings.sortByColumn GanttSettings.sortDirection GanttSettings.showSubitems
       GanttSettings.timelineColumn GanttSettings.mirrorColumns default].
  set (l := default [] (GanttSettings.selectedBoards localSettings)) in *. clearbody l.
  change (id (l ++ [boardId])) with (l ++ [boardId]).
  f_equal. f_equal. rewrite List.filter_app. cbn [List.filter].
  rewrite String.eqb_refl. cbn [negb]. rewrite app_nil_r.
  induction l as [|x l IH]; [reflexivity |].
  cbn [List.filter]. destruct (String.eqb_spec x boardId) as [-> | _].
  - exfalso. apply Hnot. left. reflexivity.
  - cbn [negb]. f_equal. apply IH. intros Hin. apply Hnot. right. exact Hin.
Qed.

Lemma handleBoardToggle_round_trip_witness :
  SettingsPanel.handleBoardToggle
    (SettingsPanel.handleBoardToggle
       (SettingsPanel.withSelectedBoards Samples.settings ["b1"]) "b2" true) "b2" false =
  SettingsPanel.withSelectedBoards
    (SettingsPanel.withSelectedBoards Samples.settings ["b1"])
    (default [] (GanttSettings.selectedBoards
                   (SettingsPanel.withSelectedBoards Samples.settings ["b1"]))).
Proof.
  apply (handleBoardToggle_round_trip
           (SettingsPanel.withSelectedBoards Samples.settings ["b1"]) "b2").
  intros [E | []]. discriminate E.
Defined.

(** X25.  Deselecting the only selected board makes the next load take
    every board: an empty selection counts as no selection. *)
Theorem deselecting_last_board_selects_all (settings : GanttSettings.t)
    (boards : list MondayBoard.t) (boardId : string) :
  (forall id, In id (default [] (GanttSettings.selectedBoards settings)) -> id = boardId) ->
  App.selectedBoardIds (SettingsPanel.handleBoardToggle settings boardId false) boards =
  map MondayBoard.id boards.
Proof.
  intros Honly. unfold App.selectedBoardIds, SettingsPanel.handleBoardToggle,
    SettingsPanel.withSelectedBoards. cbn [GanttSettings.selectedBoards].
  assert (E : List.filter (fun id => negb (String.eqb id boardId))
                (default [] (GanttSettings.selectedBoards settings)) = []).
  { induction (default [] (GanttSettings.selectedBoards settings)) as [|x l IH];
      [reflexivity |].
    cbn [List.filter]. rewrite (Honly x (or_introl eq_refl)), String.eqb_refl.
    cbn [negb]. apply IH. intros id Hid. apply Honly. right. exact Hid. }
  rewrite E. reflexivity.
Qed.

Lemma deselecting_last_board_selects_all_witness :
  App.selectedBoardIds
    (SettingsPanel.handleBoardToggle
       (SettingsPanel.withSelectedBoards Samples.settings ["b1"]) "b1" false)
    [Samples.board] =
  map MondayBoard.id [Samples.board].
Proof.
  apply (deselecting_last_board_selects_all
           (SettingsPanel.withSelectedBoards Samples.settings ["b1"]) [Samples.board] "b1").
  intros id [<- | []]. reflexivity.
Defined.
